(** * Formatly: the document-formatting job lifecycle

    A shallow embedding of the three Python sources of the service:

    - [src/api.py]: the service that runs the real pipeline
      ([process_document_task]);
    - [src/main.py]: the service that runs the simulated pipeline
      ([simulate_processing]);
    - [src/app/api/upload-complete.py]: a third copy of the completion
      webhook.

    The handlers are [async def] functions that talk to collaborators
    (the Supabase table [documents], the Supabase storage bucket
    [documents], the formatter, the clock, the logger).  They are embedded
    as programs of a small free monad [Prog]: a tree of collaborator calls
    whose continuations receive either the call's value or the exception it
    raised.  [try]/[except]/[finally] are functions on such trees.  The
    interpreter [run] executes a program against a [World]; [calls] lists
    the collaborator calls the program issues, in order. *)

From Stdlib Require Import ZArith QArith String Ascii Bool.
From stdpp Require Import base option list gmap strings pretty.

Local Open Scope string_scope.
Local Open Scope Z_scope.

(** ** Python strings *)

Module Str.

(** [needle in hay]. *)
Fixpoint contains (needle hay : string) : bool :=
  String.prefix needle hay ||
  match hay with
  | EmptyString => false
  | String _ rest => contains needle rest
  end.

Definition lower_ascii (c : ascii) : ascii :=
  let n := nat_of_ascii c in
  if (Nat.leb 65 n && Nat.leb n 90)%bool then ascii_of_nat (n + 32) else c.

(** [s.lower()], on the ASCII letters: the two agree on strings of ASCII
    characters (see [ascii_only] below). *)
Fixpoint lower (s : string) : string :=
  match s with
  | EmptyString => EmptyString
  | String c rest => String (lower_ascii c) (lower rest)
  end.

Fixpoint rev_acc (s acc : string) : string :=
  match s with
  | EmptyString => acc
  | String c rest => rev_acc rest (String c acc)
  end.

Definition rev (s : string) : string := rev_acc s EmptyString.

(** [s.split(sep)] for a non-empty [sep]: [skip] counts the characters
    of a separator still to be dropped, [cur] is the current piece,
    reversed. *)
Fixpoint split_from (sep : string) (skip : nat) (cur : string) (s : string)
  : list string :=
  match s with
  | EmptyString => [rev cur]
  | String c rest =>
      match skip with
      | S n => split_from sep n cur rest
      | O =>
          if String.prefix sep s
          then rev cur :: split_from sep (String.length sep - 1) EmptyString rest
          else split_from sep O (String c cur) rest
      end
  end.

Definition split (sep s : string) : list string := split_from sep O EmptyString s.

(** [l[-1]] and [l[0]] of a list that [split] returned (never empty). *)
Definition last_piece (l : list string) : string := List.last l EmptyString.
Definition first_piece (l : list string) : string := List.hd EmptyString l.

(** Python truthiness of a string. *)
Definition truthy (s : string) : bool :=
  match s with EmptyString => false | _ => true end.

End Str.

(** ** base64.b64encode *)

Module Base64.

Definition alphabet : string :=
  "ABCDEFGHIJKLMNOPQRSTUVWXYZabcdefghijklmnopqrstuvwxyz0123456789+/".

Definition digit (n : Z) : ascii :=
  match String.get (Z.to_nat n) alphabet with
  | Some c => c
  | None => "="%char
  end.

Definition byte (c : ascii) : Z := Z.of_nat (nat_of_ascii c).

Fixpoint b64encode (s : string) : string :=
  match s with
  | EmptyString => EmptyString
  | String a EmptyString =>
      let n := Z.shiftl (byte a) 16 in
      String (digit (Z.land (Z.shiftr n 18) 63))
        (String (digit (Z.land (Z.shiftr n 12) 63)) "==")
  | String a (String b EmptyString) =>
      let n := Z.lor (Z.shiftl (byte a) 16) (Z.shiftl (byte b) 8) in
      String (digit (Z.land (Z.shiftr n 18) 63))
        (String (digit (Z.land (Z.shiftr n 12) 63))
           (String (digit (Z.land (Z.shiftr n 6) 63)) "="))
  | String a (String b (String c rest)) =>
      let n := Z.lor (Z.lor (Z.shiftl (byte a) 16) (Z.shiftl (byte b) 8)) (byte c) in
      String (digit (Z.land (Z.shiftr n 18) 63))
        (String (digit (Z.land (Z.shiftr n 12) 63))
           (String (digit (Z.land (Z.shiftr n 6) 63))
              (String (digit (Z.land n 63)) (b64encode rest))))
  end.

End Base64.

(** ** Values, rows and exceptions *)

(** The JSON values the code stores in [processing_log] and
    [formatting_options].  Floats (durations) are rationals. *)
Inductive value : Type :=
| VNone
| VBool (b : bool)
| VInt (n : Z)
| VFloat (q : Q)
| VStr (s : string).

(** A Python [dict] with string keys and JSON values. *)
Abbreviation dict := (gmap string value).

(** Python truthiness. *)
Definition truthy (v : value) : bool :=
  match v with
  | VNone => false
  | VBool b => b
  | VInt n => negb (n =? 0)
  | VFloat q => negb (Qeq_bool q 0)
  | VStr s => Str.truthy s
  end.

Definition dict_truthy (d : option dict) : bool :=
  match d with
  | None => false
  | Some m => negb (bool_decide (m = ∅))
  end.

(** [d or {}]. *)
Definition or_empty (d : option dict) : dict :=
  if dict_truthy d then default ∅ d else ∅.

Definition opt_str_truthy (s : option string) : bool :=
  match s with
  | None => false
  | Some t => Str.truthy t
  end.

(** [d.get(k, default)]. *)
Definition dict_get (d : dict) (k : string) (default : value) : value :=
  match d !! k with
  | Some v => v
  | None => default
  end.

(** The exceptions the code raises or catches.  [Exception msg] stands
    for any exception class other than the two named ones, with
    [str(e) = msg]. *)
Inductive exn : Type :=
| HTTPException (status_code : Z) (detail : string)
| TimeoutError
| Exception (msg : string).

(** [str(e)]: Starlette prints an [HTTPException] as
    ["<status_code>: <detail>"]. *)
Definition str_exn (e : exn) : string :=
  match e with
  | HTTPException c d => pretty c +:+ ": " +:+ d
  | TimeoutError => ""
  | Exception m => m
  end.

Definition is_http (e : exn) : bool :=
  match e with HTTPException _ _ => true | _ => false end.

(** A row of the table [documents], with the columns the code writes or
    reads.  A column the code may leave unset is an [option]. *)
Record Document : Type := mkDocument {
  id_ : string;
  user_id : string;
  filename : string;
  original_filename : string;
  status : string;
  style_applied : string;
  language_variant : string;
  storage_location : option string;
  formatting_options : option dict;
  tracked_changes : option value;
  file_type : option string;
  file_size : option Z;
  processing_log : option dict;
  result_url : option string;
  formatting_time : option Q;
  processed_at : option Q;
  created_at : Q;
  updated_at : Q
}.

(** The dictionary [update_data] that [update_document_status] sends. *)
Record UpdateData : Type := mkUpdate {
  u_status : string;
  u_updated_at : Q;
  u_processing_log : option dict;
  u_result_url : option string;
  u_processed_at : option Q;
  u_formatting_time : option Q
}.

Definition or_else {A} (new old : option A) : option A :=
  match new with
  | Some _ => new
  | None => old
  end.

(** What the table does to one row on [update(update_data)]: the columns
    present in the dictionary are overwritten, the others are kept. *)
Definition apply_update (u : UpdateData) (d : Document) : Document :=
  {| id_ := id_ d;
     user_id := user_id d;
     filename := filename d;
     original_filename := original_filename d;
     status := u_status u;
     style_applied := style_applied d;
     language_variant := language_variant d;
     storage_location := storage_location d;
     formatting_options := formatting_options d;
     tracked_changes := tracked_changes d;
     file_type := file_type d;
     file_size := file_size d;
     processing_log := or_else (u_processing_log u) (processing_log d);
     result_url := or_else (u_result_url u) (result_url d);
     formatting_time := or_else (u_formatting_time u) (formatting_time d);
     processed_at := or_else (u_processed_at u) (processed_at d);
     created_at := created_at d;
     updated_at := u_updated_at u |}.

(** What [create_signed_upload_url] may answer: a dictionary of strings,
    or some other object, of which the code looks at the truth value and
    at [str(response)]. *)
Inductive SignedResponse : Type :=
| RDict (d : gmap string string)
| ROther (truth : bool) (repr : string).

(** The background tasks the handlers create. *)
Inductive Task : Type :=
| ProcessDocumentTask (job_id file_path style english_variant : string)
    (options : dict) (user_id : string)
| SimulateProcessing (job_id : string).

(** [logger.warning] and [logger.error]; the [logger.info] lines are not
    modelled. *)
Inductive Level : Type := Warning | Error.

(** ** Collaborator calls *)

(** One constructor per call the code makes on something outside itself;
    the index is the type of the call's value. *)
Inductive Cmd : Type -> Type :=
(* supabase.table("documents") *)
| DbSelect (job_id user_id : string) : Cmd (list Document)
| DbSelectById (job_id : string) : Cmd (list Document)
| DbInsert (d : Document) : Cmd (list Document)
| DbUpdate (u : UpdateData) (job_id : string) : Cmd (list Document)
| DbDelete (job_id : string) : Cmd unit
(* supabase.rpc(name, {p_user_id, p_storage_gb?}) *)
| Rpc (name user_id : string) (storage_gb : option Q) : Cmd unit
(* supabase.storage.from_("documents") *)
| CreateSignedUploadUrl (path : string) : Cmd SignedResponse
| Download (path : string) : Cmd string
| Upload (path content content_type : string) : Cmd unit
| Remove (paths : list string) : Cmd unit
(* core.api_clients, core.formatter *)
| NewClient (backend : string) : Cmd unit
| NewFormatter (style : string) : Cmd unit
| FormatDocument (style backend input : string) : Cmd string
(* the process *)
| GetEnv (name : string) : Cmd (option string)
| Now : Cmd Q
| Sleep (seconds : Q) : Cmd unit
| Uuid4 : Cmd string
| Mkdtemp : Cmd unit
| Rmtree : Cmd unit
| CreateTask (t : Task) : Cmd unit
| Log (level : Level) (msg : string) : Cmd unit
| B64Decode (content : string) : Cmd string
(* the dictionary jobs_storage of main.py *)
| JobsContains (job_id : string) : Cmd bool
| JobsDelete (job_id : string) : Cmd unit.

Inductive result (A : Type) : Type :=
| Ok (a : A)
| Err (e : exn).
Arguments Ok {A} a.
Arguments Err {A} e.

(** The value of a result, when there is one. *)
Definition from_ok {A} (r : result A) : option A :=
  match r with
  | Ok a => Some a
  | Err _ => None
  end.

(** ** Programs *)

Inductive Prog (A : Type) : Type :=
| Ret (a : A)
| Raise (e : exn)
| Vis {X : Type} (c : Cmd X) (k : result X -> Prog A).
Arguments Ret {A} a.
Arguments Raise {A} e.
Arguments Vis {A X} c k.

Fixpoint bind {A B} (p : Prog A) (f : A -> Prog B) : Prog B :=
  match p with
  | Ret a => f a
  | Raise e => Raise e
  | Vis c k => Vis c (fun r => bind (k r) f)
  end.

(** A call whose exception propagates. *)
Definition call {X} (c : Cmd X) : Prog X :=
  Vis c (fun r => match r with Ok x => Ret x | Err e => Raise e end).

(** [try: p  except Exception as e: h e]. *)
Fixpoint try_except {A} (p : Prog A) (h : exn -> Prog A) : Prog A :=
  match p with
  | Ret a => Ret a
  | Raise e => h e
  | Vis c k => Vis c (fun r => try_except (k r) h)
  end.

(** [try: p  finally: f]. *)
Fixpoint try_finally {A} (p : Prog A) (f : Prog unit) : Prog A :=
  match p with
  | Ret a => bind f (fun _ => Ret a)
  | Raise e => bind f (fun _ => Raise e)
  | Vis c k => Vis c (fun r => try_finally (k r) f)
  end.

Declare Scope prog_scope.
Delimit Scope prog_scope with prog.
Bind Scope prog_scope with Prog.
Notation "x <- p ; q" := (bind p (fun x => q))
  (at level 20, p at level 100, q at level 200, only parsing) : prog_scope.
Notation "p ;; q" := (bind p (fun _ => q))
  (at level 100, q at level 200, only parsing, right associativity) : prog_scope.
Notation "'await' c" := (call c) (at level 10, c at level 9) : prog_scope.
Local Open Scope prog_scope.

(** ** The world the programs run against *)

(** What the collaborators answer when they do not fail, and the process
    environment; no program changes these. *)
Record Env : Type := mkEnv {
  environ : gmap string string;                  (* os.environ *)
  uuids : nat -> string;                         (* uuid.uuid4(), n-th draw *)
  signer : string -> SignedResponse;             (* create_signed_upload_url *)
  engine : string -> string -> string -> string; (* formatter output *)
  engine_time : string -> string -> string -> Q; (* seconds format_document takes *)
  b64decode : string -> result string            (* base64.b64decode *)
}.

Record World : Type := mkWorld {
  documents : list Document;       (* the table "documents" *)
  bucket : gmap string string;     (* the storage bucket "documents" *)
  jobs_storage : gmap string dict; (* main.py's in-memory dictionary *)
  temp_dirs : nat;                 (* temporary directories not yet removed *)
  clock : Q;                       (* time.time() *)
  uuid_next : nat;
  oracle : list (option exn);      (* faults of the coming collaborator calls *)
  env : Env
}.

Definition set_documents (d : list Document) (w : World) : World :=
  mkWorld d (bucket w) (jobs_storage w) (temp_dirs w) (clock w) (uuid_next w)
    (oracle w) (env w).
Definition set_bucket (b : gmap string string) (w : World) : World :=
  mkWorld (documents w) b (jobs_storage w) (temp_dirs w) (clock w) (uuid_next w)
    (oracle w) (env w).
Definition set_jobs_storage (j : gmap string dict) (w : World) : World :=
  mkWorld (documents w) (bucket w) j (temp_dirs w) (clock w) (uuid_next w)
    (oracle w) (env w).
Definition set_temp_dirs (n : nat) (w : World) : World :=
  mkWorld (documents w) (bucket w) (jobs_storage w) n (clock w) (uuid_next w)
    (oracle w) (env w).
Definition set_clock (t : Q) (w : World) : World :=
  mkWorld (documents w) (bucket w) (jobs_storage w) (temp_dirs w) t (uuid_next w)
    (oracle w) (env w).
Definition set_uuid_next (n : nat) (w : World) : World :=
  mkWorld (documents w) (bucket w) (jobs_storage w) (temp_dirs w) (clock w) n
    (oracle w) (env w).
Definition set_oracle (o : list (option exn)) (w : World) : World :=
  mkWorld (documents w) (bucket w) (jobs_storage w) (temp_dirs w) (clock w)
    (uuid_next w) o (env w).

(** The rows [eq("id", job_id)] and [eq("user_id", user)] select. *)
Definition has_id (job_id : string) (d : Document) : bool :=
  String.eqb (id_ d) job_id.
Definition owned_by (user : string) (d : Document) : bool :=
  String.eqb (user_id d) user.

Definition select_rows (job_id user : string) (t : list Document) : list Document :=
  List.filter (fun d => has_id job_id d && owned_by user d) t.

Definition update_rows (u : UpdateData) (job_id : string) (t : list Document)
  : list Document :=
  List.map (fun d => if has_id job_id d then apply_update u d else d) t.

Definition delete_rows (job_id : string) (t : list Document) : list Document :=
  List.filter (fun d => negb (has_id job_id d)) t.

(** The exception the storage raises for an object that is not there. *)
Definition object_not_found : exn := Exception "Object not found".

(** Calls that leave the process, and so may fail.  (The two calls on
    the local disk, [Mkdtemp] and [Rmtree], can fail as well: [exec_disk]
    below lets them, where a statement depends on it.) *)
Definition remote {X} (c : Cmd X) : bool :=
  match c with
  | DbSelect _ _ | DbSelectById _ | DbInsert _ | DbUpdate _ _ | DbDelete _
  | Rpc _ _ _
  | CreateSignedUploadUrl _ | Download _ | Upload _ _ _ | Remove _
  | NewClient _ | NewFormatter _ | FormatDocument _ _ _ => true
  | _ => false
  end.

(** What a call does when it does not fail. *)
Definition normal {X} (c : Cmd X) (w : World) : result X * World :=
  match c in Cmd X return result X * World with
  | DbSelect job_id user => (Ok (select_rows job_id user (documents w)), w)
  | DbSelectById job_id => (Ok (List.filter (has_id job_id) (documents w)), w)
  | DbInsert d => (Ok [d], set_documents (documents w ++ [d]) w)
  | DbUpdate u job_id =>
      let t := update_rows u job_id (documents w) in
      (Ok (List.filter (has_id job_id) t), set_documents t w)
  | DbDelete job_id => (Ok tt, set_documents (delete_rows job_id (documents w)) w)
  | Rpc _ _ _ => (Ok tt, w)
  | CreateSignedUploadUrl path => (Ok (signer (env w) path), w)
  | Download path =>
      match bucket w !! path with
      | Some content => (Ok content, w)
      | None => (Err object_not_found, w)
      end
  | Upload path content _ => (Ok tt, set_bucket (<[path := content]> (bucket w)) w)
  | Remove paths =>
      (Ok tt, set_bucket (List.fold_right (fun p b => delete p b) (bucket w) paths) w)
  | NewClient _ => (Ok tt, w)
  | NewFormatter _ => (Ok tt, w)
  | FormatDocument style backend input =>
      (Ok (engine (env w) style backend input),
       set_clock (clock w + engine_time (env w) style backend input)%Q w)
  | GetEnv name => (Ok (environ (env w) !! name), w)
  | Now => (Ok (clock w), w)
  | Sleep s => (Ok tt, set_clock (clock w + s)%Q w)
  | Uuid4 => (Ok (uuids (env w) (uuid_next w)), set_uuid_next (S (uuid_next w)) w)
  | Mkdtemp => (Ok tt, set_temp_dirs (S (temp_dirs w)) w)
  | Rmtree => (Ok tt, set_temp_dirs (Nat.pred (temp_dirs w)) w)
  | CreateTask _ => (Ok tt, w)
  | Log _ _ => (Ok tt, w)
  | B64Decode content => (b64decode (env w) content, w)
  | JobsContains job_id => (Ok (bool_decide (is_Some (jobs_storage w !! job_id))), w)
  | JobsDelete job_id => (Ok tt, set_jobs_storage (delete job_id (jobs_storage w)) w)
  end.

(** A remote call consumes the head of the oracle: [Some e] makes it
    raise [e] and do nothing else. *)
Definition exec {X} (c : Cmd X) (w : World) : result X * World :=
  if remote c then
    match oracle w with
    | [] => normal c w
    | None :: rest => normal c (set_oracle rest w)
    | Some e :: rest => (Err e, set_oracle rest w)
    end
  else normal c w.

Fixpoint run {A} (p : Prog A) (w : World) : result A * World :=
  match p with
  | Ret a => (Ok a, w)
  | Raise e => (Err e, w)
  | Vis c k => let rw := exec c w in run (k (fst rw)) (snd rw)
  end.

Inductive Event : Type :=
| Called {X : Type} (c : Cmd X).

(** The calls a run of [p] from [w] makes, first to last. *)
Fixpoint calls {A} (p : Prog A) (w : World) : list Event :=
  match p with
  | Ret _ | Raise _ => []
  | Vis c k => let rw := exec c w in Called c :: calls (k (fst rw)) (snd rw)
  end.

(** ** Shared request and response shapes (the pydantic models) *)

Record User : Type := mkUser { u_user_id : string; u_email : option string }.

Record UploadInfo : Type := mkUploadInfo {
  upload_url : string;
  file_path : string;
  upload_token : string;
  upload_headers : list (string * string)
}.

Record CreateUploadResponse : Type := mkCreateUploadResponse {
  cu_success : bool;
  cu_job_id : string;
  cu_upload_url : string;
  cu_upload_token : string;
  cu_file_path : string;
  cu_message : string;
  cu_upload_headers : list (string * string)
}.

Record WebhookUploadComplete : Type := mkWebhook {
  wh_job_id : string;
  wh_file_path : string;
  wh_success : bool
}.

(** The dictionary the completion webhook returns. *)
Record WebhookResponse : Type := mkWebhookResponse {
  wr_success : bool;
  wr_message : string;
  wr_job_id : option string
}.

(** [ds_progress] and [ds_error] hold what the handler read off the log.
    The model declares them [progress: int] and [error: Optional[str]]
    and validates them when the response is built; the validation is not
    embedded (see [declared_int] and [declared_optional_str] below). *)
Record DocumentStatusResponse : Type := mkStatusResponse {
  ds_success : bool;
  ds_job_id : string;
  ds_status : string;
  ds_progress : value;
  ds_result_url : option string;
  ds_error : value
}.

Record FormattedDocumentResponse : Type := mkFormattedResponse {
  fd_success : bool;
  fd_filename : string;
  fd_content : string;
  fd_tracked_changes_content : option string;
  fd_metadata : dict
}.

Record ProcessDocumentRequest : Type := mkProcessRequest {
  pr_filename : string;
  pr_content : string;
  pr_style : string;
  pr_englishVariant : string;
  pr_trackedChanges : bool
}.

Record ProcessDocumentResponse : Type := mkProcessResponse {
  pd_success : bool;
  pd_job_id : string;
  pd_status : string;
  pd_message : string
}.

Record DeleteResponse : Type := mkDeleteResponse {
  dl_success : bool;
  dl_message : string
}.

(** [int(x)] of a float: truncation towards zero. *)
Definition int_of_Q (q : Q) : Z := Z.quot (Qnum q) (Zpos (Qden q)).

(** [a or b] on optional strings ([None] and [""] are false). *)
Definition str_or (a b : option string) : option string :=
  if opt_str_truthy a then a else b.

(** [filename.split('.')[-1].lower() if '.' in filename else 'docx']. *)
Definition extension_of (filename : string) : string :=
  if Str.contains "." filename
  then Str.lower (Str.last_piece (Str.split "." filename))
  else "docx".

Definition docx_content_type : string :=
  "application/vnd.openxmlformats-officedocument.wordprocessingml.document".

Definition is_formatted (s : string) : bool := String.eqb s "formatted".

(** ** src/api.py *)

Module Api.

Definition generate_signed_upload_url (filename user : string) : Prog UploadInfo :=
  try_except
    (let file_extension := extension_of filename in
     now <- await Now;
     let timestamp := int_of_Q now in
     uuid <- await Uuid4;
     let unique_filename :=
       "documents/" +:+ user +:+ "/" +:+ pretty timestamp +:+ "_" +:+ uuid
         +:+ "." +:+ file_extension in
     response <- await (CreateSignedUploadUrl unique_filename);
     let '(signed_url, token) :=
       match response with
       | RDict d =>
           (str_or (str_or (d !! "signedURL") (d !! "signed_url")) (d !! "url"),
            default "" (d !! "token"))
       | ROther truth repr => ((if truth then Some repr else None), "")
       end in
     if negb (opt_str_truthy signed_url)
     then Raise (Exception "Failed to generate signed upload URL")
     else
       anon_key <- await (GetEnv "SUPABASE_ANON_KEY");
       Ret {| upload_url := default "" signed_url;
              file_path := unique_filename;
              upload_token := token;
              upload_headers :=
                [("Authorization", "Bearer " +:+ default "" anon_key);
                 ("x-upsert", "true")] |})
    (fun e =>
       await (Log Error ("Error generating signed upload URL: " +:+ str_exn e));;
       Raise (HTTPException 500 ("Failed to generate upload URL: " +:+ str_exn e))).

Definition create_document_record (user filename file_path job_id style
    language_variant : string) (options : dict) (file_size : option Z)
  : Prog string :=
  try_except
    (created <- await Now;
     updated <- await Now;
     let document_data :=
       {| id_ := job_id;
          user_id := user;
          filename := filename;
          original_filename := filename;
          status := "draft";
          style_applied := style;
          language_variant := language_variant;
          storage_location := Some file_path;
          formatting_options := Some options;
          tracked_changes := Some (dict_get options "trackedChanges" (VBool false));
          file_type := None;
          file_size := file_size;
          processing_log := None;
          result_url := None;
          formatting_time := None;
          processed_at := None;
          created_at := created;
          updated_at := updated |} in
     await (DbInsert document_data);;
     Ret job_id)
    (fun e =>
       await (Log Error ("Error creating document record: " +:+ str_exn e));;
       Raise (HTTPException 500 ("Failed to create document record: " +:+ str_exn e))).

Definition update_document_status (job_id status : string) (progress : option Z)
    (processing_log : option dict) (result_url : option string)
    (formatting_time : option Q) : Prog unit :=
  try_except
    (updated <- await Now;
     let log :=
       match progress with
       | Some p =>
           let processing_log :=
             or_empty processing_log in
           Some (<["progress" := VInt p]> processing_log)
       | None => None
       end in
     let url := if opt_str_truthy result_url then result_url else None in
     update_data <-
       (if is_formatted status
        then
          processed <- await Now;
          Ret (mkUpdate status updated log url (Some processed) formatting_time)
        else Ret (mkUpdate status updated log url None None));
     await (DbUpdate update_data job_id);;
     Ret tt)
    (fun e => await (Log Error ("Error updating document status: " +:+ str_exn e))).

(** The download path: the handle itself, or what follows the bucket
    name when a full URL was passed. *)
Definition relative_path_of (file_path : string) : string :=
  if Str.contains "http" file_path && Str.contains "/documents/" file_path
  then
    let parts := Str.split "/documents/" file_path in
    if (1 <? length parts)%nat
    then Str.first_piece (Str.split "?" (Str.last_piece parts))
    else file_path
  else file_path.

(** The message stored for a failed run. *)
Definition classify (error_msg : string) : string :=
  if Str.contains "JSON Parsing Error" error_msg
     || Str.contains "Unexpected end of input" error_msg
  then "Formatting failed: AI response was malformed. Please try again."
  else if Str.contains "peer closed connection" error_msg
          || Str.contains "incomplete chunked read" error_msg
  then "Formatting failed: Connection to AI server lost. Please try again."
  else error_msg.

Definition client_class (backend : string) : string :=
  if String.eqb backend "gemini" then "GeminiClient" else "HuggingFaceClient".

Definition result_filename_of (job_id : string) : string :=
  "formatted/" +:+ job_id +:+ ".docx".

(** The [try] block of [process_document_task]. *)
Definition pipeline_steps (job_id file_path style : string) : Prog unit :=
  let relative_path := relative_path_of file_path in
  file_content <- await (Download relative_path);
  update_document_status job_id "processing" (Some 10)
    (Some {["message" := VStr "File downloaded, initializing AI..."]}) None None;;
  backend_env <- await (GetEnv "DEFAULT_BACKEND");
  let backend := default "huggingface" backend_env in
  await (NewClient (client_class backend));;
  await (NewFormatter style);;
  update_document_status job_id "processing" (Some 30)
    (Some {["message" :=
              VStr ("Analyzing document structure with " +:+ backend +:+ "...")]})
    None None;;
  start_time <- await Now;
  output <- await (FormatDocument style (client_class backend) file_content);
  end_time <- await Now;
  let duration := (end_time - start_time)%Q in
  update_document_status job_id "processing" (Some 90)
    (Some {["message" := VStr "Formatting complete. Uploading result..."]}) None None;;
  let result_filename := result_filename_of job_id in
  await (Upload result_filename output docx_content_type);;
  let processing_log : dict :=
    <["progress" := VInt 100]>
      (<["processing_time" := VFloat duration]>
         (<["backend" := VStr backend]>
            {["message" := VStr "Formatting successful"]})) in
  update_document_status job_id "formatted" (Some 100) (Some processing_log)
    (Some result_filename) (Some duration).

(** The [except] block of [process_document_task]. *)
Definition pipeline_failed (job_id : string) (e : exn) : Prog unit :=
  await (Log Error ("Job " +:+ job_id +:+ " failed: " +:+ str_exn e));;
  let error_msg := classify (str_exn e) in
  update_document_status job_id "failed" (Some 0)
    (Some {["error" := VStr error_msg]}) None None.

Definition process_document_task (job_id file_path style english_variant : string)
    (options : dict) (user : string) : Prog unit :=
  await Mkdtemp;;
  try_finally
    (try_except (pipeline_steps job_id file_path style) (pipeline_failed job_id))
    (await Rmtree).

Definition create_upload_url (filename style englishVariant : string)
    (trackedChanges : bool) (file_size : option Z) (user : User)
  : Prog CreateUploadResponse :=
  try_except
    (job_id <- await Uuid4;
     upload_info <- generate_signed_upload_url filename (u_user_id user);
     let options : dict := {["trackedChanges" := VBool trackedChanges]} in
     create_document_record (u_user_id user) filename (file_path upload_info) job_id
       style englishVariant options file_size;;
     Ret {| cu_success := true;
            cu_job_id := job_id;
            cu_upload_url := upload_url upload_info;
            cu_upload_token := upload_token upload_info;
            cu_file_path := file_path upload_info;
            cu_message := "Upload URL created.";
            cu_upload_headers := upload_headers upload_info |})
    (fun e =>
       await (Log Error ("Create upload error: " +:+ str_exn e));;
       Raise (HTTPException 500 (str_exn e))).

Definition upload_complete_webhook (webhook_data : WebhookUploadComplete)
    (user : User) : Prog WebhookResponse :=
  try_except
    (let job_id := wh_job_id webhook_data in
     response <- await (DbSelect job_id (u_user_id user));
     match response with
     | [] => Raise (HTTPException 404 "Job not found")
     | document :: _ =>
         if wh_success webhook_data
         then
           update_document_status job_id "processing" (Some 0) None None None;;
           await (CreateTask
                    (ProcessDocumentTask job_id (wh_file_path webhook_data)
                       (style_applied document) (language_variant document)
                       (or_empty (formatting_options document))
                       (u_user_id user)));;
           Ret {| wr_success := true;
                  wr_message := "Processing started";
                  wr_job_id := Some job_id |}
         else
           update_document_status job_id "failed" (Some 0)
             (Some {["error" := VStr "Upload failed"]}) None None;;
           Ret {| wr_success := false;
                  wr_message := "Upload failed recorded";
                  wr_job_id := None |}
     end)
    (fun e =>
       await (Log Error ("Webhook error: " +:+ str_exn e));;
       Raise (HTTPException 500 (str_exn e))).

Definition get_document_status (job_id : string) (user : User)
  : Prog DocumentStatusResponse :=
  try_except
    (response <- await (DbSelect job_id (u_user_id user));
     match response with
     | [] => Raise (HTTPException 404 "Job not found")
     | doc :: _ =>
         let processing_log :=
           or_empty (processing_log doc) in
         Ret {| ds_success := true;
                ds_job_id := job_id;
                ds_status := status doc;
                ds_progress := dict_get processing_log "progress" (VInt 0);
                ds_result_url := None;
                ds_error := dict_get processing_log "error" VNone |}
     end)
    (fun e =>
       await (Log Error ("Status error: " +:+ str_exn e));;
       Raise (HTTPException 500 (str_exn e))).

Definition download_document (job_id : string) (user : User)
  : Prog FormattedDocumentResponse :=
  try_except
    (response <- await (DbSelect job_id (u_user_id user));
     match response with
     | [] => Raise (HTTPException 404 "Job not found")
     | doc :: _ =>
         if negb (is_formatted (status doc))
         then Raise (HTTPException 400 "Document not ready")
         else
           if negb (opt_str_truthy (result_url doc))
           then Raise (HTTPException 404 "Result file not found")
           else
             file_content <- await (Download (default "" (result_url doc)));
             let encoded_content := Base64.b64encode file_content in
             Ret {| fd_success := true;
                    fd_filename := "formatted_" +:+ filename doc;
                    fd_content := encoded_content;
                    fd_tracked_changes_content := None;
                    fd_metadata := {["style" := VStr (style_applied doc)]} |}
     end)
    (fun e =>
       await (Log Error ("Download error: " +:+ str_exn e));;
       Raise (HTTPException 500 (str_exn e))).

Definition upload_document (filename style englishVariant : string)
    (trackedChanges : bool) (file_size : option Z) (user : User)
  : Prog CreateUploadResponse :=
  try_except
    (job_id <- await Uuid4;
     upload_info <- generate_signed_upload_url filename (u_user_id user);
     let options : dict := {["trackedChanges" := VBool trackedChanges]} in
     create_document_record (u_user_id user) filename (file_path upload_info) job_id
       style englishVariant options file_size;;
     Ret {| cu_success := true;
            cu_job_id := job_id;
            cu_upload_url := upload_url upload_info;
            cu_upload_token := upload_token upload_info;
            cu_file_path := file_path upload_info;
            cu_message :=
              "Document queued for " +:+ style
                +:+ " formatting. Status: DRAFT. Upload your file to begin processing.";
            cu_upload_headers := upload_headers upload_info |})
    (fun e =>
       await (Log Error ("Upload endpoint error: " +:+ str_exn e));;
       Raise (HTTPException 500 ("Upload failed: " +:+ str_exn e))).

Definition delete_job (job_id : string) (user : User) : Prog DeleteResponse :=
  try_except
    (response <- await (DbSelect job_id (u_user_id user));
     match response with
     | [] => Raise (HTTPException 404 "Job not found")
     | doc :: _ =>
         (if opt_str_truthy (storage_location doc)
          then await (Remove [default "" (storage_location doc)])
          else Ret tt);;
         (if opt_str_truthy (result_url doc)
          then await (Remove [default "" (result_url doc)])
          else Ret tt);;
         await (DbDelete job_id);;
         Ret {| dl_success := true; dl_message := "Job deleted" |}
     end)
    (fun e =>
       await (Log Error ("Delete job error: " +:+ str_exn e));;
       Raise (HTTPException 500 (str_exn e))).

Definition process_document (request : ProcessDocumentRequest) (user : User)
  : Prog ProcessDocumentResponse :=
  try_except
    (job_id <- await Uuid4;
     let file_path := "legacy/" +:+ u_user_id user +:+ "/" +:+ job_id +:+ ".docx" in
     (if Str.truthy (pr_content request)
      then
        try_except
          (content_bytes <- await (B64Decode (pr_content request));
           await (Upload file_path content_bytes docx_content_type))
          (fun e =>
             await (Log Error ("Failed to upload legacy content: " +:+ str_exn e)))
      else Ret tt);;
     let options : dict := {["trackedChanges" := VBool (pr_trackedChanges request)]} in
     create_document_record (u_user_id user) (pr_filename request) file_path job_id
       (pr_style request) (pr_englishVariant request) options None;;
     (if Str.truthy (pr_content request)
      then
        await (CreateTask
                 (ProcessDocumentTask job_id file_path (pr_style request)
                    (pr_englishVariant request) options (u_user_id user)))
      else Ret tt);;
     Ret {| pd_success := true;
            pd_job_id := job_id;
            pd_status := if Str.truthy (pr_content request) then "processing" else "draft";
            pd_message := "Document queued for " +:+ pr_style request +:+ " formatting" |})
    (fun e =>
       await (Log Error ("Process endpoint error: " +:+ str_exn e));;
       Raise (HTTPException 500 ("Processing failed: " +:+ str_exn e))).

End Api.

(** ** src/main.py *)

Module Main.

Definition nl : string := String (ascii_of_nat 10) EmptyString.

(** [str(response)] of a storage answer, for the log lines. *)
Definition repr_signed (r : SignedResponse) : string :=
  match r with
  | RDict d =>
      "{" +:+ String.concat ", "
                (List.map (fun kv => "'" +:+ fst kv +:+ "': '" +:+ snd kv +:+ "'")
                   (map_to_list d)) +:+ "}"
  | ROther _ repr => repr
  end.

(** The signed URL and the token the code reads off a storage answer. *)
Definition parse_signed (response : SignedResponse) : option string * string :=
  match response with
  | RDict d =>
      (str_or (str_or (d !! "signedURL") (d !! "signed_url")) (d !! "url"),
       default "" (d !! "token"))
  | ROther truth repr => ((if truth then Some repr else None), "")
  end.

Definition generate_signed_upload_url (filename user : string) : Prog UploadInfo :=
  try_except
    (let file_extension := extension_of filename in
     now <- await Now;
     let timestamp := int_of_Q now in
     uuid <- await Uuid4;
     let unique_filename :=
       "documents/" +:+ user +:+ "/" +:+ pretty timestamp +:+ "_" +:+ uuid
         +:+ "." +:+ file_extension in
     signed <-
       try_except
         (response <- await (CreateSignedUploadUrl unique_filename);
          let '(signed_url, token) := parse_signed response in
          if negb (opt_str_truthy signed_url)
          then
            await (Log Error ("No signed URL in response: " +:+ repr_signed response));;
            Raise (Exception
                     "Failed to generate signed upload URL - no signedURL returned")
          else Ret (default "" signed_url, token))
         (fun storage_error =>
            await (Log Error ("Supabase storage error: " +:+ str_exn storage_error));;
            try_except
              (response <- await (CreateSignedUploadUrl unique_filename);
               let '(signed_url, token) := parse_signed response in
               if negb (opt_str_truthy signed_url)
               then Raise (Exception
                             "Alternative method also failed to generate signed URL")
               else Ret (default "" signed_url, token))
              (fun alt_error =>
                 await (Log Error ("Alternative storage method failed: "
                                     +:+ str_exn alt_error));;
                 Raise (Exception ("Both storage methods failed: "
                                     +:+ str_exn storage_error +:+ " | "
                                     +:+ str_exn alt_error))));
     anon_key <- await (GetEnv "SUPABASE_ANON_KEY");
     Ret {| upload_url := fst signed;
            file_path := unique_filename;
            upload_token := snd signed;
            upload_headers :=
              [("Authorization", "Bearer " +:+ default "" anon_key);
               ("x-upsert", "true")] |})
    (fun e =>
       await (Log Error ("Error generating signed upload URL: " +:+ str_exn e));;
       supabase_url <- await (GetEnv "SUPABASE_URL");
       await (Log Error ("Supabase URL: " +:+ default "None" supabase_url));;
       await (Log Error "Storage bucket: documents");;
       await (Log Error ("User ID: " +:+ user));;
       await (Log Error ("Filename: " +:+ filename));;
       Raise (HTTPException 500 ("Failed to generate upload URL: " +:+ str_exn e))).

Definition max_file_size : Z := 100 * 1024 * 1024.

Definition create_document_record (user filename file_path job_id style
    language_variant : string) (options : dict) (file_size : option Z)
  : Prog string :=
  try_except
    (let tracked := dict_get options "trackedChanges" (VBool false) in
     created <- await Now;
     updated <- await Now;
     let document_data :=
       {| id_ := job_id;
          user_id := user;
          filename := filename;
          original_filename := filename;
          status := "draft";
          style_applied := style;
          language_variant := language_variant;
          storage_location := Some file_path;
          formatting_options := Some options;
          tracked_changes := Some tracked;
          file_type := Some (extension_of filename);
          file_size := file_size;
          processing_log := None;
          result_url := None;
          formatting_time := None;
          processed_at := None;
          created_at := created;
          updated_at := updated |} in
     match file_size with
     | Some n =>
         if n <? 0
         then Raise (HTTPException 400 "File size must be non-negative")
         else if max_file_size <? n
         then Raise (HTTPException 400 "File size exceeds maximum limit of 100MB")
         else Ret tt
     | None => Ret tt
     end;;
     response <- await (DbInsert document_data);
     match response with
     | [] => Raise (Exception "Failed to create document record")
     | _ :: _ => Ret job_id
     end)
    (fun e =>
       await (Log Error ("Error creating document record: " +:+ str_exn e));;
       Raise (HTTPException 500 ("Failed to create document record: " +:+ str_exn e))).

Definition update_document_status (job_id status : string) (progress : option Z)
    (processing_log : option dict) : Prog unit :=
  try_except
    (updated <- await Now;
     let log :=
       match progress with
       | Some p =>
           let processing_log :=
             or_empty processing_log in
           Some (<["progress" := VInt p]> processing_log)
       | None => None
       end in
     update_data <-
       (if is_formatted status
        then
          processed <- await Now;
          Ret (mkUpdate status updated log None (Some processed) None)
        else Ret (mkUpdate status updated log None None None));
     response <- await (DbUpdate update_data job_id);
     match response with
     | [] => await (Log Warning ("No document found with ID: " +:+ job_id))
     | _ :: _ => Ret tt
     end)
    (fun e => await (Log Error ("Error updating document status: " +:+ str_exn e))).

Definition track_document_usage (user : string) : Prog unit :=
  try_except
    (await (Rpc "increment_document_usage" user None))
    (fun e =>
       await (Log Error ("Error tracking document usage: " +:+ str_exn e));;
       Raise e).

Definition track_storage_usage (user : string) (storage_mb : Q) : Prog unit :=
  try_except
    (let storage_gb := (storage_mb / 1024)%Q in
     await (Rpc "update_storage_usage" user (Some storage_gb)))
    (fun e =>
       await (Log Error ("Error tracking storage usage: " +:+ str_exn e));;
       Raise e).

(** [processing_log.get("word_count", 1000) * 0.001]. *)
Definition estimated_storage_mb (processing_log : dict) : Q :=
  match dict_get processing_log "word_count" (VInt 1000) with
  | VInt n => (inject_Z n * (1 # 1000))%Q
  | VFloat q => (q * (1 # 1000))%Q
  | _ => 0%Q
  end.

(** The mock results of a simulated run. *)
Definition simulated_log : dict :=
  <["progress" := VInt 100]>
    (<["word_count" := VInt 1250]>
       {["processing_time" := VFloat (7 # 2)]}).

(** The inner [try] of [simulate_processing]: usage tracking, whose
    failure is only logged. *)
Definition track_usage (job_id : string) (processing_log : dict) : Prog unit :=
  try_except
    (doc_response <- await (DbSelectById job_id);
     match doc_response with
     | doc :: _ =>
         track_document_usage (user_id doc);;
         track_storage_usage (user_id doc) (estimated_storage_mb processing_log)
     | [] =>
         await (Log Warning ("Could not find document record for job_id: " +:+ job_id))
     end)
    (fun usage_error =>
       await (Log Error ("Error tracking usage for job " +:+ job_id +:+ ": "
                           +:+ str_exn usage_error))).

(** The outer [try] block of [simulate_processing]. *)
Definition simulate_steps (job_id : string) : Prog unit :=
  await (Sleep 1);;
  update_document_status job_id "processing" (Some 25) None;;
  await (Sleep 2);;
  update_document_status job_id "processing" (Some 75) None;;
  await (Sleep 1);;
  let processing_log := simulated_log in
  update_document_status job_id "formatted" (Some 100) (Some processing_log);;
  track_usage job_id processing_log.

(** The outer [except] block of [simulate_processing]. *)
Definition simulate_failed (job_id : string) (e : exn) : Prog unit :=
  await (Log Error ("Error in processing simulation: " +:+ str_exn e));;
  update_document_status job_id "failed" None (Some {["error" := VStr (str_exn e)]}).

Definition simulate_processing (job_id : string) : Prog unit :=
  try_except (simulate_steps job_id) (simulate_failed job_id).

(** The size check at the head of [create_upload_url] and
    [upload_document]. *)
Definition check_file_size (file_size : option Z) : Prog unit :=
  match file_size with
  | Some n =>
      if n <? 0
      then Raise (HTTPException 400 "File size must be non-negative")
      else if max_file_size <? n
      then Raise (HTTPException 400 "File size exceeds maximum limit of 100MB")
      else Ret tt
  | None => Ret tt
  end.

Definition create_upload_url (filename style englishVariant : string)
    (trackedChanges : bool) (file_size : option Z) (user : User)
  : Prog CreateUploadResponse :=
  try_except
    (job_id <- await Uuid4;
     check_file_size file_size;;
     upload_info <- generate_signed_upload_url filename (u_user_id user);
     let options : dict := {["trackedChanges" := VBool trackedChanges]} in
     create_document_record (u_user_id user) filename (file_path upload_info) job_id
       style englishVariant options file_size;;
     Ret {| cu_success := true;
            cu_job_id := job_id;
            cu_upload_url := upload_url upload_info;
            cu_upload_token := upload_token upload_info;
            cu_file_path := file_path upload_info;
            cu_message :=
              "Upload URL created. Document status: DRAFT. Please upload your document to begin "
                +:+ style +:+ " formatting.";
            cu_upload_headers := upload_headers upload_info |})
    (fun e =>
       match e with
       | HTTPException _ _ => Raise e
       | _ =>
           await (Log Error ("Create upload URL error: " +:+ str_exn e));;
           Raise (HTTPException 500 ("Failed to create upload URL: " +:+ str_exn e))
       end).

Definition upload_complete_webhook (webhook_data : WebhookUploadComplete)
    (user : User) : Prog WebhookResponse :=
  try_except
    (let job_id := wh_job_id webhook_data in
     response <- await (DbSelect job_id (u_user_id user));
     match response with
     | [] => Raise (HTTPException 404 "Job not found")
     | document :: _ =>
         if wh_success webhook_data
         then
           update_document_status job_id "processing" (Some 0) None;;
           await (CreateTask (SimulateProcessing job_id));;
           Ret {| wr_success := true;
                  wr_message :=
                    "Upload confirmed. Document processing started. Status: PROCESSING";
                  wr_job_id := Some job_id |}
         else
           update_document_status job_id "failed" None
             (Some {["error" := VStr "File upload failed"]});;
           Ret {| wr_success := false;
                  wr_message := "Upload failed. Status: FAILED. Please try again.";
                  wr_job_id := Some job_id |}
     end)
    (fun e =>
       match e with
       | HTTPException _ _ => Raise e
       | _ =>
           await (Log Error ("Upload complete webhook error: " +:+ str_exn e));;
           Raise (HTTPException 500 ("Webhook processing failed: " +:+ str_exn e))
       end).

Definition upload_document (filename style englishVariant : string)
    (trackedChanges : bool) (file_size : option Z) (user : User)
  : Prog CreateUploadResponse :=
  try_except
    (job_id <- await Uuid4;
     check_file_size file_size;;
     upload_info <- generate_signed_upload_url filename (u_user_id user);
     let options : dict := {["trackedChanges" := VBool trackedChanges]} in
     create_document_record (u_user_id user) filename (file_path upload_info) job_id
       style englishVariant options file_size;;
     Ret {| cu_success := true;
            cu_job_id := job_id;
            cu_upload_url := upload_url upload_info;
            cu_upload_token := upload_token upload_info;
            cu_file_path := file_path upload_info;
            cu_message :=
              "Document queued for " +:+ style
                +:+ " formatting. Status: DRAFT. Upload your file to begin processing.";
            cu_upload_headers := upload_headers upload_info |})
    (fun e =>
       match e with
       | HTTPException _ _ => Raise e
       | _ =>
           await (Log Error ("Upload endpoint error: " +:+ str_exn e));;
           Raise (HTTPException 500 ("Upload failed: " +:+ str_exn e))
       end).

Definition process_document (request : ProcessDocumentRequest) (user : User)
  : Prog ProcessDocumentResponse :=
  try_except
    (job_id <- await Uuid4;
     let options : dict :=
       <["trackedChanges" := VBool (pr_trackedChanges request)]>
         {["content" := VStr (pr_content request)]} in
     create_document_record (u_user_id user) (pr_filename request)
       ("legacy/" +:+ job_id) job_id (pr_style request) (pr_englishVariant request)
       options None;;
     await (CreateTask (SimulateProcessing job_id));;
     Ret {| pd_success := true;
            pd_job_id := job_id;
            pd_status := "draft";
            pd_message := "Document queued for " +:+ pr_style request +:+ " formatting" |})
    (fun e =>
       match e with
       | HTTPException _ _ => Raise e
       | _ =>
           await (Log Error ("Process endpoint error: " +:+ str_exn e));;
           Raise (HTTPException 500 ("Processing failed: " +:+ str_exn e))
       end).

Definition get_document_status (job_id : string) (user : User)
  : Prog DocumentStatusResponse :=
  try_except
    (response <- await (DbSelect job_id (u_user_id user));
     match response with
     | [] => Raise (HTTPException 404 "Job not found")
     | document :: _ =>
         let processing_log :=
           or_empty (processing_log document) in
         Ret {| ds_success := true;
                ds_job_id := job_id;
                ds_status := status document;
                ds_progress := dict_get processing_log "progress" (VInt 0);
                ds_result_url :=
                  if is_formatted (status document)
                  then Some ("/api/documents/download/" +:+ job_id) else None;
                ds_error := dict_get processing_log "error" VNone |}
     end)
    (fun e =>
       match e with
       | HTTPException _ _ => Raise e
       | _ =>
           await (Log Error ("Status endpoint error: " +:+ str_exn e));;
           Raise (HTTPException 500 ("Failed to get status: " +:+ str_exn e))
       end).

Definition mock_content (document : Document) : string :=
  "FORMATTED DOCUMENT: " +:+ filename document +:+ nl
    +:+ "Style: " +:+ style_applied document +:+ nl
    +:+ "Variant: " +:+ language_variant document.

Definition tracked_content (document : Document) : string :=
  "TRACKED CHANGES VERSION: " +:+ filename document +:+ nl
    +:+ "Style: " +:+ style_applied document +:+ nl
    +:+ "Variant: " +:+ language_variant document +:+ nl +:+ nl
    +:+ "[CHANGES TRACKED:]" +:+ nl
    +:+ "- Paragraph formatting adjusted" +:+ nl
    +:+ "- Heading styles applied" +:+ nl
    +:+ "- Spacing normalized" +:+ nl
    +:+ "- References formatted".

(** [document.get("tracked_changes")], falling back on the options
    when it is [None]. *)
Definition tracked_changes_enabled (document : Document) : value :=
  match tracked_changes document with
  | None | Some VNone =>
      let formatting_options :=
        or_empty (formatting_options document) in
      dict_get formatting_options "trackedChanges" (VBool false)
  | Some v => v
  end.

Definition download_document (job_id : string) (user : User)
  : Prog FormattedDocumentResponse :=
  try_except
    (response <- await (DbSelect job_id (u_user_id user));
     match response with
     | [] => Raise (HTTPException 404 "Job not found")
     | document :: _ =>
         if negb (is_formatted (status document))
         then Raise (HTTPException 400 "Document not ready for download")
         else
           let processing_log :=
             or_empty (processing_log document) in
           let formatted_content := Base64.b64encode (mock_content document) in
           let enabled := tracked_changes_enabled document in
           let tracked_changes_content :=
             if truthy enabled
             then Some (Base64.b64encode (tracked_content document))
             else None in
           let metadata : dict :=
             <["word_count" := dict_get processing_log "word_count" (VInt 1250)]>
               (<["style_applied" := VStr (style_applied document)]>
                  (<["processing_time" :=
                       dict_get processing_log "processing_time" (VFloat (7 # 2))]>
                     {["tracked_changes_enabled" := enabled]})) in
           Ret {| fd_success := true;
                  fd_filename := "formatted_" +:+ filename document;
                  fd_content := formatted_content;
                  fd_tracked_changes_content := tracked_changes_content;
                  fd_metadata := metadata |}
     end)
    (fun e =>
       match e with
       | HTTPException _ _ => Raise e
       | _ =>
           await (Log Error ("Download endpoint error: " +:+ str_exn e));;
           Raise (HTTPException 500 ("Download failed: " +:+ str_exn e))
       end).

(** [delete_job] of main.py takes no user and works on [jobs_storage]. *)
Definition delete_job (job_id : string) : Prog DeleteResponse :=
  present <- await (JobsContains job_id);
  if present
  then
    await (JobsDelete job_id);;
    Ret {| dl_success := true; dl_message := "Job deleted" |}
  else Raise (HTTPException 404 "Job not found").

End Main.

(** ** src/app/api/upload-complete.py *)

Module UploadComplete.

Definition upload_complete_webhook (webhook_data : WebhookUploadComplete)
    (user : User) : Prog WebhookResponse :=
  try_except
    (let job_id := wh_job_id webhook_data in
     response <-
       try_except
         (await (DbSelect job_id (u_user_id user)))
         (fun db_error =>
            match db_error with
            | TimeoutError =>
                await (Log Error ("[v0] Database query timeout for job_id: " +:+ job_id));;
                Raise (HTTPException 504 "Database query timeout")
            | _ =>
                await (Log Error ("[v0] Database error querying documents: "
                                    +:+ str_exn db_error));;
                Raise (HTTPException 500 "Database error")
            end);
     match response with
     | [] =>
         await (Log Warning ("[v0] No document found for job_id: " +:+ job_id
                               +:+ ", user: " +:+ u_user_id user));;
         Raise (HTTPException 404 "Job not found")
     | document :: _ =>
         if wh_success webhook_data
         then
           try_except
             (Main.update_document_status job_id "processing" (Some 0) None)
             (fun update_error =>
                await (Log Error ("[v0] Failed to update document status: "
                                    +:+ str_exn update_error));;
                Raise (HTTPException 500 "Failed to update document status"));;
           await (CreateTask (SimulateProcessing job_id));;
           Ret {| wr_success := true;
                  wr_message :=
                    "Upload confirmed. Document processing started. Status: PROCESSING";
                  wr_job_id := Some job_id |}
         else
           await (Log Warning ("[v0] Upload failed for job_id: " +:+ job_id));;
           try_except
             (Main.update_document_status job_id "failed" None
                (Some {["error" := VStr "File upload failed"]}))
             (fun update_error =>
                await (Log Error ("[v0] Failed to update failed status: "
                                    +:+ str_exn update_error)));;
           Ret {| wr_success := false;
                  wr_message := "Upload failed. Status: FAILED. Please try again.";
                  wr_job_id := Some job_id |}
     end)
    (fun e =>
       match e with
       | HTTPException _ detail =>
           await (Log Error ("[v0] HTTP Exception: " +:+ detail));;
           Raise e
       | _ =>
           await (Log Error ("[v0] Unexpected error in upload_complete_webhook: "
                               +:+ str_exn e));;
           Raise (HTTPException 500 ("Webhook processing failed: " +:+ str_exn e))
       end).

End UploadComplete.

(** * Observing and scheduling programs *)

(** ** Worlds without faults *)

(** No coming collaborator call fails. *)
Definition quiet (w : World) : Prop := Forall (fun o => o = None) (oracle w).

(** The world with its oracle emptied. *)
Definition calm (w : World) : World := set_oracle [] w.

(** ** What a list of calls shows *)

(** The status updates among the calls: the job and the dictionary sent. *)
Definition update_of (e : Event) : option (string * UpdateData) :=
  match e with
  | Called c =>
      match c with
      | DbUpdate u job_id => Some (job_id, u)
      | _ => None
      end
  end.

Definition updates (l : list Event) : list (string * UpdateData) := omap update_of l.

(** The tasks created among the calls. *)
Definition task_of (e : Event) : option Task :=
  match e with
  | Called c =>
      match c with
      | CreateTask t => Some t
      | _ => None
      end
  end.

Definition tasks_created (l : list Event) : list Task := omap task_of l.

(** The lines logged among the calls. *)
Definition log_of (e : Event) : option (Level * string) :=
  match e with
  | Called c =>
      match c with
      | Log level msg => Some (level, msg)
      | _ => None
      end
  end.

Definition logged (l : list Event) : list (Level * string) := omap log_of l.

(** The objects removed from storage among the calls. *)
Definition removed_of (e : Event) : list string :=
  match e with
  | Called c =>
      match c with
      | Remove paths => paths
      | _ => []
      end
  end.

Definition removed (l : list Event) : list string := List.concat (List.map removed_of l).

(** The rows inserted among the calls. *)
Definition insert_of (e : Event) : option Document :=
  match e with
  | Called c =>
      match c with
      | DbInsert d => Some d
      | _ => None
      end
  end.

Definition inserted (l : list Event) : list Document := omap insert_of l.

(** The entries of a [processing_log], present or not. *)
Definition log_entry (log : option dict) (key : string) : option value :=
  match log with
  | Some m => m !! key
  | None => None
  end.

(** A step of a pipeline run as the Job Record's readers can tell it:
    the status and progress an update writes, and the three collaborator
    steps between the updates. *)
Inductive Milestone : Type :=
| Progress (status : string) (progress : option value)
| Fetch
| Transform
| Store.

Definition milestone_of (e : Event) : option Milestone :=
  match e with
  | Called c =>
      match c with
      | DbUpdate u _ =>
          Some (Progress (u_status u) (log_entry (u_processing_log u) "progress"))
      | Download _ => Some Fetch
      | FormatDocument _ _ _ => Some Transform
      | Upload _ _ _ => Some Store
      | _ => None
      end
  end.

Definition milestones (l : list Event) : list Milestone := omap milestone_of l.




(** The status and progress of an update. *)
Definition status_progress (ju : string * UpdateData) : string * option value :=
  (u_status (snd ju), log_entry (u_processing_log (snd ju)) "progress").

(** The statuses a list of updates goes through, repetitions dropped. *)
Fixpoint transitions (l : list string) : list string :=
  match l with
  | [] => []
  | s :: rest =>
      match rest with
      | [] => [s]
      | t :: _ => if String.eqb s t then transitions rest else s :: transitions rest
      end
  end.

(** What the Status Reporter reads off a row. *)
Definition log_or_empty (d : Document) : dict :=
  or_empty (processing_log d).
Definition progress_shown (d : Document) : value :=
  dict_get (log_or_empty d) "progress" (VInt 0).
Definition error_shown (d : Document) : value :=
  dict_get (log_or_empty d) "error" VNone.

(** ** A property of every call a program can make *)

(** [all_cmds P p]: whatever the collaborators answer, every call [p]
    makes satisfies [P]. *)
Fixpoint all_cmds {A} (P : forall X, Cmd X -> Prop) (p : Prog A) : Prop :=
  match p with
  | Ret _ | Raise _ => True
  | Vis c k => P _ c /\ forall r, all_cmds P (k r)
  end.

(** ** The event loop *)

(** The coroutine of a created task. *)
Definition task_body (t : Task) : Prog unit :=
  match t with
  | ProcessDocumentTask job_id file_path style english_variant options user =>
      Api.process_document_task job_id file_path style english_variant options user
  | SimulateProcessing job_id => Main.simulate_processing job_id
  end.

(** The requests api.py serves that write to the table or the storage,
    and the two that read a job. *)
Inductive ApiRequest : Type :=
| CreateUpload (filename style englishVariant : string) (trackedChanges : bool)
    (file_size : option Z) (user : User)
| UploadDocument (filename style englishVariant : string) (trackedChanges : bool)
    (file_size : option Z) (user : User)
| UploadComplete (webhook_data : WebhookUploadComplete) (user : User)
| ProcessDocument (request : ProcessDocumentRequest) (user : User)
| GetStatus (job_id : string) (user : User)
| DownloadDocument (job_id : string) (user : User)
| DeleteJob (job_id : string) (user : User).

(** A coroutine in flight, its result type hidden. *)
Inductive Thread : Type :=
| Running {A : Type} (p : Prog A).

Definition api_handler (r : ApiRequest) : Thread :=
  match r with
  | CreateUpload f s v t z u => Running (Api.create_upload_url f s v t z u)
  | UploadDocument f s v t z u => Running (Api.upload_document f s v t z u)
  | UploadComplete wd u => Running (Api.upload_complete_webhook wd u)
  | ProcessDocument rq u => Running (Api.process_document rq u)
  | GetStatus j u => Running (Api.get_document_status j u)
  | DownloadDocument j u => Running (Api.download_document j u)
  | DeleteJob j u => Running (Api.delete_job j u)
  end.

(** The threads a call adds to the loop. *)
Definition spawned {X} (c : Cmd X) : list Thread :=
  match c with
  | CreateTask t => [Running (task_body t)]
  | _ => []
  end.

(** One step of the service: a request arrives, or a client writes an
    object to the bucket with its upload credential, or some thread makes
    its next call (with any fault the environment chooses), or a finished
    thread leaves.  Threads interleave at every call, which covers the
    interleavings of the asyncio loop. *)
Inductive api_step : World * list Thread -> World * list Thread -> Prop :=
| step_request (r : ApiRequest) (w : World) (pool : list Thread) :
    api_step (w, pool) (w, (pool ++ [api_handler r])%list)
| step_client_upload (path content : string) (w : World) (pool : list Thread) :
    api_step (w, pool) (set_bucket (<[path := content]> (bucket w)) w, pool)
| step_call {A X} (c : Cmd X) (k : result X -> Prog A) (w : World)
    (before after : list Thread) (faults : list (option exn)) :
    let rw := exec c (set_oracle faults w) in
    api_step (w, (before ++ Running (Vis c k) :: after)%list)
             (snd rw, (before ++ Running (k (fst rw)) :: after ++ spawned c)%list)
| step_return {A} (a : A) (w : World) (before after : list Thread) :
    api_step (w, (before ++ Running (Ret a) :: after)%list) (w, (before ++ after)%list)
| step_raise {A} (e : exn) (w : World) (before after : list Thread) :
    api_step (w, (before ++ @Running A (Raise e) :: after)%list) (w, (before ++ after)%list).

(** The states of the service: from an empty table and no thread. *)
Inductive api_reachable : World * list Thread -> Prop :=
| reach_start (w : World) : documents w = [] -> api_reachable (w, [])
| reach_step (s s' : World * list Thread) :
    api_reachable s -> api_step s s' -> api_reachable s'.





(** ** The outcome of the try block of a run *)


(** What the [try] block of [process_document_task] ends with when the
    task starts in [w]: [Ok ()] when no step raised, [Err e] when a step
    raised [e]. *)
Definition steps_result (job_id file_path style : string) (w : World) : result unit :=
  fst (run (Api.pipeline_steps job_id file_path style) (snd (exec Mkdtemp w))).

(** ** The dictionaries the helpers send *)

(** The [update_data] that [update_document_status] of api.py builds at
    time [now]. *)
Definition api_update_data (status : string) (progress : option Z)
    (processing_log : option dict) (result_url : option string)
    (formatting_time : option Q) (now : Q) : UpdateData :=
  mkUpdate status now
    match progress with
    | Some p => Some (<["progress" := VInt p]> (or_empty processing_log))
    | None => None
    end
    (if opt_str_truthy result_url then result_url else None)
    (if is_formatted status then Some now else None)
    (if is_formatted status then formatting_time else None).

(** The [update_data] that [update_document_status] of main.py builds. *)
Definition main_update_data (status : string) (progress : option Z)
    (processing_log : option dict) (now : Q) : UpdateData :=
  mkUpdate status now
    match progress with
    | Some p => Some (<["progress" := VInt p]> (or_empty processing_log))
    | None => None
    end
    None
    (if is_formatted status then Some now else None)
    None.

(** The four dictionaries a successful run sends, given the backend,
    the time the run starts at and the time the formatter returns at. *)
Definition real_updates (job_id backend : string) (t0 t1 : Q)
  : list (string * UpdateData) :=
  [ (job_id,
     mkUpdate "processing" t0
       (Some (<["progress" := VInt 10]>
                {["message" := VStr "File downloaded, initializing AI..."]}))
       None None None);
    (job_id,
     mkUpdate "processing" t0
       (Some (<["progress" := VInt 30]>
                {["message" :=
                    VStr ("Analyzing document structure with " +:+ backend +:+ "...")]}))
       None None None);
    (job_id,
     mkUpdate "processing" t1
       (Some (<["progress" := VInt 90]>
                {["message" := VStr "Formatting complete. Uploading result..."]}))
       None None None);
    (job_id,
     mkUpdate "formatted" t1
       (Some (<["progress" := VInt 100]>
                (<["progress" := VInt 100]>
                   (<["processing_time" := VFloat (t1 - t0)]>
                      (<["backend" := VStr backend]>
                         {["message" := VStr "Formatting successful"]})))))
       (Some (Api.result_filename_of job_id)) (Some t1) (Some (t1 - t0)%Q)) ].

(** ** Kinds of calls *)

(** The calls during which the clock advances. *)
Definition timed {X} (c : Cmd X) : bool :=
  match c with
  | FormatDocument _ _ _ | Sleep _ => true
  | _ => false
  end.

(** The calls that write to the table. *)
Definition writes_table {X} (c : Cmd X) : bool :=
  match c with
  | DbInsert _ | DbUpdate _ _ | DbDelete _ => true
  | _ => false
  end.

(** The calls that write to the bucket. *)
Definition writes_bucket {X} (c : Cmd X) : bool :=
  match c with
  | Upload _ _ _ | Remove _ => true
  | _ => false
  end.

(** ** Predicates on calls *)

(** The update sets [status = failed]. *)
Definition is_failed (ju : string * UpdateData) : bool :=
  String.eqb (u_status (snd ju)) "failed".

(** The call is no update that sets [status = failed]. *)
Definition not_failed_update (X : Type) (c : Cmd X) : Prop :=
  match c with
  | DbUpdate u _ => u_status u <> "failed"
  | _ => True
  end.

(** The task api.py creates for a found row. *)
Definition api_task (wd : WebhookUploadComplete) (user : User) (doc : Document) : Task :=
  ProcessDocumentTask (wh_job_id wd) (wh_file_path wd) (style_applied doc)
    (language_variant doc) (or_empty (formatting_options doc)) (u_user_id user).

(** The update a failed run ends with. *)
Definition failure_update (job_id : string) (e : exn) (t : Q) : string * UpdateData :=
  (job_id,
   mkUpdate "failed" t
     (Some (<["progress" := VInt 0]> {["error" := VStr (Api.classify (str_exn e))]}))
     None None None).

(** ** Sample worlds *)

(** An environment for the concrete runs below: a formatter that takes
    two and a half seconds, a storage that signs every path. *)
Definition sample_env : Env :=
  mkEnv ∅
    (fun n => "uuid-" +:+ pretty n)
    (fun path => RDict {["signed_url" := "https://storage.example/" +:+ path]})
    (fun _ _ input => "formatted:" +:+ input)
    (fun _ _ _ => 5 # 2)
    (fun content => Ok content).

Definition alice : User := mkUser "alice" None.
Definition bob : User := mkUser "bob" None.

Definition sample_path : string := "documents/alice/1000_in.docx".

(** Alice's job "job-1", with a given status, log and result location;
    its options ask for the tracked-changes variant. *)
Definition sample_row (status : string) (log : option dict) (result : option string)
  : Document :=
  {| id_ := "job-1";
     user_id := "alice";
     filename := "thesis.docx";
     original_filename := "thesis.docx";
     status := status;
     style_applied := "apa";
     language_variant := "us";
     storage_location := Some sample_path;
     formatting_options := Some {["trackedChanges" := VBool true]};
     tracked_changes := Some (VBool true);
     file_type := None;
     file_size := Some 500000;
     processing_log := log;
     result_url := result;
     formatting_time := None;
     processed_at := None;
     created_at := 1000;
     updated_at := 1000 |}.

(** A world holding the given rows, the uploaded source of "job-1", and
    the faults to come. *)
Definition sample_world (rows : list Document) (faults : list (option exn)) : World :=
  mkWorld rows {[sample_path := "raw"]} ∅ 0 1000 0 faults sample_env.

(** The row the Status Reporter would read for a job, after a run. *)
Definition row_after {A} (p : Prog A) (w : World) (job_id : string) : option Document :=
  head (List.filter (has_id job_id) (documents (snd (run p w)))).

(** "job-1" is being processed; the formatter will fail on a malformed
    answer of the model (the sixth remote call of the task). *)
Definition malformed_world : World :=
  sample_world [sample_row "processing" (Some {["progress" := VInt 0]}) None]
    [None; None; None; None; None;
     Some (Exception "JSON Parsing Error: Unexpected token at line 1")].

(** The fault the next remote call will meet, if any. *)
Definition pending_fault (w : World) : option exn :=
  match oracle w with
  | Some e :: _ => Some e
  | _ => None
  end.

(** The client's notice that the upload of "job-1" went through. *)
Definition sample_notice : WebhookUploadComplete := mkWebhook "job-1" sample_path true.

(** "job-1" already at progress 30 of a run, and "job-1" still a draft. *)
Definition processing_world : World :=
  sample_world [sample_row "processing" (Some {["progress" := VInt 30]}) None] [].
Definition draft_world : World :=
  sample_world [sample_row "draft" None None] [].

(** "job-1" right after its completion was accepted. *)
Definition accepted_world : World :=
  sample_world [sample_row "processing" (Some {["progress" := VInt 0]}) None] [].

(** The call shows no milestone: it is no status update and none of the
    fetch, transform and store steps. *)
Definition no_milestone (X : Type) (c : Cmd X) : Prop :=
  milestone_of (Called c) = None.

(** The statuses a list of updates sets, in order. *)
Definition statuses (l : list (string * UpdateData)) : list string :=
  List.map (fun ju => u_status (snd ju)) l.

(** No job yet. *)
Definition empty_world : World := sample_world [] [].

(** "job-1" formatted by a real run, its result in the bucket. *)
Definition formatted_row : Document :=
  sample_row "formatted" (Some {["progress" := VInt 100]}) (Some "formatted/job-1.docx").
Definition formatted_world : World :=
  mkWorld
    [formatted_row]
    (<["formatted/job-1.docx" := "formatted:raw"]> {[sample_path := "raw"]})
    ∅ 0 1000 0 [] sample_env.

(** ** Running a thread to its end *)

(** A coroutine that has ended with the result [r]. *)
Definition finished {A} (r : result A) : Prog A :=
  match r with
  | Ok a => Ret a
  | Err e => Raise e
  end.

(** The threads the calls of a run have added to the loop. *)
Definition spawned_by (l : list Event) : list Thread :=
  List.flat_map (fun ev => match ev with Called c => spawned c end) l.

(** ** One job of api.py, from the upload request on *)

Definition created_world : World :=
  snd (run (Api.create_upload_url "thesis.docx" "apa" "us" true (Some 500000) alice)
         empty_world).

Definition uploaded_path : string := "documents/alice/1000_uuid-1.docx".

(** The client has written the document with its credential. *)
Definition uploaded_world : World :=
  set_bucket (<[uploaded_path := "raw"]> (bucket created_world)) created_world.

Definition upload_notice : WebhookUploadComplete := mkWebhook "uuid-0" uploaded_path true.

Definition notified_world : World :=
  snd (run (Api.upload_complete_webhook upload_notice alice) uploaded_world).

Definition upload_task : Task :=
  ProcessDocumentTask "uuid-0" uploaded_path "apa" "us"
    {["trackedChanges" := VBool true]} "alice".

Definition finished_world : World := snd (run (task_body upload_task) notified_world).

(** The client notifies the completion a second time. *)
Definition renotified_world : World :=
  snd (run (Api.upload_complete_webhook upload_notice alice) finished_world).

(** ** A run started by the legacy request of api.py *)





(** ** A run that fails without a message *)


(** * More of the service *)

(** ** Kinds of calls, continued *)

(** The call changes nothing a later request can see: it writes neither
    to the table, nor to the bucket, nor to [jobs_storage], and it
    creates no task. *)
Definition read_only (X : Type) (c : Cmd X) : Prop :=
  match c with
  | DbInsert _ | DbUpdate _ _ | DbDelete _ | Upload _ _ _ | Remove _
  | JobsDelete _ | CreateTask _ => False
  | _ => True
  end.

(** The call neither makes nor removes a temporary directory. *)
Definition no_temp_dir (X : Type) (c : Cmd X) : Prop :=
  match c with
  | Mkdtemp | Rmtree => False
  | _ => True
  end.

(** The call does not write to the bucket. *)
Definition keeps_bucket (X : Type) (c : Cmd X) : Prop := writes_bucket c = false.

(** The call does not write to the table. *)
Definition keeps_table (X : Type) (c : Cmd X) : Prop := writes_table c = false.

(** The columns of a row that no status update changes. *)
Definition identity_of (d : Document)
  : string * string * string * option string * option dict * option Z * Q :=
  (id_ d, user_id d, filename d, storage_location d, formatting_options d,
   file_size d, created_at d).

(** What a run of [p] from [w] leaves as it was: the table, the bucket
    and [jobs_storage]; and it creates no task. *)
Definition changes_nothing {A} (p : Prog A) (w : World) : Prop :=
  documents (snd (run p w)) = documents w
  /\ bucket (snd (run p w)) = bucket w
  /\ jobs_storage (snd (run p w)) = jobs_storage w
  /\ tasks_created (calls p w) = [].

(** The rows of the table other than those of a job. *)
Definition other_rows (job_id : string) (t : list Document) : list Document :=
  List.filter (fun d => negb (has_id job_id d)) t.

(** A world whose storage signs every path, with one job in
    [jobs_storage]. *)
Definition stored_job_world : World :=
  mkWorld [] ∅ {["job-1" := ∅]} 0 1000 0 [] sample_env.

(** "job-1" formatted; the removal of its result object will fail (the
    third remote call of [delete_job]). *)
Definition half_deleted_world : World :=
  mkWorld [formatted_row]
    (<["formatted/job-1.docx" := "formatted:raw"]> {[sample_path := "raw"]})
    ∅ 0 1000 0 [None; None; Some (Exception "storage unavailable")] sample_env.

(** The record store will time out on the next query. *)
Definition timeout_world : World :=
  sample_world [sample_row "draft" None None] [Some TimeoutError].

(** ** What the Status Reporter answers for a row *)

(** The answer of [get_document_status] of api.py for a row. *)
Definition api_status_of (job_id : string) (d : Document) : DocumentStatusResponse :=
  {| ds_success := true;
     ds_job_id := job_id;
     ds_status := status d;
     ds_progress := progress_shown d;
     ds_result_url := None;
     ds_error := error_shown d |}.

(** The answer of [get_document_status] of main.py for a row. *)
Definition main_status_of (job_id : string) (d : Document) : DocumentStatusResponse :=
  {| ds_success := true;
     ds_job_id := job_id;
     ds_status := status d;
     ds_progress := progress_shown d;
     ds_result_url :=
       if is_formatted (status d) then Some ("/api/documents/download/" +:+ job_id)
       else None;
     ds_error := error_shown d |}.

(** The signing calls among the calls. *)
Definition signed_of (e : Event) : option string :=
  match e with
  | Called c =>
      match c with
      | CreateSignedUploadUrl path => Some path
      | _ => None
      end
  end.

Definition signings (l : list Event) : list string := omap signed_of l.

(** The path [generate_signed_upload_url] builds in [w]. *)
Definition upload_path_in (filename user : string) (w : World) : string :=
  "documents/" +:+ user +:+ "/" +:+ pretty (int_of_Q (clock w)) +:+ "_"
    +:+ uuids (env w) (uuid_next w) +:+ "." +:+ extension_of filename.

(** The headers the client must send with its upload. *)
Definition upload_headers_in (w : World) : list (string * string) :=
  [("Authorization", "Bearer " +:+ default "" (environ (env w) !! "SUPABASE_ANON_KEY"));
   ("x-upsert", "true")].

(** The first signing call of the next request will fail. *)
Definition flaky_storage_world : World :=
  sample_world [] [Some (Exception "connection reset")].

(** The columns of a row that [create_document_record] sets, time
    stamps and file type apart. *)
Definition columns_of (d : Document)
  : string * string * string * string * string * string * string * option string
    * option dict * option value * option Z * option dict * option string :=
  (id_ d, user_id d, filename d, original_filename d, status d, style_applied d,
   language_variant d, storage_location d, formatting_options d, tracked_changes d,
   file_size d, processing_log d, result_url d).

(** The columns of the draft that [create_document_record] inserts. *)
Definition draft_columns (uid filename path job_id style variant : string)
    (options : dict) (size : option Z) :=
  (job_id, uid, filename, filename, "draft", style, variant, Some path, Some options,
   Some (dict_get options "trackedChanges" (VBool false)), size,
   @None dict, @None string).

(** What the Status Reporter answers for a draft. *)
Definition draft_status (job_id : string) : DocumentStatusResponse :=
  {| ds_success := true;
     ds_job_id := job_id;
     ds_status := "draft";
     ds_progress := VInt 0;
     ds_result_url := None;
     ds_error := VNone |}.

(** A declared size main.py accepts. *)
Definition size_accepted (size : option Z) : Prop :=
  match size with
  | Some n => 0 <= n <= Main.max_file_size
  | None => True
  end.

(** The object a legacy request stores its content under. *)
Definition legacy_path (uid job_id : string) : string :=
  "legacy/" +:+ uid +:+ "/" +:+ job_id +:+ ".docx".

(** The task a legacy request with content creates. *)
Definition legacy_task (request : ProcessDocumentRequest) (uid job_id : string) : Task :=
  ProcessDocumentTask job_id (legacy_path uid job_id) (pr_style request)
    (pr_englishVariant request)
    {["trackedChanges" := VBool (pr_trackedChanges request)]} uid.

(** A legacy request with content, and one without. *)
Definition legacy_request (content : string) : ProcessDocumentRequest :=
  mkProcessRequest "thesis.docx" content "apa" "us" false.

(** The storage will refuse the next upload. *)
Definition refusing_storage_world : World :=
  sample_world [] [Some (Exception "bucket is full")].

(** What [download_document] of api.py answers for a row whose result
    object holds [output]. *)
Definition api_download_of (d : Document) (output : string) : FormattedDocumentResponse :=
  {| fd_success := true;
     fd_filename := "formatted_" +:+ filename d;
     fd_content := Base64.b64encode output;
     fd_tracked_changes_content := None;
     fd_metadata := {["style" := VStr (style_applied d)]} |}.

(** What the Status Reporter answers for a job a real run has formatted. *)
Definition formatted_status (job_id : string) (link : option string)
  : DocumentStatusResponse :=
  {| ds_success := true;
     ds_job_id := job_id;
     ds_status := "formatted";
     ds_progress := VInt 100;
     ds_result_url := link;
     ds_error := VNone |}.

(** ** The event loop of any of the services *)

(** [api_step] with the request handlers as a parameter. *)
Inductive loop_step {R : Type} (handler : R -> Thread)
  : World * list Thread -> World * list Thread -> Prop :=
| loop_request (r : R) (w : World) (pool : list Thread) :
    loop_step handler (w, pool) (w, (pool ++ [handler r])%list)
| loop_client_upload (path content : string) (w : World) (pool : list Thread) :
    loop_step handler (w, pool) (set_bucket (<[path := content]> (bucket w)) w, pool)
| loop_call {A X} (c : Cmd X) (k : result X -> Prog A) (w : World)
    (before after : list Thread) (faults : list (option exn)) :
    let rw := exec c (set_oracle faults w) in
    loop_step handler (w, (before ++ Running (Vis c k) :: after)%list)
      (snd rw, (before ++ Running (k (fst rw)) :: after ++ spawned c)%list)
| loop_return {A} (a : A) (w : World) (before after : list Thread) :
    loop_step handler (w, (before ++ Running (Ret a) :: after)%list)
      (w, (before ++ after)%list)
| loop_raise {A} (e : exn) (w : World) (before after : list Thread) :
    loop_step handler (w, (before ++ @Running A (Raise e) :: after)%list)
      (w, (before ++ after)%list).

(** The states of a service: from an empty table and no thread. *)
Inductive loop_reachable {R : Type} (handler : R -> Thread)
  : World * list Thread -> Prop :=
| loop_start (w : World) : documents w = [] -> loop_reachable handler (w, [])
| loop_next (s s' : World * list Thread) :
    loop_reachable handler s -> loop_step handler s s' -> loop_reachable handler s'.

(** The requests main.py serves on jobs, with the completion webhook of
    upload-complete.py, which uses the helpers of main.py. *)
Inductive MainRequest : Type :=
| MainCreateUpload (filename style englishVariant : string) (trackedChanges : bool)
    (file_size : option Z) (user : User)
| MainUploadDocument (filename style englishVariant : string) (trackedChanges : bool)
    (file_size : option Z) (user : User)
| MainUploadComplete (webhook_data : WebhookUploadComplete) (user : User)
| StandaloneUploadComplete (webhook_data : WebhookUploadComplete) (user : User)
| MainProcessDocument (request : ProcessDocumentRequest) (user : User)
| MainGetStatus (job_id : string) (user : User)
| MainDownloadDocument (job_id : string) (user : User)
| MainDeleteJob (job_id : string).

Definition main_handler (r : MainRequest) : Thread :=
  match r with
  | MainCreateUpload f s v t z u => Running (Main.create_upload_url f s v t z u)
  | MainUploadDocument f s v t z u => Running (Main.upload_document f s v t z u)
  | MainUploadComplete wd u => Running (Main.upload_complete_webhook wd u)
  | StandaloneUploadComplete wd u => Running (UploadComplete.upload_complete_webhook wd u)
  | MainProcessDocument rq u => Running (Main.process_document rq u)
  | MainGetStatus j u => Running (Main.get_document_status j u)
  | MainDownloadDocument j u => Running (Main.download_document j u)
  | MainDeleteJob j => Running (Main.delete_job j)
  end.

(** The states main.py can reach. *)
Definition main_reachable : World * list Thread -> Prop := loop_reachable main_handler.

(** ** Row invariants *)

(** The tasks each service creates. *)
Definition real_task (t : Task) : Prop :=
  match t with
  | ProcessDocumentTask _ _ _ _ _ _ => True
  | SimulateProcessing _ => False
  end.

Definition simulated_task (t : Task) : Prop :=
  match t with
  | ProcessDocumentTask _ _ _ _ _ _ => False
  | SimulateProcessing _ => True
  end.

(** The calls that keep a property [I] of rows: an inserted row has it,
    an update keeps it on the rows of its job, and a created task is one
    the service creates. *)
Definition keeps (I : Document -> Prop) (tasks : Task -> Prop) (X : Type) (c : Cmd X)
  : Prop :=
  match c with
  | DbInsert d => I d
  | DbUpdate u job_id => forall d, I d -> id_ d = job_id -> I (apply_update u d)
  | CreateTask t => tasks t
  | _ => True
  end.

(** Every call the thread can still make keeps [I]. *)
Definition thread_keeps (I : Document -> Prop) (tasks : Task -> Prop) (t : Thread) : Prop :=
  match t with
  | Running p => all_cmds (keeps I tasks) p
  end.

(** Every value the program can return satisfies [Q]. *)
Fixpoint returns {A} (Q : A -> Prop) (p : Prog A) : Prop :=
  match p with
  | Ret a => Q a
  | Raise _ => True
  | Vis c k => forall r, returns Q (k r)
  end.

(** The four statuses of a Job Record. *)
Definition status_known (s : string) : Prop :=
  s = "draft" \/ s = "processing" \/ s = "formatted" \/ s = "failed".

(** What every row of api.py looks like: a known status; a progress
    among the milestones of the real pipeline, 100 exactly on formatted
    rows; no log on a draft; the processing time stamp and the formatting
    time on a formatted row; the file name kept twice. *)
Definition api_row_shape (d : Document) : Prop :=
  status_known (status d)
  /\ (exists n, progress_shown d = VInt n /\ n ∈ [0; 10; 30; 90; 100])
  /\ (progress_shown d = VInt 100 <-> status d = "formatted")
  /\ (status d = "draft" -> processing_log d = None)
  /\ (status d = "formatted" -> is_Some (processed_at d) /\ is_Some (formatting_time d))
  /\ original_filename d = filename d.

(** Where the objects of a row of api.py are: the source under the
    owner's upload folder or at the owner's legacy path, the result, when
    there is one, at "formatted/<job>.docx". *)
Definition api_row_places (d : Document) : Prop :=
  (exists path,
      storage_location d = Some path
      /\ (String.prefix ("documents/" +:+ user_id d +:+ "/") path = true
          \/ path = legacy_path (user_id d) (id_ d)))
  /\ (result_url d = None \/ result_url d = Some (Api.result_filename_of (id_ d))).

(** What every row of main.py looks like: a known status; a progress
    among the milestones of the simulated pipeline, 100 on formatted
    rows; never a result location; never an error message; the file type
    of the file name. *)
Definition main_row_shape (d : Document) : Prop :=
  status_known (status d)
  /\ (exists n, progress_shown d = VInt n /\ n ∈ [0; 25; 75; 100])
  /\ (status d = "formatted" -> progress_shown d = VInt 100)
  /\ result_url d = None
  /\ error_shown d = VNone
  /\ file_type d = Some (extension_of (filename d)).

(** ** One job of main.py whose upload fails *)

Definition main_created_world : World :=
  snd (run (Main.create_upload_url "thesis.docx" "apa" "us" true (Some 500000) alice)
         empty_world).

(** The client reports that the upload of the job did not go through. *)
Definition failed_upload_notice : WebhookUploadComplete :=
  mkWebhook "uuid-0" uploaded_path false.

Definition main_failed_world : World :=
  snd (run (Main.upload_complete_webhook failed_upload_notice alice) main_created_world).

(** * The other endpoints *)

(** The endpoints below talk to collaborators that are not among [Cmd]
    (the JWT library, the tables [profiles], [active_formatting_styles]
    and [active_english_variants]).  Each makes at most two such calls,
    so they are written as functions of what the collaborators answer,
    with the lines they log. *)

(** ** The catalogues of styles and variants *)

Module Catalogue.

Record Choice : Type := mkChoice {
  c_id : value;
  c_name : value;
  c_description : value
}.

Definition choice (id name description : string) : Choice :=
  mkChoice (VStr id) (VStr name) (VStr description).

Definition FORMATTING_STYLES : list Choice :=
  [choice "apa" "APA Style" "American Psychological Association";
   choice "mla" "MLA Style" "Modern Language Association";
   choice "chicago" "Chicago Style" "Chicago Manual of Style";
   choice "ieee" "IEEE Style" "Institute of Electrical and Electronics Engineers"].

Definition ENGLISH_VARIANTS : list Choice :=
  [choice "us" "US English" "American English";
   choice "uk" "UK English" "British English";
   choice "ca" "Canadian English" "Canadian English";
   choice "au" "Australian English" "Australian English"].

(** [row[key]]: the value, or the [KeyError], whose text is the key in
    quotes. *)
Definition item (row : dict) (key : string) : result value :=
  match row !! key with
  | Some v => Ok v
  | None => Err (Exception ("'" +:+ key +:+ "'"))
  end.

(** [{"id": row["code"], "name": row["name"], "description": row["description"]}]. *)
Definition choice_of (row : dict) : result Choice :=
  match item row "code" with
  | Err e => Err e
  | Ok code =>
      match item row "name" with
      | Err e => Err e
      | Ok name =>
          match item row "description" with
          | Err e => Err e
          | Ok description => Ok (mkChoice code name description)
          end
      end
  end.

(** The list comprehension over [response.data]. *)
Fixpoint choices_of (rows : list dict) : result (list Choice) :=
  match rows with
  | [] => Ok []
  | row :: rest =>
      match choice_of row with
      | Err e => Err e
      | Ok c =>
          match choices_of rest with
          | Err e => Err e
          | Ok l => Ok (c :: l)
          end
      end
  end.

(** The body shared by [get_formatting_styles] and
    [get_english_variants] of main.py, given what the query answered or
    raised: the choices and the lines logged. *)
Definition catalogue (fallback : list Choice) (what : string)
    (answer : result (list dict)) : list Choice * list (Level * string) :=
  let tried :=
    match answer with
    | Err e => Err e
    | Ok data =>
        match data with
        | [] => Ok fallback
        | _ :: _ => choices_of data
        end
    end in
  match tried with
  | Ok l => (l, [])
  | Err e => (fallback, [(Error, "Error fetching " +:+ what +:+ ": " +:+ str_exn e)])
  end.

Definition get_formatting_styles (answer : result (list dict))
  : list Choice * list (Level * string) :=
  catalogue FORMATTING_STYLES "formatting styles" answer.

Definition get_english_variants (answer : result (list dict))
  : list Choice * list (Level * string) :=
  catalogue ENGLISH_VARIANTS "English variants" answer.

(** api.py answers the built-in lists. *)
Definition api_get_formatting_styles : list Choice := FORMATTING_STYLES.
Definition api_get_english_variants : list Choice := ENGLISH_VARIANTS.

End Catalogue.

(** The row has the three columns a choice is built from. *)
Definition well_formed (row : dict) : Prop :=
  is_Some (row !! "code") /\ is_Some (row !! "name") /\ is_Some (row !! "description").

(** The choice built from a row, its missing columns read as [None]. *)
Definition choice_from (row : dict) : Catalogue.Choice :=
  Catalogue.mkChoice (default VNone (row !! "code")) (default VNone (row !! "name"))
    (default VNone (row !! "description")).

(** A style as the table holds it. *)
Definition style_row (code name description : string) : dict :=
  <["code" := VStr code]>
    (<["name" := VStr name]> {["description" := VStr description]}).

(** ** Authentication *)

(** What [jwt.decode] or the lookup of the profile may raise: the two
    exception classes main.py tells apart, or anything else. *)
Inductive token_exn : Type :=
| ExpiredSignatureError (msg : string)
| InvalidTokenError (msg : string)
| OtherError (e : exn).

Definition str_token_exn (e : token_exn) : string :=
  match e with
  | ExpiredSignatureError m | InvalidTokenError m => m
  | OtherError e => str_exn e
  end.

(** The dictionary [verify_token] returns. *)
Record Identity : Type := mkIdentity {
  i_user_id : value;
  i_email : value;
  i_profile : option dict
}.

(** [payload.get(key)]. *)
Definition claim (payload : dict) (key : string) : value := default VNone (payload !! key).

Module ApiAuth.

(** The [try] block. *)
Definition verified (decode : string -> token_exn + dict) (token : string)
  : token_exn + Identity :=
  match decode token with
  | inl e => inl e
  | inr payload =>
      let user_id := claim payload "sub" in
      if negb (truthy user_id)
      then inl (OtherError (HTTPException 401 "Invalid token: missing user ID"))
      else inr {| i_user_id := user_id;
                  i_email := claim payload "email";
                  i_profile := None |}
  end.

Definition verify_token (decode : string -> token_exn + dict)
    (credentials : option string) : result Identity * list (Level * string) :=
  match credentials with
  | None => (Err (HTTPException 401 "Authorization header required"), [])
  | Some token =>
      match verified decode token with
      | inr who => (Ok who, [])
      | inl e =>
          (Err (HTTPException 401 "Token verification failed"),
           [(Error, "Token verification error: " +:+ str_token_exn e)])
      end
  end.

End ApiAuth.

Module MainAuth.

(** The [try] block: the token, then the profile of the user. *)
Definition verified (decode : string -> token_exn + dict)
    (profiles : value -> token_exn + list dict) (token : string)
  : token_exn + Identity :=
  match decode token with
  | inl e => inl e
  | inr payload =>
      let user_id := claim payload "sub" in
      if negb (truthy user_id)
      then inl (OtherError (HTTPException 401 "Invalid token: missing user ID"))
      else
        match profiles user_id with
        | inl e => inl e
        | inr [] => inl (OtherError (HTTPException 401 "User profile not found"))
        | inr (profile :: _) =>
            inr {| i_user_id := user_id;
                   i_email := claim payload "email";
                   i_profile := Some profile |}
        end
  end.

Definition verify_token (decode : string -> token_exn + dict)
    (profiles : value -> token_exn + list dict) (credentials : option string)
  : result Identity * list (Level * string) :=
  match credentials with
  | None => (Err (HTTPException 401 "Authorization header required"), [])
  | Some token =>
      match verified decode profiles token with
      | inr who => (Ok who, [])
      | inl (ExpiredSignatureError _) => (Err (HTTPException 401 "Token has expired"), [])
      | inl (InvalidTokenError msg) =>
          (Err (HTTPException 401 ("Invalid token: " +:+ msg)), [])
      | inl (OtherError e) =>
          (Err (HTTPException 401 "Token verification failed"),
           [(Error, "Token verification error: " +:+ str_exn e)])
      end
  end.

End MainAuth.

(** A token whose claims have no subject, and one of a user without
    profile. *)
Definition sample_decode (token : string) : token_exn + dict :=
  if String.eqb token "no-sub" then inr {["email" := VStr "a@example.org"]}
  else if String.eqb token "expired" then inl (ExpiredSignatureError "Signature has expired")
  else inr (<["sub" := VStr token]> {["email" := VStr "a@example.org"]}).

Definition sample_profiles (user_id : value) : token_exn + list dict :=
  match user_id with
  | VStr "alice" => inr [{["id" := VStr "alice"]}]
  | _ => inr []
  end.

(** * Usage tracking and the legacy endpoints *)

(** The [rpc] calls among the calls: the function, the user and the
    storage passed. *)
Definition rpc_of (e : Event) : option (string * string * option Q) :=
  match e with
  | Called c =>
      match c with
      | Rpc name uid storage_gb => Some (name, uid, storage_gb)
      | _ => None
      end
  end.

Definition rpcs (l : list Event) : list (string * string * option Q) := omap rpc_of l.

(** The two charges of a finished job: one document, then the storage
    estimated from the log, in GB. *)
Definition charges (uid : string) (log : dict) : list (string * string * option Q) :=
  [("increment_document_usage", uid, None);
   ("update_storage_usage", uid, Some (Main.estimated_storage_mb log / 1024)%Q)].

(** The rows the table holds for a job id, whoever owns them. *)
Definition rows_of (job_id : string) (w : World) : list Document :=
  List.filter (has_id job_id) (documents w).

(** A response with another message. *)
Definition with_message (msg : string) (r : CreateUploadResponse) : CreateUploadResponse :=
  {| cu_success := cu_success r;
     cu_job_id := cu_job_id r;
     cu_upload_url := cu_upload_url r;
     cu_upload_token := cu_upload_token r;
     cu_file_path := cu_file_path r;
     cu_message := msg;
     cu_upload_headers := cu_upload_headers r |}.

(** The message of [upload_document]. *)
Definition queued_message (style : string) : string :=
  "Document queued for " +:+ style
    +:+ " formatting. Status: DRAFT. Upload your file to begin processing.".

(** The options [process_document] of main.py stores with the row. *)
Definition legacy_options (request : ProcessDocumentRequest) : dict :=
  <["trackedChanges" := VBool (pr_trackedChanges request)]>
    {["content" := VStr (pr_content request)]}.

(** A world whose second remote call fails. *)
Definition unbilled_world : World :=
  sample_world [sample_row "formatted" (Some Main.simulated_log) None]
    [None; Some (Exception "rpc unavailable")].

(** * The file type of a record *)

(** The character is a full stop. *)
Definition is_dot (c : ascii) : bool := if ascii_dec "." c then true else false.

(** A string stands for the UTF-8 bytes of the Python string.  On the
    bytes below 128, the ASCII characters, [Str.lower] is [str.lower()];
    a character outside ASCII is several bytes of 128 or more, which
    [Str.lower] leaves as they are and [str.lower()] may change.  What
    is stated of lower case is stated for ASCII strings. *)
Definition is_ascii (c : ascii) : bool := Nat.ltb (nat_of_ascii c) 128.

Fixpoint ascii_only (s : string) : bool :=
  match s with
  | EmptyString => true
  | String c rest => is_ascii c && ascii_only rest
  end.

(** An upper-case letter of ASCII. *)
Definition is_upper (c : ascii) : bool :=
  Nat.leb 65 (nat_of_ascii c) && Nat.leb (nat_of_ascii c) 90.

Fixpoint has_upper (s : string) : bool :=
  match s with
  | EmptyString => false
  | String c rest => is_upper c || has_upper rest
  end.

(** ** The local disk *)

(** [tempfile.mkdtemp()] and [shutil.rmtree()] work on the local disk
    and can raise as well (no space, no permission, a file still open).
    [exec] lets the remote calls fail; [exec_disk] lets these two fail
    too, on the same oracle. *)
Definition on_disk {X} (c : Cmd X) : bool :=
  match c with
  | Mkdtemp | Rmtree => true
  | _ => false
  end.

Definition exec_disk {X} (c : Cmd X) (w : World) : result X * World :=
  if on_disk c then
    match oracle w with
    | [] => normal c w
    | None :: rest => normal c (set_oracle rest w)
    | Some e :: rest => (Err e, set_oracle rest w)
    end
  else exec c w.

Fixpoint run_disk {A} (p : Prog A) (w : World) : result A * World :=
  match p with
  | Ret a => (Ok a, w)
  | Raise e => (Err e, w)
  | Vis c k => let rw := exec_disk c w in run_disk (k (fst rw)) (snd rw)
  end.

Fixpoint calls_disk {A} (p : Prog A) (w : World) : list Event :=
  match p with
  | Ret _ | Raise _ => []
  | Vis c k => let rw := exec_disk c w in Called c :: calls_disk (k (fst rw)) (snd rw)
  end.

(** The [try] and [except] blocks of [process_document_task]. *)
Definition guarded_steps (job_id file_path style : string) : Prog unit :=
  try_except (Api.pipeline_steps job_id file_path style) (Api.pipeline_failed job_id).

(** "job-1" is being processed and the disk is full. *)
Definition full_disk_world : World :=
  sample_world [sample_row "processing" (Some {["progress" := VInt 0]}) None]
    [Some (Exception "[Errno 28] No space left on device")].

(** "job-1" is being processed; everything goes well until the
    temporary directory is to be removed (the eleventh fallible call of
    the task). *)
Definition busy_disk_world : World :=
  sample_world [sample_row "processing" (Some {["progress" := VInt 0]}) None]
    (replicate 10 None ++ [Some (Exception "[Errno 16] Device or resource busy")]).

(** ** The types of a status response *)

(** The types [DocumentStatusResponse] declares for the two values read
    off the log: [progress: int] and [error: Optional[str]].  The
    handlers build the response from whatever the log holds; a response
    with a value of another type does not pass the validation of the
    model.  That validation is no part of the handlers above: what is
    stated of an answer below is stated for values of the declared
    types. *)
Definition declared_int (v : value) : Prop := exists n, v = VInt n.

Definition declared_optional_str (v : value) : Prop := v = VNone \/ exists s, v = VStr s.

(** * Reasoning about programs *)

(** ** The string helpers on examples *)

Example split_dot : Str.split "." "a.tar.GZ" = ["a"; "tar"; "GZ"].
Proof. reflexivity. Qed.

Example split_long_sep :
  Str.split "/documents/" "https://x/documents/u/1_a.docx?token=t"
  = ["https://x"; "u/1_a.docx?token=t"].
Proof. reflexivity. Qed.

Example split_absent : Str.split "?" "abc" = ["abc"].
Proof. reflexivity. Qed.

Example contains_inner : Str.contains "JSON Parsing Error" "x: JSON Parsing Error at 3" = true.
Proof. reflexivity. Qed.

Example b64_three : Base64.b64encode "Man" = "TWFu".
Proof. reflexivity. Qed.

Example b64_two : Base64.b64encode "Ma" = "TWE=".
Proof. reflexivity. Qed.

Example b64_one : Base64.b64encode "M" = "TQ==".
Proof. reflexivity. Qed.

Example extension_upper : extension_of "Thesis.Final.DOCX" = "docx".
Proof. reflexivity. Qed.

Example extension_pdf : extension_of "a.pdf" = "pdf".
Proof. reflexivity. Qed.

Example extension_none : extension_of "notes" = "docx".
Proof. reflexivity. Qed.

(** ** Sequencing and handlers *)

Lemma run_bind {A B} (p : Prog A) (f : A -> Prog B) (w : World) :
  run (bind p f) w =
  match fst (run p w) with
  | Ok a => run (f a) (snd (run p w))
  | Err e => (Err e, snd (run p w))
  end.
Proof. revert w; induction p as [a|e|X c k IH]; intros w; simpl; auto. Qed.

Lemma run_try_except {A} (p : Prog A) (h : exn -> Prog A) (w : World) :
  run (try_except p h) w =
  match fst (run p w) with
  | Ok a => (Ok a, snd (run p w))
  | Err e => run (h e) (snd (run p w))
  end.
Proof. revert w; induction p as [a|e|X c k IH]; intros w; simpl; auto. Qed.

Lemma run_try_finally {A} (p : Prog A) (f : Prog unit) (w : World) :
  run (try_finally p f) w =
  match fst (run f (snd (run p w))) with
  | Ok _ => (fst (run p w), snd (run f (snd (run p w))))
  | Err e => (Err e, snd (run f (snd (run p w))))
  end.
Proof.
  revert w; induction p as [a|e|X c k IH]; intros w; cbn [try_finally run fst snd].
  - rewrite run_bind. destruct (fst (run f w)); reflexivity.
  - rewrite run_bind. destruct (fst (run f w)); reflexivity.
  - apply IH.
Qed.

Lemma calls_bind {A B} (p : Prog A) (f : A -> Prog B) (w : World) :
  calls (bind p f) w =
  (calls p w ++
   match fst (run p w) with
   | Ok a => calls (f a) (snd (run p w))
   | Err _ => []
   end)%list.
Proof.
  revert w; induction p as [a|e|X c k IH]; intros w; simpl; auto.
  by rewrite IH.
Qed.

Lemma calls_try_except {A} (p : Prog A) (h : exn -> Prog A) (w : World) :
  calls (try_except p h) w =
  (calls p w ++
   match fst (run p w) with
   | Ok _ => []
   | Err e => calls (h e) (snd (run p w))
   end)%list.
Proof.
  revert w; induction p as [a|e|X c k IH]; intros w; simpl; auto.
  by rewrite IH.
Qed.

Lemma calls_try_finally {A} (p : Prog A) (f : Prog unit) (w : World) :
  calls (try_finally p f) w = (calls p w ++ calls f (snd (run p w)))%list.
Proof.
  revert w; induction p as [a|e|X c k IH]; intros w;
    cbn [try_finally calls run fst snd app].
  - rewrite calls_bind. destruct (fst (run f w)); simpl; by rewrite app_nil_r.
  - rewrite calls_bind. destruct (fst (run f w)); simpl; by rewrite app_nil_r.
  - by rewrite IH.
Qed.


Lemma run_call {X} (c : Cmd X) (w : World) : run (call c) w = exec c w.
Proof. unfold call; simpl. destruct (exec c w) as [[x|e] w']; reflexivity. Qed.

Lemma calls_call {X} (c : Cmd X) (w : World) : calls (call c) w = [Called c].
Proof. unfold call; simpl. destruct (fst (exec c w)); reflexivity. Qed.

(** ** Worlds without faults *)

Lemma normal_oracle {X} (c : Cmd X) (w : World) (o : list (option exn)) :
  normal c (set_oracle o w) = (fst (normal c w), set_oracle o (snd (normal c w))).
Proof. destruct c; simpl; try reflexivity. destruct (bucket w !! path); reflexivity. Qed.

Lemma normal_keeps_oracle {X} (c : Cmd X) (w : World) :
  oracle (snd (normal c w)) = oracle w.
Proof. destruct c; simpl; try reflexivity. destruct (bucket w !! path); reflexivity. Qed.

Lemma exec_quiet {X} (c : Cmd X) (w : World) :
  quiet w ->
  fst (exec c w) = fst (normal c w)
  /\ calm (snd (exec c w)) = calm (snd (normal c w))
  /\ quiet (snd (exec c w)).
Proof.
  unfold quiet, exec. intros Hq.
  destruct (remote c).
  - destruct (oracle w) as [|[e|] rest] eqn:Ho.
    + rewrite normal_keeps_oracle, Ho. auto.
    + inversion Hq; subst; discriminate.
    + rewrite normal_oracle; simpl. inversion Hq; subst. auto.
  - rewrite normal_keeps_oracle. auto.
Qed.

Lemma exec_calm {X} (c : Cmd X) (w : World) :
  exec c (calm w) = (fst (normal c w), calm (snd (normal c w))).
Proof.
  unfold exec, calm; simpl. rewrite normal_oracle. by destruct (remote c).
Qed.

Lemma calm_calm (w : World) : calm (calm w) = calm w.
Proof. reflexivity. Qed.

Lemma run_calm_congr {A} (p : Prog A) (w1 w2 : World) :
  calm w1 = calm w2 -> quiet w1 -> quiet w2 ->
  fst (run p w1) = fst (run p w2)
  /\ calm (snd (run p w1)) = calm (snd (run p w2))
  /\ calls p w1 = calls p w2.
Proof.
  revert w1 w2; induction p as [a|e|X c k IH]; intros w1 w2 Hc Hq1 Hq2; simpl; auto.
  destruct (exec_quiet c w1 Hq1) as (Hf1 & Hw1 & Hq1').
  destruct (exec_quiet c w2 Hq2) as (Hf2 & Hw2 & Hq2').
  assert (Hn : fst (normal c w1) = fst (normal c w2)
               /\ calm (snd (normal c w1)) = calm (snd (normal c w2))).
  { pose proof (exec_calm c w1) as E1. pose proof (exec_calm c w2) as E2.
    rewrite Hc in E1. rewrite E1 in E2.
    split; [exact (f_equal fst E2) | exact (f_equal snd E2)]. }
  destruct Hn as [Hn1 Hn2].
  rewrite Hf1, Hf2, Hn1.
  destruct (IH (fst (normal c w2)) (snd (exec c w1)) (snd (exec c w2))) as (R1 & R2 & R3);
    [congruence | assumption | assumption |].
  rewrite R1, R2, R3. auto.
Qed.

(** A run from a world whose oracle holds no fault is the run from the
    same world with an empty oracle. *)
Lemma run_quiet {A} (p : Prog A) (w : World) :
  quiet w ->
  fst (run p w) = fst (run p (calm w))
  /\ calm (snd (run p w)) = snd (run p (calm w))
  /\ calls p w = calls p (calm w).
Proof.
  intros Hq.
  destruct (run_calm_congr p w (calm w)) as (R1 & R2 & R3);
    [reflexivity | assumption | constructor |].
  repeat split; auto.
  rewrite R2. clear.
  assert (G : forall v, oracle v = [] -> oracle (snd (run p v)) = []).
  { induction p as [a|e|X c k IH]; intros v Hv; simpl; auto.
    apply IH. unfold exec. destruct (remote c); rewrite ?Hv;
      by rewrite normal_keeps_oracle. }
  specialize (G (calm w) eq_refl).
  destruct (snd (run p (calm w))); simpl in *. unfold calm, set_oracle; simpl.
  by rewrite G.
Qed.

(** * The status-update helper *)

(** Case analysis on the faults the next remote calls meet. *)
Ltac next_fault :=
  match goal with
  | |- context [match oracle ?w with _ => _ end] =>
      let o := fresh "o" in
      let rest := fresh "rest" in
      let Ho := fresh "Ho" in
      destruct (oracle w) as [|[o|] rest] eqn:Ho; simpl
  | |- context [match ?l with [] => _ | _ :: _ => _ end] =>
      is_var l;
      let o := fresh "o" in
      let rest := fresh "rest" in
      destruct l as [|[o|] rest]; simpl
  end.

Lemma api_update_returns (job_id status : string) (progress : option Z)
    (log : option dict) (url : option string) (time : option Q) (w : World) :
  fst (run (Api.update_document_status job_id status progress log url time) w) = Ok tt.
Proof.
  unfold Api.update_document_status.
  destruct (is_formatted status); simpl; unfold exec; simpl;
    next_fault; reflexivity.
Qed.

Lemma main_update_returns (job_id status : string) (progress : option Z)
    (log : option dict) (w : World) :
  fst (run (Main.update_document_status job_id status progress log) w) = Ok tt.
Proof.
  unfold Main.update_document_status.
  destruct (is_formatted status); simpl; unfold exec; simpl;
    next_fault; try reflexivity;
    match goal with
    | |- context [List.filter ?f ?l] => destruct (List.filter f l); reflexivity
    end.
Qed.

(** ** C10 *)

(** C10.  [update_document_status], in api.py and in main.py, returns
    normally on every input and in every world.  When the record store
    raises [e] on the write, the table is left as it was, the only trace is
    the logged line "Error updating document status: <e>", and the caller
    gets the same [Ok ()] as after a write that went through. *)
Theorem update_document_status_swallows_store_errors :
  (forall job_id status progress log url time w,
      fst (run (Api.update_document_status job_id status progress log url time) w)
      = Ok tt)
  /\ (forall job_id status progress log w,
         fst (run (Main.update_document_status job_id status progress log) w) = Ok tt)
  /\ (forall job_id status progress log url time e rest w,
         let w' := set_oracle (Some e :: rest) w in
         let p := Api.update_document_status job_id status progress log url time in
         documents (snd (run p w')) = documents w
         /\ logged (calls p w')
            = [(Error, "Error updating document status: " +:+ str_exn e)]
         /\ fst (run p w') = fst (run p (calm w)))
  /\ (forall job_id status progress log e rest w,
         let w' := set_oracle (Some e :: rest) w in
         let p := Main.update_document_status job_id status progress log in
         documents (snd (run p w')) = documents w
         /\ logged (calls p w')
            = [(Error, "Error updating document status: " +:+ str_exn e)]
         /\ fst (run p w') = fst (run p (calm w))).
Proof.
  split; [exact api_update_returns|].
  split; [exact main_update_returns|].
  split.
  - intros job_id status progress log url time e rest w w' p.
    subst p. rewrite !api_update_returns. subst w'.
    unfold Api.update_document_status.
    destruct (is_formatted status); simpl; auto.
  - intros job_id status progress log e rest w w' p.
    subst p. rewrite !main_update_returns. subst w'.
    unfold Main.update_document_status.
    destruct (is_formatted status); simpl; auto.
Qed.

(** * Runs, symbolically *)

Lemma dict_truthy_insert (k : string) (v : value) (m : dict) :
  dict_truthy (Some (<[k := v]> m)) = true.
Proof.
  unfold dict_truthy. rewrite bool_decide_eq_false_2; [reflexivity|].
  apply insert_non_empty.
Qed.

Lemma dict_truthy_singleton (k : string) (v : value) :
  dict_truthy (Some ({[k := v]} : dict)) = true.
Proof.
  unfold dict_truthy. rewrite bool_decide_eq_false_2; [reflexivity|].
  apply map_non_empty_singleton.
Qed.

(** [processing_log or {}]: the dictionary itself, or the empty one. *)
Lemma or_empty_default (l : option dict) : or_empty l = default ∅ l.
Proof.
  unfold or_empty. destruct l as [m|]; simpl; [|reflexivity].
  destruct (bool_decide (m = ∅)) eqn:E; simpl; [|reflexivity].
  apply bool_decide_eq_true_1 in E. by subst.
Qed.

Arguments exec {X} !c w /.
Arguments or_empty : simpl never.

(** ** What a call leaves unchanged *)

Lemma normal_env {X} (c : Cmd X) (w : World) : env (snd (normal c w)) = env w.
Proof. destruct c; simpl; try reflexivity. destruct (bucket w !! path); reflexivity. Qed.

Lemma exec_env {X} (c : Cmd X) (w : World) : env (snd (exec c w)) = env w.
Proof.
  unfold exec. destruct (remote c); [|apply normal_env].
  destruct (oracle w) as [|[e|] rest]; rewrite ?normal_env; reflexivity.
Qed.

Lemma exec_clock {X} (c : Cmd X) (w : World) :
  timed c = false -> clock (snd (exec c w)) = clock w.
Proof.
  intros Ht. unfold exec.
  assert (N : forall v, clock (snd (normal c v)) = clock v).
  { intros v. destruct c; simpl; try reflexivity; try discriminate.
    destruct (bucket v !! path); reflexivity. }
  destruct (remote c); [|apply N].
  destruct (oracle w) as [|[e|] rest]; rewrite ?N; reflexivity.
Qed.

Lemma exec_documents {X} (c : Cmd X) (w : World) :
  writes_table c = false -> documents (snd (exec c w)) = documents w.
Proof.
  intros Ht. unfold exec.
  assert (N : forall v, documents (snd (normal c v)) = documents v).
  { intros v. destruct c; simpl; try reflexivity; try discriminate.
    destruct (bucket v !! path); reflexivity. }
  destruct (remote c); [|apply N].
  destruct (oracle w) as [|[e|] rest]; rewrite ?N; reflexivity.
Qed.

Lemma exec_bucket {X} (c : Cmd X) (w : World) :
  writes_bucket c = false -> bucket (snd (exec c w)) = bucket w.
Proof.
  intros Ht. unfold exec.
  assert (N : forall v, bucket (snd (normal c v)) = bucket v).
  { intros v. destruct c; simpl; try reflexivity; try discriminate.
    destruct (bucket v !! path); reflexivity. }
  destruct (remote c); [|apply N].
  destruct (oracle w) as [|[e|] rest]; rewrite ?N; reflexivity.
Qed.

Lemma exec_download_ok (path content : string) (w : World) :
  fst (exec (Download path) w) = Ok content -> bucket w !! path = Some content.
Proof.
  simpl. destruct (oracle w) as [|[e|] rest]; simpl;
    destruct (bucket w !! path); simpl; congruence.
Qed.

Lemma exec_format_ok (style backend input output : string) (w : World) :
  fst (exec (FormatDocument style backend input) w) = Ok output ->
  clock (snd (exec (FormatDocument style backend input) w))
  = (clock w + engine_time (env w) style backend input)%Q
  /\ output = engine (env w) style backend input.
Proof.
  simpl. destruct (oracle w) as [|[e|] rest]; simpl; intros H;
    try discriminate; split; congruence.
Qed.

(** ** Awaiting a call *)

Lemma run_await {X B} (c : Cmd X) (f : X -> Prog B) (w : World) :
  run (bind (call c) f) w =
  match fst (exec c w) with
  | Ok x => run (f x) (snd (exec c w))
  | Err e => (Err e, snd (exec c w))
  end.
Proof. rewrite run_bind, run_call. reflexivity. Qed.

Lemma calls_await {X B} (c : Cmd X) (f : X -> Prog B) (w : World) :
  calls (bind (call c) f) w =
  Called c :: match fst (exec c w) with
              | Ok x => calls (f x) (snd (exec c w))
              | Err _ => []
              end.
Proof. rewrite calls_bind, calls_call, run_call. reflexivity. Qed.

(** ** The status-update helper, in full *)

Lemma api_update_run (job_id status : string) (progress : option Z)
    (log : option dict) (url : option string) (time : option Q) (w : World) :
  run (Api.update_document_status job_id status progress log url time) w
  = (Ok tt,
     snd (exec (DbUpdate (api_update_data status progress log url time (clock w)) job_id)
            w)).
Proof.
  unfold Api.update_document_status, api_update_data.
  destruct (is_formatted status); simpl;
    destruct (oracle w) as [|[e|] rest]; reflexivity.
Qed.

Lemma api_update_calls (job_id status : string) (progress : option Z)
    (log : option dict) (url : option string) (time : option Q) (w : World) :
  let c := DbUpdate (api_update_data status progress log url time (clock w)) job_id in
  calls (Api.update_document_status job_id status progress log url time) w
  = ((Called Now :: (if is_formatted status then [Called Now] else []))
       ++ Called c
       :: match fst (exec c w) with
          | Ok _ => []
          | Err e => [Called (Log Error ("Error updating document status: " +:+ str_exn e))]
          end)%list.
Proof.
  unfold Api.update_document_status, api_update_data.
  destruct (is_formatted status); simpl;
    destruct (oracle w) as [|[e|] rest]; reflexivity.
Qed.

Lemma main_update_run (job_id status : string) (progress : option Z)
    (log : option dict) (w : World) :
  run (Main.update_document_status job_id status progress log) w
  = (Ok tt,
     snd (exec (DbUpdate (main_update_data status progress log (clock w)) job_id) w)).
Proof.
  unfold Main.update_document_status, main_update_data.
  destruct (is_formatted status); simpl;
    destruct (oracle w) as [|[e|] rest]; simpl; try reflexivity;
    match goal with
    | |- context [List.filter ?f ?l] => destruct (List.filter f l); reflexivity
    end.
Qed.

Lemma main_update_calls (job_id status : string) (progress : option Z)
    (log : option dict) (w : World) :
  let c := DbUpdate (main_update_data status progress log (clock w)) job_id in
  calls (Main.update_document_status job_id status progress log) w
  = ((Called Now :: (if is_formatted status then [Called Now] else []))
       ++ Called c
       :: match fst (exec c w) with
          | Ok [] => [Called (Log Warning ("No document found with ID: " +:+ job_id))]
          | Ok (_ :: _) => []
          | Err e => [Called (Log Error ("Error updating document status: " +:+ str_exn e))]
          end)%list.
Proof.
  unfold Main.update_document_status, main_update_data.
  destruct (is_formatted status); simpl;
    destruct (oracle w) as [|[e|] rest]; simpl; try reflexivity;
    match goal with
    | |- context [List.filter ?f ?l] => destruct (List.filter f l); reflexivity
    end.
Qed.

(** ** Observations of composed runs *)

Lemma updates_app (l1 l2 : list Event) :
  updates (l1 ++ l2) = (updates l1 ++ updates l2)%list.
Proof. apply omap_app. Qed.

Lemma milestones_app (l1 l2 : list Event) :
  milestones (l1 ++ l2) = (milestones l1 ++ milestones l2)%list.
Proof. apply omap_app. Qed.

Lemma tasks_created_app (l1 l2 : list Event) :
  tasks_created (l1 ++ l2) = (tasks_created l1 ++ tasks_created l2)%list.
Proof. apply omap_app. Qed.

Lemma updates_cons {X} (c : Cmd X) (l : list Event) :
  updates (Called c :: l)
  = match update_of (Called c) with
    | Some u => u :: updates l
    | None => updates l
    end.
Proof. reflexivity. Qed.

Lemma milestones_cons {X} (c : Cmd X) (l : list Event) :
  milestones (Called c :: l)
  = match milestone_of (Called c) with
    | Some m => m :: milestones l
    | None => milestones l
    end.
Proof. reflexivity. Qed.

Lemma tasks_created_cons {X} (c : Cmd X) (l : list Event) :
  tasks_created (Called c :: l)
  = match task_of (Called c) with
    | Some t => t :: tasks_created l
    | None => tasks_created l
    end.
Proof. reflexivity. Qed.

Lemma api_update_updates (job_id status : string) (progress : option Z)
    (log : option dict) (url : option string) (time : option Q) (w : World) :
  updates (calls (Api.update_document_status job_id status progress log url time) w)
  = [(job_id, api_update_data status progress log url time (clock w))].
Proof.
  rewrite api_update_calls.
  destruct (is_formatted status); simpl;
    destruct (oracle w) as [|[e|] rest]; reflexivity.
Qed.

Lemma api_update_milestones (job_id status : string) (progress : option Z)
    (log : option dict) (url : option string) (time : option Q) (w : World) :
  milestones (calls (Api.update_document_status job_id status progress log url time) w)
  = [Progress status (VInt <$> progress)].
Proof.
  rewrite api_update_calls.
  destruct progress as [p|];
    destruct (is_formatted status); simpl;
    destruct (oracle w) as [|[e|] rest]; simpl;
    rewrite ?lookup_insert_eq; reflexivity.
Qed.

Lemma api_update_tasks (job_id status : string) (progress : option Z)
    (log : option dict) (url : option string) (time : option Q) (w : World) :
  tasks_created (calls (Api.update_document_status job_id status progress log url time) w)
  = [].
Proof.
  rewrite api_update_calls.
  destruct (is_formatted status); simpl;
    destruct (oracle w) as [|[e|] rest]; reflexivity.
Qed.

(** The helper changes neither the clock nor the answers of the
    collaborators. *)
Lemma api_update_frame (job_id status : string) (progress : option Z)
    (log : option dict) (url : option string) (time : option Q) (w : World) :
  let w' := snd (run (Api.update_document_status job_id status progress log url time) w) in
  clock w' = clock w /\ env w' = env w /\ bucket w' = bucket w.
Proof.
  cbv zeta. rewrite api_update_run. cbn [snd].
  rewrite exec_clock, exec_env, exec_bucket by reflexivity. auto.
Qed.

(** * The real pipeline *)

(** One step of a run: an awaited remote call that must have succeeded,
    a local call, or a status update.  Each tactic advances the
    hypothesis [H] on the result of the run and the goal on its calls. *)
Ltac await_step H x v :=
  rewrite run_await in H; rewrite calls_await;
  rewrite updates_cons, milestones_cons; cbn [update_of milestone_of];
  lazymatch type of H with
  | context [exec ?c ?w] =>
      let Hc := fresh "Hclock" in
      let He := fresh "Henv" in
      let E := fresh "E" in
      pose proof (exec_env c w) as He;
      pose proof (exec_clock c w eq_refl) as Hc;
      destruct (exec c w) as [[x|?] v] eqn:E;
      cbn [fst snd] in H, He, Hc |- *; [|discriminate H]
  end.

Ltac local_step H :=
  rewrite run_await in H; rewrite calls_await;
  rewrite updates_cons, milestones_cons; cbn [update_of milestone_of];
  cbn [exec remote normal fst snd] in H |- *.

Ltac update_step H :=
  rewrite run_bind, api_update_run in H; cbn [fst snd] in H;
  rewrite calls_bind, updates_app, milestones_app, api_update_updates,
    api_update_milestones, api_update_run; cbn [fst snd];
  lazymatch type of H with
  | context [exec ?c ?w] =>
      let Hc := fresh "Hclock" in
      let He := fresh "Henv" in
      let v := fresh "w" in
      pose proof (exec_env c w) as He;
      pose proof (exec_clock c w eq_refl) as Hc;
      set (v := snd (exec c w)) in *; clearbody v
  end.

(** The [try] block, when it raises nothing: the object was there, and
    the updates and milestones are the expected ones, whatever faults the
    status updates themselves met. *)
Lemma steps_calls (job_id file_path style : string) (w : World) :
  fst (run (Api.pipeline_steps job_id file_path style) w) = Ok tt ->
  exists content,
    bucket w !! Api.relative_path_of file_path = Some content
    /\ let backend := default "huggingface" (environ (env w) !! "DEFAULT_BACKEND") in
       let t1 := (clock w
                  + engine_time (env w) style (Api.client_class backend) content)%Q in
       let p := Api.pipeline_steps job_id file_path style in
       updates (calls p w) = real_updates job_id backend (clock w) t1
       /\ milestones (calls p w)
          = [Fetch;
             Progress "processing" (Some (VInt 10));
             Progress "processing" (Some (VInt 30));
             Transform;
             Progress "processing" (Some (VInt 90));
             Store;
             Progress "formatted" (Some (VInt 100))].
Proof.
  intros H. cbv zeta. unfold Api.pipeline_steps in *.
  pose proof (exec_download_ok (Api.relative_path_of file_path)) as Hd.
  specialize (fun c => Hd c w).
  await_step H content w1.
  exists content. split; [apply Hd; reflexivity|]. clear Hd.
  update_step H.
  local_step H.
  await_step H u1 w2.
  await_step H u2 w3.
  update_step H.
  local_step H.
  rewrite run_await in H; rewrite calls_await;
  rewrite updates_cons, milestones_cons; cbn [update_of milestone_of].
  match type of H with
  | context [exec ?c ?w] =>
      pose proof (exec_env c w) as Henv4;
      pose proof (exec_format_ok style
                    (Api.client_class
                       (default "huggingface" (environ (env w0) !! "DEFAULT_BACKEND")))
                    content) as Hf;
      specialize (fun o => Hf o w);
      destruct (exec c w) as [[output|?] w5] eqn:E5;
      cbn [fst snd] in H, Henv4, Hf |- *; [|discriminate H]
  end.
  destruct (Hf output eq_refl) as [Hclock5 _]. clear Hf.
  local_step H.
  update_step H.
  await_step H u3 w7.
  rewrite api_update_updates, api_update_milestones.
  assert (Ee0 : env w0 = env w) by congruence.
  assert (Ee4 : env w4 = env w) by congruence.
  assert (Ec1 : clock w1 = clock w) by congruence.
  assert (Ec3 : clock w3 = clock w) by congruence.
  assert (Ec4 : clock w4 = clock w) by congruence.
  assert (Ec7 : clock w7 = clock w5) by congruence.
  rewrite Ec7, Hclock5, Ee4, Ee0, Ec1, Ec3, Ec4.
  split; [|reflexivity].
  unfold api_update_data, real_updates.
  rewrite !or_empty_default. reflexivity.
Qed.

(** The calls of a whole task: the temporary directory, the [try] block,
    the [except] block when the former raised, and the cleanup. *)
Lemma task_calls (job_id file_path style ev : string) (options : dict) (uid : string)
    (w : World) :
  let w1 := snd (exec Mkdtemp w) in
  let steps := Api.pipeline_steps job_id file_path style in
  calls (Api.process_document_task job_id file_path style ev options uid) w
  = (Called Mkdtemp
       :: (calls steps w1
             ++ match fst (run steps w1) with
                | Ok _ => []
                | Err e => calls (Api.pipeline_failed job_id e) (snd (run steps w1))
                end)
       ++ [Called Rmtree])%list.
Proof.
  cbv zeta. unfold Api.process_document_task.
  rewrite calls_await. cbn [exec remote normal fst snd].
  rewrite calls_try_finally, calls_try_except, calls_call. reflexivity.
Qed.

Lemma failed_updates (job_id : string) (e : exn) (w : World) :
  updates (calls (Api.pipeline_failed job_id e) w)
  = [(job_id,
      mkUpdate "failed" (clock w)
        (Some (<["progress" := VInt 0]>
                 {["error" := VStr (Api.classify (str_exn e))]}))
        None None None)].
Proof.
  unfold Api.pipeline_failed.
  rewrite calls_await, updates_cons. cbn [update_of exec remote normal fst snd].
  rewrite api_update_updates. unfold api_update_data.
  rewrite or_empty_default. reflexivity.
Qed.

Lemma real_run_calls (job_id file_path style ev : string) (options : dict)
    (uid : string) (w : World) :
  steps_result job_id file_path style w = Ok tt ->
  exists content,
    bucket w !! Api.relative_path_of file_path = Some content
    /\ let backend := default "huggingface" (environ (env w) !! "DEFAULT_BACKEND") in
       let t1 := (clock w
                  + engine_time (env w) style (Api.client_class backend) content)%Q in
       let p := Api.process_document_task job_id file_path style ev options uid in
       updates (calls p w) = real_updates job_id backend (clock w) t1
       /\ milestones (calls p w)
          = [Fetch;
             Progress "processing" (Some (VInt 10));
             Progress "processing" (Some (VInt 30));
             Transform;
             Progress "processing" (Some (VInt 90));
             Store;
             Progress "formatted" (Some (VInt 100))].
Proof.
  intros H. unfold steps_result in H.
  destruct (steps_calls _ _ _ _ H) as (content & Hb & Hu & Hm).
  exists content. split; [exact Hb|]. cbv zeta in *.
  rewrite task_calls. cbv zeta. rewrite H.
  rewrite updates_cons, milestones_cons. cbn [update_of milestone_of].
  rewrite !updates_app, !milestones_app, Hu, Hm. split; reflexivity.
Qed.

(** * Properties of every call of a program *)

Section AllCmds.

Variable P : forall X, Cmd X -> Prop.

Lemma all_cmds_bind {A B} (p : Prog A) (f : A -> Prog B) :
  all_cmds P p -> (forall a, all_cmds P (f a)) -> all_cmds P (bind p f).
Proof.
  intros Hp Hf. induction p as [a|e|X c k IH]; simpl in *; auto.
  destruct Hp as [Hc Hk]. split; auto.
Qed.

Lemma all_cmds_call {X} (c : Cmd X) : P X c -> all_cmds P (call c).
Proof. intros Hc. simpl. split; [exact Hc|]. intros [x|e]; exact I. Qed.

Lemma all_cmds_try_except {A} (p : Prog A) (h : exn -> Prog A) :
  all_cmds P p -> (forall e, all_cmds P (h e)) -> all_cmds P (try_except p h).
Proof.
  intros Hp Hh. induction p as [a|e|X c k IH]; simpl in *; auto.
  destruct Hp as [Hc Hk]. split; auto.
Qed.

Lemma all_cmds_try_finally {A} (p : Prog A) (f : Prog unit) :
  all_cmds P p -> all_cmds P f -> all_cmds P (try_finally p f).
Proof.
  intros Hp Hf. induction p as [a|e|X c k IH]; cbn [try_finally].
  - apply all_cmds_bind; [exact Hf | intros; exact I].
  - apply all_cmds_bind; [exact Hf | intros; exact I].
  - destruct Hp as [Hc Hk]. split; auto.
Qed.

Lemma all_cmds_calls {A} (p : Prog A) (w : World) :
  all_cmds P p ->
  Forall (fun ev => match ev with Called c => P _ c end) (calls p w).
Proof.
  revert w. induction p as [a|e|X c k IH]; intros w Hp; simpl; [constructor..|].
  destruct Hp as [Hc Hk]. constructor; auto.
Qed.

(** The helper of api.py: its calls are clock readings, one update
    whose status, log and result location are those of
    [api_update_data], and a logged line. *)
Lemma all_cmds_api_update (job_id status : string) (progress : option Z)
    (log : option dict) (url : option string) (time : option Q) :
  P _ Now ->
  (forall level msg, P _ (Log level msg)) ->
  (forall u,
      u_status u = status ->
      u_processing_log u
      = u_processing_log (api_update_data status progress log url time 0) ->
      u_result_url u = u_result_url (api_update_data status progress log url time 0) ->
      P _ (DbUpdate u job_id)) ->
  all_cmds P (Api.update_document_status job_id status progress log url time).
Proof.
  intros Hn Hl Hu. unfold Api.update_document_status, api_update_data in *.
  destruct (is_formatted status); simpl;
    repeat match goal with
      | |- _ /\ _ => split
      | |- forall r : result _, _ => intros [?|?]; simpl
      | |- True => exact I
      | |- P _ Now => exact Hn
      | |- P _ (Log _ _) => apply Hl
      | |- P _ (DbUpdate _ _) => apply Hu; reflexivity
      end.
Qed.

(** The same for the helper of main.py. *)
Lemma all_cmds_main_update (job_id status : string) (progress : option Z)
    (log : option dict) :
  P _ Now ->
  (forall level msg, P _ (Log level msg)) ->
  (forall u,
      u_status u = status ->
      u_processing_log u
      = u_processing_log (main_update_data status progress log 0) ->
      u_result_url u = None ->
      P _ (DbUpdate u job_id)) ->
  all_cmds P (Main.update_document_status job_id status progress log).
Proof.
  intros Hn Hl Hu. unfold Main.update_document_status, main_update_data in *.
  destruct (is_formatted status); simpl;
    repeat match goal with
      | |- _ /\ _ => split
      | |- forall r : result _, _ => intros [[|? ?]|?]; simpl
      | |- forall r : result _, _ => intros [?|?]; simpl
      | |- True => exact I
      | |- P _ Now => exact Hn
      | |- P _ (Log _ _) => apply Hl
      | |- P _ (DbUpdate _ _) => apply Hu; reflexivity
      end.
Qed.

End AllCmds.

(** Break a program into its calls. *)
Ltac all_cmds_auto :=
  repeat lazymatch goal with
    | |- all_cmds _ (bind _ _) => apply all_cmds_bind; [|intros]
    | |- all_cmds _ (try_except _ _) => apply all_cmds_try_except; [|intros]
    | |- all_cmds _ (try_finally _ _) => apply all_cmds_try_finally
    | |- all_cmds _ (call _) => apply all_cmds_call
    | |- all_cmds _ (Ret _) => exact I
    | |- all_cmds _ (Raise _) => exact I
    | |- all_cmds _ (match ?x with _ => _ end) => destruct x
    end.

(** * C4: a run that fails *)

Lemma steps_never_fail_the_job (job_id file_path style : string) :
  all_cmds not_failed_update (Api.pipeline_steps job_id file_path style).
Proof.
  unfold Api.pipeline_steps.
  all_cmds_auto; try exact I;
    (apply all_cmds_api_update;
     [exact I | intros; exact I | intros u Hs _ _; simpl; rewrite Hs; discriminate]).
Qed.

Lemma no_failed_update (l : list Event) :
  Forall (fun ev => match ev with Called c => not_failed_update _ c end) l ->
  List.filter is_failed (updates l) = [].
Proof.
  induction l as [|[X c] l IH]; intros H; [reflexivity|].
  inversion H as [|? ? Hc Hl]; subst.
  rewrite updates_cons.
  destruct c; cbn [update_of]; try (apply IH; assumption).
  cbn [List.filter]. unfold is_failed at 1. cbn [snd]. simpl in Hc.
  destruct (String.eqb_spec (u_status u) "failed"); [contradiction|].
  apply IH; assumption.
Qed.

Lemma classify_malformed (msg : string) :
  Str.contains "JSON Parsing Error" msg = true
  \/ Str.contains "Unexpected end of input" msg = true ->
  Api.classify msg = "Formatting failed: AI response was malformed. Please try again.".
Proof.
  unfold Api.classify. intros [H|H]; rewrite H; [reflexivity|].
  rewrite orb_true_r. reflexivity.
Qed.

(** C4, as amended.  When a step of the [try] block of a real run raises
    [e], the run sends exactly one update that sets [status = failed]; it
    is the last update of the run, it carries the classified message of
    [e], and it replaces the log by that message and [progress = 0]: the
    progress is reset, not kept.  A message that holds "JSON Parsing Error"
    or "Unexpected end of input" is classified as the malformed-response
    message. *)
Theorem failed_run_records_one_failure
    (job_id file_path style ev : string) (options : dict) (uid : string)
    (w : World) (e : exn) :
  steps_result job_id file_path style w = Err e ->
  let p := Api.process_document_task job_id file_path style ev options uid in
  (exists t,
      List.filter is_failed (updates (calls p w)) = [failure_update job_id e t]
      /\ last (updates (calls p w)) = Some (failure_update job_id e t)
      /\ status_progress (failure_update job_id e t) = ("failed", Some (VInt 0)))
  /\ (Str.contains "JSON Parsing Error" (str_exn e) = true
      \/ Str.contains "Unexpected end of input" (str_exn e) = true ->
      Api.classify (str_exn e)
      = "Formatting failed: AI response was malformed. Please try again.").
Proof.
  intros H p. split; [|apply classify_malformed].
  unfold steps_result in H. subst p.
  exists (clock (snd (run (Api.pipeline_steps job_id file_path style)
                        (snd (exec Mkdtemp w))))).
  rewrite task_calls. cbv zeta. rewrite H.
  rewrite updates_cons. cbn [update_of].
  rewrite !updates_app, failed_updates.
  cbn [updates omap update_of]. rewrite app_nil_r.
  fold (failure_update job_id e
          (clock (snd (run (Api.pipeline_steps job_id file_path style)
                         (snd (exec Mkdtemp w)))))).
  split; [|split].
  - rewrite List.filter_app, no_failed_update.
    + reflexivity.
    + apply all_cmds_calls, steps_never_fail_the_job.
  - apply last_snoc.
  - unfold status_progress, failure_update. cbn [snd u_status u_processing_log log_entry].
    rewrite lookup_insert_eq. reflexivity.
Qed.

(** C4, the claim as stated fails.  "job-1" is at progress 30 when the
    formatter raises a JSON parsing error; once the run has recorded the
    failure the row shows progress 0, with the malformed-response
    message. *)
Lemma failed_run_resets_progress :
  progress_shown
    <$> row_after (Api.pipeline_steps "job-1" sample_path "apa")
          (snd (exec Mkdtemp malformed_world)) "job-1"
  = Some (VInt 30)
  /\ progress_shown
       <$> row_after (Api.process_document_task "job-1" sample_path "apa" "us" ∅ "alice")
             malformed_world "job-1"
     = Some (VInt 0)
  /\ error_shown
       <$> row_after (Api.process_document_task "job-1" sample_path "apa" "us" ∅ "alice")
             malformed_world "job-1"
     = Some (VStr "Formatting failed: AI response was malformed. Please try again.")
  /\ status
       <$> row_after (Api.process_document_task "job-1" sample_path "apa" "us" ∅ "alice")
             malformed_world "job-1"
     = Some "failed".
Proof. repeat split; vm_compute; reflexivity. Qed.

Lemma failed_run_witness :
  steps_result "job-1" sample_path "apa" malformed_world
  = Err (Exception "JSON Parsing Error: Unexpected token at line 1")
  /\ let p := Api.process_document_task "job-1" sample_path "apa" "us" ∅ "alice" in
     let e := Exception "JSON Parsing Error: Unexpected token at line 1" in
     (exists t,
         List.filter is_failed (updates (calls p malformed_world))
         = [failure_update "job-1" e t]
         /\ last (updates (calls p malformed_world)) = Some (failure_update "job-1" e t)
         /\ status_progress (failure_update "job-1" e t) = ("failed", Some (VInt 0)))
     /\ (Str.contains "JSON Parsing Error" (str_exn e) = true
         \/ Str.contains "Unexpected end of input" (str_exn e) = true ->
         Api.classify (str_exn e)
         = "Formatting failed: AI response was malformed. Please try again.").
Proof.
  split; [vm_compute; reflexivity|].
  apply (failed_run_records_one_failure "job-1" sample_path "apa" "us" ∅ "alice"
           malformed_world (Exception "JSON Parsing Error: Unexpected token at line 1")).
  vm_compute; reflexivity.
Defined.

(** * The completion webhook *)

Lemma api_webhook_found (wd : WebhookUploadComplete) (user : User) (w : World)
    (doc : Document) (rest : list Document) :
  wh_success wd = true ->
  fst (exec (DbSelect (wh_job_id wd) (u_user_id user)) w) = Ok (doc :: rest) ->
  let p := Api.upload_complete_webhook wd user in
  fst (run p w)
  = Ok {| wr_success := true;
          wr_message := "Processing started";
          wr_job_id := Some (wh_job_id wd) |}
  /\ tasks_created (calls p w) = [api_task wd user doc]
  /\ updates (calls p w)
     = [(wh_job_id wd, api_update_data "processing" (Some 0) None None None (clock w))]
  /\ milestones (calls p w) = [Progress "processing" (Some (VInt 0))].
Proof.
  intros Hs Hsel p. subst p. unfold Api.upload_complete_webhook.
  pose proof (exec_clock (DbSelect (wh_job_id wd) (u_user_id user)) w eq_refl) as Hc.
  rewrite run_try_except, calls_try_except, run_await, calls_await.
  destruct (exec (DbSelect (wh_job_id wd) (u_user_id user)) w) as [r w1].
  cbn [fst snd] in *. subst r. rewrite Hs.
  rewrite run_bind, calls_bind, api_update_run. cbn [fst snd].
  rewrite run_await, calls_await. cbn [exec remote normal fst snd run calls].
  rewrite app_nil_r, tasks_created_cons, updates_cons, milestones_cons.
  cbn [task_of update_of milestone_of].
  rewrite tasks_created_app, updates_app, milestones_app.
  rewrite api_update_tasks, api_update_updates, api_update_milestones, Hc.
  repeat split; reflexivity.
Qed.

Lemma main_update_updates (job_id status : string) (progress : option Z)
    (log : option dict) (w : World) :
  updates (calls (Main.update_document_status job_id status progress log) w)
  = [(job_id, main_update_data status progress log (clock w))].
Proof.
  rewrite main_update_calls.
  destruct (is_formatted status); simpl;
    destruct (oracle w) as [|[e|] rest]; simpl; try reflexivity;
    match goal with
    | |- context [List.filter ?f ?l] => destruct (List.filter f l); reflexivity
    end.
Qed.

Lemma main_update_milestones (job_id status : string) (progress : option Z)
    (log : option dict) (w : World) :
  milestones (calls (Main.update_document_status job_id status progress log) w)
  = [Progress status (VInt <$> progress)].
Proof.
  rewrite main_update_calls.
  destruct progress as [p|];
    destruct (is_formatted status); simpl;
    destruct (oracle w) as [|[e|] rest]; simpl;
    rewrite ?lookup_insert_eq; try reflexivity;
    match goal with
    | |- context [List.filter ?f ?l] => destruct (List.filter f l); reflexivity
    end.
Qed.

Lemma main_update_tasks (job_id status : string) (progress : option Z)
    (log : option dict) (w : World) :
  tasks_created (calls (Main.update_document_status job_id status progress log) w) = [].
Proof.
  rewrite main_update_calls.
  destruct (is_formatted status); simpl;
    destruct (oracle w) as [|[e|] rest]; simpl; try reflexivity;
    match goal with
    | |- context [List.filter ?f ?l] => destruct (List.filter f l); reflexivity
    end.
Qed.

Lemma main_webhook_found (wd : WebhookUploadComplete) (user : User) (w : World)
    (doc : Document) (rest : list Document) :
  wh_success wd = true ->
  fst (exec (DbSelect (wh_job_id wd) (u_user_id user)) w) = Ok (doc :: rest) ->
  let p := Main.upload_complete_webhook wd user in
  fst (run p w)
  = Ok {| wr_success := true;
          wr_message := "Upload confirmed. Document processing started. Status: PROCESSING";
          wr_job_id := Some (wh_job_id wd) |}
  /\ tasks_created (calls p w) = [SimulateProcessing (wh_job_id wd)]
  /\ updates (calls p w)
     = [(wh_job_id wd, main_update_data "processing" (Some 0) None (clock w))]
  /\ milestones (calls p w) = [Progress "processing" (Some (VInt 0))].
Proof.
  intros Hs Hsel p. subst p. unfold Main.upload_complete_webhook.
  pose proof (exec_clock (DbSelect (wh_job_id wd) (u_user_id user)) w eq_refl) as Hc.
  rewrite run_try_except, calls_try_except, run_await, calls_await.
  destruct (exec (DbSelect (wh_job_id wd) (u_user_id user)) w) as [r w1].
  cbn [fst snd] in *. subst r. rewrite Hs.
  rewrite run_bind, calls_bind, main_update_run. cbn [fst snd].
  rewrite run_await, calls_await. cbn [exec remote normal fst snd run calls].
  rewrite app_nil_r, tasks_created_cons, updates_cons, milestones_cons.
  cbn [task_of update_of milestone_of].
  rewrite tasks_created_app, updates_app, milestones_app.
  rewrite main_update_tasks, main_update_updates, main_update_milestones, Hc.
  repeat split; reflexivity.
Qed.

Lemma standalone_webhook_found (wd : WebhookUploadComplete) (user : User) (w : World)
    (doc : Document) (rest : list Document) :
  wh_success wd = true ->
  fst (exec (DbSelect (wh_job_id wd) (u_user_id user)) w) = Ok (doc :: rest) ->
  let p := UploadComplete.upload_complete_webhook wd user in
  fst (run p w)
  = Ok {| wr_success := true;
          wr_message := "Upload confirmed. Document processing started. Status: PROCESSING";
          wr_job_id := Some (wh_job_id wd) |}
  /\ tasks_created (calls p w) = [SimulateProcessing (wh_job_id wd)]
  /\ updates (calls p w)
     = [(wh_job_id wd, main_update_data "processing" (Some 0) None (clock w))]
  /\ milestones (calls p w) = [Progress "processing" (Some (VInt 0))].
Proof.
  intros Hs Hsel p. subst p. unfold UploadComplete.upload_complete_webhook.
  pose proof (exec_clock (DbSelect (wh_job_id wd) (u_user_id user)) w eq_refl) as Hc.
  rewrite run_try_except, calls_try_except, run_bind, calls_bind.
  rewrite run_try_except, calls_try_except, run_call, calls_call.
  destruct (exec (DbSelect (wh_job_id wd) (u_user_id user)) w) as [r w1].
  cbn [fst snd] in *. subst r. cbn [fst snd]. rewrite Hs.
  rewrite run_bind, calls_bind, run_try_except, calls_try_except, main_update_run.
  cbn [fst snd].
  rewrite run_await, calls_await. cbn [exec remote normal fst snd run calls].
  rewrite !app_nil_r.
  rewrite !tasks_created_app, !updates_app, !milestones_app.
  rewrite tasks_created_cons, updates_cons, milestones_cons.
  cbn [task_of update_of milestone_of].
  rewrite main_update_tasks, main_update_updates, main_update_milestones, Hc.
  repeat split; reflexivity.
Qed.

Lemma select_found (job_id uid : string) (w : World) :
  pending_fault w = None ->
  fst (exec (DbSelect job_id uid) w) = Ok (select_rows job_id uid (documents w)).
Proof.
  unfold pending_fault. simpl.
  destruct (oracle w) as [|[e|] rest]; intros H; try discriminate; reflexivity.
Qed.

(** ** C1 *)

(** C1, as amended.  Whenever the lookup finds a row of the caller for the
    job, whatever the status of that row (draft, processing, formatted or
    failed), a completion call with [success = true] answers
    [success = true], sends the update to [processing] with progress 0 and
    creates one pipeline task: the real one in api.py, the simulated one
    in main.py and in upload-complete.py.  No call is a no-op, so two
    calls start two runs. *)
Theorem completion_always_starts_a_run
    (wd : WebhookUploadComplete) (user : User) (w : World)
    (doc : Document) (rest : list Document) :
  wh_success wd = true ->
  pending_fault w = None ->
  select_rows (wh_job_id wd) (u_user_id user) (documents w) = doc :: rest ->
  (wr_success <$> from_ok (fst (run (Api.upload_complete_webhook wd user) w)) = Some true
   /\ tasks_created (calls (Api.upload_complete_webhook wd user) w)
      = [api_task wd user doc]
   /\ status_progress <$> updates (calls (Api.upload_complete_webhook wd user) w)
      = [("processing", Some (VInt 0))])
  /\ (wr_success <$> from_ok (fst (run (Main.upload_complete_webhook wd user) w))
      = Some true
      /\ tasks_created (calls (Main.upload_complete_webhook wd user) w)
         = [SimulateProcessing (wh_job_id wd)]
      /\ status_progress <$> updates (calls (Main.upload_complete_webhook wd user) w)
         = [("processing", Some (VInt 0))])
  /\ (wr_success
        <$> from_ok (fst (run (UploadComplete.upload_complete_webhook wd user) w))
      = Some true
      /\ tasks_created (calls (UploadComplete.upload_complete_webhook wd user) w)
         = [SimulateProcessing (wh_job_id wd)]
      /\ status_progress
           <$> updates (calls (UploadComplete.upload_complete_webhook wd user) w)
         = [("processing", Some (VInt 0))]).
Proof.
  intros Hs Hf Hsel.
  pose proof (select_found (wh_job_id wd) (u_user_id user) w Hf) as Hx.
  rewrite Hsel in Hx.
  destruct (api_webhook_found wd user w doc rest Hs Hx) as (A1 & A2 & A3 & _).
  destruct (main_webhook_found wd user w doc rest Hs Hx) as (M1 & M2 & M3 & _).
  destruct (standalone_webhook_found wd user w doc rest Hs Hx) as (S1 & S2 & S3 & _).
  rewrite A1, A2, A3, M1, M2, M3, S1, S2, S3.
  unfold status_progress, api_update_data, main_update_data.
  cbn [fmap list_fmap option_fmap option_map from_ok wr_success snd u_status
         u_processing_log log_entry].
  rewrite !lookup_insert_eq. repeat split; reflexivity.
Qed.

(** C1, the claim as stated fails.  "job-1" is already in [processing]:
    the completion call of api.py and that of upload-complete.py are
    accepted and create a task again; and two calls in a row on the draft
    create two tasks. *)
Lemma repeated_completion_starts_a_second_run :
  fst (run (Api.upload_complete_webhook sample_notice alice) processing_world)
  = Ok (mkWebhookResponse true "Processing started" (Some "job-1"))
  /\ length (tasks_created
               (calls (Api.upload_complete_webhook sample_notice alice)
                  processing_world)) = 1%nat
  /\ wr_success
       <$> from_ok (fst (run (UploadComplete.upload_complete_webhook sample_notice alice)
                           processing_world))
     = Some true
  /\ tasks_created
       (calls (UploadComplete.upload_complete_webhook sample_notice alice)
          processing_world)
     = [SimulateProcessing "job-1"]
  /\ length (tasks_created
               (calls (bind (Api.upload_complete_webhook sample_notice alice)
                         (fun _ => Api.upload_complete_webhook sample_notice alice))
                  draft_world)) = 2%nat.
Proof. repeat split; vm_compute; reflexivity. Qed.

Lemma completion_witness :
  (wr_success
     <$> from_ok (fst (run (Api.upload_complete_webhook sample_notice alice)
                         processing_world))
   = Some true
   /\ tasks_created (calls (Api.upload_complete_webhook sample_notice alice)
                       processing_world)
      = [api_task sample_notice alice
           (sample_row "processing" (Some {["progress" := VInt 30]}) None)]
   /\ status_progress
        <$> updates (calls (Api.upload_complete_webhook sample_notice alice)
                       processing_world)
      = [("processing", Some (VInt 0))])
  /\ (wr_success
        <$> from_ok (fst (run (Main.upload_complete_webhook sample_notice alice)
                            processing_world))
      = Some true
      /\ tasks_created (calls (Main.upload_complete_webhook sample_notice alice)
                          processing_world)
         = [SimulateProcessing "job-1"]
      /\ status_progress
           <$> updates (calls (Main.upload_complete_webhook sample_notice alice)
                          processing_world)
         = [("processing", Some (VInt 0))])
  /\ (wr_success
        <$> from_ok (fst (run (UploadComplete.upload_complete_webhook sample_notice alice)
                            processing_world))
      = Some true
      /\ tasks_created (calls (UploadComplete.upload_complete_webhook sample_notice alice)
                          processing_world)
         = [SimulateProcessing "job-1"]
      /\ status_progress
           <$> updates (calls (UploadComplete.upload_complete_webhook sample_notice
                                 alice) processing_world)
         = [("processing", Some (VInt 0))]).
Proof.
  apply (completion_always_starts_a_run sample_notice alice processing_world
           (sample_row "processing" (Some {["progress" := VInt 30]}) None) []);
    reflexivity.
Defined.

(** * C6: the milestones of a successful real run *)













(** The run of the witness, on the row: formatted, progress 100, the
    result stored under "formatted/job-1.docx". *)
Example real_run_outcome :
  let task := Api.process_document_task "job-1" sample_path "apa" "us" ∅ "alice" in
  status <$> row_after task accepted_world "job-1" = Some "formatted"
  /\ progress_shown <$> row_after task accepted_world "job-1" = Some (VInt 100)
  /\ result_url <$> row_after task accepted_world "job-1"
     = Some (Some "formatted/job-1.docx")
  /\ bucket (snd (run task accepted_world)) !! "formatted/job-1.docx"
     = Some "formatted:raw".
Proof. repeat split; vm_compute; reflexivity. Qed.

(** * The simulated pipeline *)

Lemma no_milestone_calls (l : list Event) :
  Forall (fun ev => match ev with Called c => no_milestone _ c end) l ->
  milestones l = [] /\ updates l = [].
Proof.
  induction l as [|[X c] l IH]; intros H; [split; reflexivity|].
  inversion H as [|? ? Hc Hl]; subst. destruct (IH Hl) as [IHm IHu].
  rewrite milestones_cons, updates_cons. unfold no_milestone in Hc. rewrite Hc.
  split; [exact IHm|].
  destruct c; cbn [update_of]; try exact IHu. discriminate Hc.
Qed.

Lemma track_usage_silent (job_id : string) (log : dict) :
  all_cmds no_milestone (Main.track_usage job_id log).
Proof.
  unfold Main.track_usage, Main.track_document_usage, Main.track_storage_usage.
  all_cmds_auto; reflexivity.
Qed.

Lemma track_usage_returns (job_id : string) (log : dict) (w : World) :
  fst (run (Main.track_usage job_id log) w) = Ok tt.
Proof.
  unfold Main.track_usage. rewrite run_try_except.
  destruct (fst (run _ w)) as [[]|e]; [reflexivity|].
  rewrite run_call. reflexivity.
Qed.

(** The simulated steps never raise. *)
Lemma simulate_steps_return (job_id : string) (w : World) :
  fst (run (Main.simulate_steps job_id) w) = Ok tt.
Proof.
  unfold Main.simulate_steps.
  rewrite run_await. cbn [exec remote normal fst snd].
  rewrite run_bind, main_update_run. cbn [fst snd].
  rewrite run_await. cbn [exec remote normal fst snd].
  rewrite run_bind, main_update_run. cbn [fst snd].
  rewrite run_await. cbn [exec remote normal fst snd].
  rewrite run_bind, main_update_run. cbn [fst snd].
  apply track_usage_returns.
Qed.

(** The updates of a simulated run: 25, 75 and the final one, none with
    a result location. *)
Lemma simulated_run_calls (job_id : string) (w : World) :
  let p := Main.simulate_processing job_id in
  (exists t1 t2 t3,
      updates (calls p w)
      = [(job_id, main_update_data "processing" (Some 25) None t1);
         (job_id, main_update_data "processing" (Some 75) None t2);
         (job_id, main_update_data "formatted" (Some 100) (Some Main.simulated_log) t3)])
  /\ milestones (calls p w)
     = [Progress "processing" (Some (VInt 25));
        Progress "processing" (Some (VInt 75));
        Progress "formatted" (Some (VInt 100))].
Proof.
  cbv zeta. unfold Main.simulate_processing.
  rewrite calls_try_except, simulate_steps_return, app_nil_r.
  unfold Main.simulate_steps.
  rewrite calls_await, updates_cons, milestones_cons.
  cbn [update_of milestone_of exec remote normal fst snd].
  rewrite calls_bind, main_update_run, updates_app, milestones_app,
    main_update_updates, main_update_milestones. cbn [fst snd].
  rewrite calls_await, updates_cons, milestones_cons.
  cbn [update_of milestone_of exec remote normal fst snd].
  rewrite calls_bind, main_update_run, updates_app, milestones_app,
    main_update_updates, main_update_milestones. cbn [fst snd].
  rewrite calls_await, updates_cons, milestones_cons.
  cbn [update_of milestone_of exec remote normal fst snd].
  rewrite calls_bind, main_update_run, updates_app, milestones_app,
    main_update_updates, main_update_milestones. cbn [fst snd].
  match goal with
  | |- context [calls (Main.track_usage ?j ?l) ?v] =>
      destruct (no_milestone_calls (calls (Main.track_usage j l) v)) as [Hm Hu];
      [apply all_cmds_calls, track_usage_silent|]; rewrite Hm, Hu
  end.
  split; [|reflexivity].
  eexists _, _, _. reflexivity.
Qed.

(** ** C7 *)

(** C7, as amended.  A real run whose steps all succeed and a simulated
    run set the same statuses, [processing] then [formatted], and both end
    at progress 100; but the progress milestones between differ (10, 30,
    90 for the real run; 25, 75 for the simulated one), and only the real
    run writes a result location. *)
Theorem strategies_share_statuses_not_milestones
    (job_id file_path style ev : string) (options : dict) (uid : string)
    (w w' : World) :
  steps_result job_id file_path style w = Ok tt ->
  let real := updates (calls (Api.process_document_task job_id file_path style ev
                                options uid) w) in
  let simulated := updates (calls (Main.simulate_processing job_id) w') in
  transitions (statuses real) = ["processing"; "formatted"]
  /\ transitions (statuses simulated) = ["processing"; "formatted"]
  /\ status_progress <$> real
     = [("processing", Some (VInt 10)); ("processing", Some (VInt 30));
        ("processing", Some (VInt 90)); ("formatted", Some (VInt 100))]
  /\ status_progress <$> simulated
     = [("processing", Some (VInt 25)); ("processing", Some (VInt 75));
        ("formatted", Some (VInt 100))]
  /\ (fun ju => u_result_url (snd ju)) <$> real
     = [None; None; None; Some (Api.result_filename_of job_id)]
  /\ (fun ju => u_result_url (snd ju)) <$> simulated = [None; None; None].
Proof.
  intros H real simulated.
  destruct (real_run_calls job_id file_path style ev options uid w H)
    as (content & _ & Hu & _).
  destruct (simulated_run_calls job_id w') as [(t1 & t2 & t3 & Hs) _].
  cbv zeta in Hu, Hs. subst real simulated. rewrite Hu, Hs.
  unfold real_updates, main_update_data, status_progress, statuses.
  cbn [fmap list_fmap List.map snd u_status u_processing_log u_result_url log_entry
         transitions String.eqb Ascii.eqb Bool.eqb].
  rewrite !lookup_insert_eq. repeat split; reflexivity.
Qed.

(** C7, the claim as stated fails.  From the same world, "job-1" just
    accepted, the real and the simulated run report different progress
    sequences. *)
Lemma strategies_differ_in_milestones :
  status_progress
    <$> updates (calls (Api.process_document_task "job-1" sample_path "apa" "us" ∅ "alice")
                   accepted_world)
  = [("processing", Some (VInt 10)); ("processing", Some (VInt 30));
     ("processing", Some (VInt 90)); ("formatted", Some (VInt 100))]
  /\ status_progress
       <$> updates (calls (Main.simulate_processing "job-1") accepted_world)
     = [("processing", Some (VInt 25)); ("processing", Some (VInt 75));
        ("formatted", Some (VInt 100))]
  /\ result_url
       <$> row_after (Api.process_document_task "job-1" sample_path "apa" "us" ∅ "alice")
             accepted_world "job-1"
     = Some (Some "formatted/job-1.docx")
  /\ result_url <$> row_after (Main.simulate_processing "job-1") accepted_world "job-1"
     = Some None.
Proof. repeat split; vm_compute; reflexivity. Qed.

Lemma strategies_witness :
  steps_result "job-1" sample_path "apa" accepted_world = Ok tt
  /\ let real :=
       updates (calls (Api.process_document_task "job-1" sample_path "apa" "us" ∅ "alice")
                  accepted_world) in
     let simulated := updates (calls (Main.simulate_processing "job-1") accepted_world) in
     transitions (statuses real) = ["processing"; "formatted"]
     /\ transitions (statuses simulated) = ["processing"; "formatted"]
     /\ status_progress <$> real
        = [("processing", Some (VInt 10)); ("processing", Some (VInt 30));
           ("processing", Some (VInt 90)); ("formatted", Some (VInt 100))]
     /\ status_progress <$> simulated
        = [("processing", Some (VInt 25)); ("processing", Some (VInt 75));
           ("formatted", Some (VInt 100))]
     /\ (fun ju => u_result_url (snd ju)) <$> real
        = [None; None; None; Some (Api.result_filename_of "job-1")]
     /\ (fun ju => u_result_url (snd ju)) <$> simulated = [None; None; None].
Proof.
  split; [vm_compute; reflexivity|].
  apply (strategies_share_statuses_not_milestones "job-1" sample_path "apa" "us" ∅
           "alice" accepted_world accepted_world).
  vm_compute; reflexivity.
Defined.

(** * C2: deleting a job *)

Lemma delete_rows_gone (job_id : string) (t : list Document) :
  List.filter (has_id job_id) (delete_rows job_id t) = [].
Proof.
  unfold delete_rows. induction t as [|d t IH]; [reflexivity|].
  simpl. destruct (has_id job_id d) eqn:E; simpl; [exact IH|].
  rewrite E. exact IH.
Qed.

(** What a run leaves in the table and in the bucket does not depend on
    the faultless oracle it started with. *)
Lemma run_quiet_state {A} (p : Prog A) (w : World) :
  quiet w ->
  documents (snd (run p w)) = documents (snd (run p (calm w)))
  /\ bucket (snd (run p w)) = bucket (snd (run p (calm w))).
Proof.
  intros Hq. destruct (run_quiet p w Hq) as (_ & R & _).
  rewrite <- R. split; reflexivity.
Qed.

(** C2, as amended.  Deleting a job the lookup finds for the caller is
    never rejected or deferred on account of its status: for any status,
    [processing] included, and when no collaborator call fails, the
    operation removes the input object and, when the row has a result
    location, the output object, deletes the row and answers success. *)
Theorem delete_ignores_status
    (job_id : string) (user : User) (w : World) (doc : Document)
    (rest : list Document) (loc : string) :
  quiet w ->
  select_rows job_id (u_user_id user) (documents w) = doc :: rest ->
  storage_location doc = Some loc ->
  Str.truthy loc = true ->
  let p := Api.delete_job job_id user in
  fst (run p w) = Ok {| dl_success := true; dl_message := "Job deleted" |}
  /\ removed (calls p w)
     = loc :: (if opt_str_truthy (result_url doc)
               then [default "" (result_url doc)] else [])
  /\ bucket (snd (run p w)) !! loc = None
  /\ List.filter (has_id job_id) (documents (snd (run p w))) = [].
Proof.
  intros Hq Hsel Hloc Ht p.
  destruct (run_quiet p w Hq) as (R1 & _ & R3).
  destruct (run_quiet_state p w Hq) as (Rd & Rb).
  rewrite R1, R3, Rd, Rb. subst p. clear R1 R3 Rd Rb Hq.
  unfold Api.delete_job. simpl. rewrite Hsel. simpl.
  rewrite Hloc. simpl. rewrite Ht. simpl.
  destruct (opt_str_truthy (result_url doc)); simpl.
  - repeat split; try reflexivity.
    + rewrite lookup_delete_None. right. apply lookup_delete_eq.
    + apply delete_rows_gone.
  - repeat split; try reflexivity.
    + apply lookup_delete_eq.
    + apply delete_rows_gone.
Qed.

(** C2, the claim as stated fails.  "job-1" is in [processing] and its
    source object is in the bucket; the owner's delete answers success,
    and the object and the row are gone. *)
Lemma delete_during_processing_removes_objects :
  status <$> head (documents processing_world) = Some "processing"
  /\ bucket processing_world !! sample_path = Some "raw"
  /\ fst (run (Api.delete_job "job-1" alice) processing_world)
     = Ok {| dl_success := true; dl_message := "Job deleted" |}
  /\ removed (calls (Api.delete_job "job-1" alice) processing_world) = [sample_path]
  /\ bucket (snd (run (Api.delete_job "job-1" alice) processing_world)) !! sample_path
     = None
  /\ documents (snd (run (Api.delete_job "job-1" alice) processing_world)) = [].
Proof. repeat split; vm_compute; reflexivity. Qed.

Lemma delete_witness :
  let p := Api.delete_job "job-1" alice in
  fst (run p processing_world) = Ok {| dl_success := true; dl_message := "Job deleted" |}
  /\ removed (calls p processing_world)
     = sample_path
       :: (if opt_str_truthy
                (result_url (sample_row "processing" (Some {["progress" := VInt 30]}) None))
           then [default ""
                   (result_url
                      (sample_row "processing" (Some {["progress" := VInt 30]}) None))]
           else [])
  /\ bucket (snd (run p processing_world)) !! sample_path = None
  /\ List.filter (has_id "job-1") (documents (snd (run p processing_world))) = [].
Proof.
  apply (delete_ignores_status "job-1" alice processing_world
           (sample_row "processing" (Some {["progress" := VInt 30]}) None) []
           sample_path);
    solve [constructor | reflexivity].
Defined.

(** * C3: jobs of other users, and jobs that do not exist *)

(** In main.py the three operations answer 404 for a job the lookup does
    not find for the caller ([delete_job] looks in [jobs_storage]). *)
Lemma main_not_found_is_404 (job_id : string) (user : User) (w : World) :
  pending_fault w = None ->
  select_rows job_id (u_user_id user) (documents w) = [] ->
  fst (run (Main.get_document_status job_id user) w)
  = Err (HTTPException 404 "Job not found")
  /\ fst (run (Main.download_document job_id user) w)
     = Err (HTTPException 404 "Job not found")
  /\ (jobs_storage w !! job_id = None ->
      fst (run (Main.delete_job job_id) w) = Err (HTTPException 404 "Job not found")).
Proof.
  intros Hf Hsel.
  pose proof (select_found job_id (u_user_id user) w Hf) as Hx. rewrite Hsel in Hx.
  unfold Main.get_document_status, Main.download_document, Main.delete_job.
  rewrite !run_try_except, !run_await, Hx.
  cbn [run fst snd exec remote normal].
  repeat split. intros Hj. rewrite Hj. reflexivity.
Qed.

(** C3, on api.py.  For a job the lookup does not find for the caller
    (it belongs to another user, or it does not exist), [get_document_status],
    [download_document] and [delete_job] of api.py raise the 404 inside
    their own [try] and catch it again as a plain exception: the caller
    gets status code 500 with detail "404: Job not found". *)
Theorem api_not_found_becomes_500 (job_id : string) (user : User) (w : World) :
  pending_fault w = None ->
  select_rows job_id (u_user_id user) (documents w) = [] ->
  fst (run (Api.get_document_status job_id user) w)
  = Err (HTTPException 500 "404: Job not found")
  /\ fst (run (Api.download_document job_id user) w)
     = Err (HTTPException 500 "404: Job not found")
  /\ fst (run (Api.delete_job job_id user) w)
     = Err (HTTPException 500 "404: Job not found").
Proof.
  intros Hf Hsel.
  pose proof (select_found job_id (u_user_id user) w Hf) as Hx. rewrite Hsel in Hx.
  unfold Api.get_document_status, Api.download_document, Api.delete_job.
  rewrite !run_try_except, !run_await, Hx.
  cbn [run fst snd]. rewrite !run_await.
  cbn [run fst snd exec remote normal].
  repeat split; vm_compute; reflexivity.
Qed.

Lemma api_not_found_witness :
  select_rows "job-1" "bob" (documents processing_world) = []
  /\ fst (run (Api.get_document_status "job-1" bob) processing_world)
     = Err (HTTPException 500 "404: Job not found")
  /\ fst (run (Api.download_document "job-1" bob) processing_world)
     = Err (HTTPException 500 "404: Job not found")
  /\ fst (run (Api.delete_job "job-1" bob) processing_world)
     = Err (HTTPException 500 "404: Job not found").
Proof.
  split; [reflexivity|].
  apply (api_not_found_becomes_500 "job-1" bob processing_world); reflexivity.
Defined.

(** Whatever goes wrong in them, the three operations of api.py raise
    nothing but status code 500. *)
Lemma api_raises_only_500 (job_id : string) (user : User) (w : World) (e : exn) :
  fst (run (Api.get_document_status job_id user) w) = Err e
  \/ fst (run (Api.download_document job_id user) w) = Err e
  \/ fst (run (Api.delete_job job_id user) w) = Err e ->
  exists detail, e = HTTPException 500 detail.
Proof.
  unfold Api.get_document_status, Api.download_document, Api.delete_job.
  rewrite !run_try_except.
  intros [H|[H|H]];
    match type of H with
    | context [fst (run ?p w)] => destruct (fst (run p w)) as [a|e0]
    end; cbn [fst] in H; try discriminate H;
    rewrite run_await in H; cbn [run fst snd exec remote normal] in H;
    injection H as <-; eexists; reflexivity.
Qed.

(** * C8: the declared size *)

(** In main.py a declared size above 100 MB, or below zero, is rejected
    with status code 400 before anything is signed or inserted. *)
Lemma main_rejects_bad_sizes (filename style variant : string) (tracked : bool)
    (n : Z) (user : User) (w : World) :
  let p := Main.create_upload_url filename style variant tracked (Some n) user in
  (Main.max_file_size < n ->
   fst (run p w) = Err (HTTPException 400 "File size exceeds maximum limit of 100MB")
   /\ inserted (calls p w) = []
   /\ documents (snd (run p w)) = documents w)
  /\ (n < 0 ->
      fst (run p w) = Err (HTTPException 400 "File size must be non-negative")
      /\ inserted (calls p w) = []
      /\ documents (snd (run p w)) = documents w).
Proof.
  cbv zeta. unfold Main.create_upload_url, Main.check_file_size.
  rewrite run_try_except, calls_try_except, run_await, calls_await.
  cbn [exec remote normal fst snd].
  split; intros Hn.
  - assert (E1 : (n <? 0) = false) by (unfold Main.max_file_size in Hn; lia).
    assert (E2 : (Main.max_file_size <? n) = true) by lia.
    rewrite E1, E2. cbn [bind run calls fst snd app]. auto.
  - assert (E1 : (n <? 0) = true) by lia.
    rewrite E1. cbn [bind run calls fst snd app]. auto.
Qed.

(** C8, on api.py.  [create_upload_url] of api.py checks no size: for
    every declared size [n], above 100 MB and below zero included, the
    request started in the empty sample world gets an upload URL and a
    Job Record is created in [draft] with that size.  main.py, at 200 MB
    and at -5, rejects with status code 400. *)
Theorem api_accepts_any_size (n : Z) :
  let p := Api.create_upload_url "thesis.docx" "apa" "us" false (Some n) alice in
  cu_success <$> from_ok (fst (run p empty_world)) = Some true
  /\ (fun d => (status d, file_size d)) <$> documents (snd (run p empty_world))
     = [("draft", Some n)]
  /\ (fun d => (status d, file_size d)) <$> inserted (calls p empty_world)
     = [("draft", Some n)]
  /\ fst (run (Main.create_upload_url "thesis.docx" "apa" "us" false
                 (Some (200 * 1024 * 1024)) alice) empty_world)
     = Err (HTTPException 400 "File size exceeds maximum limit of 100MB")
  /\ fst (run (Main.create_upload_url "thesis.docx" "apa" "us" false (Some (-5)) alice)
            empty_world)
     = Err (HTTPException 400 "File size must be non-negative").
Proof. cbv zeta. repeat split; vm_compute; reflexivity. Qed.

(** * C9: the artifact *)

Lemma not_formatted (s : string) : s <> "formatted" -> is_formatted s = false.
Proof. intros H. unfold is_formatted. by apply String.eqb_neq. Qed.

(** In main.py a formatted job whose tracked-changes flag is set gets the
    secondary payload beside the primary one, and a job in any other
    status is answered 400 "Document not ready for download". *)
Lemma main_download_contract (job_id : string) (user : User) (w : World)
    (doc : Document) (rest : list Document) :
  pending_fault w = None ->
  select_rows job_id (u_user_id user) (documents w) = doc :: rest ->
  let p := Main.download_document job_id user in
  (status doc = "formatted" ->
   truthy (Main.tracked_changes_enabled doc) = true ->
   fd_content <$> from_ok (fst (run p w))
   = Some (Base64.b64encode (Main.mock_content doc))
   /\ fd_tracked_changes_content <$> from_ok (fst (run p w))
      = Some (Some (Base64.b64encode (Main.tracked_content doc))))
  /\ (status doc <> "formatted" ->
      fst (run p w) = Err (HTTPException 400 "Document not ready for download")).
Proof.
  intros Hf Hsel p. subst p.
  pose proof (select_found job_id (u_user_id user) w Hf) as Hx. rewrite Hsel in Hx.
  unfold Main.download_document.
  rewrite run_try_except, run_await, Hx. cbn [fst snd].
  split.
  - intros Hs Ht. rewrite Hs, Ht. cbn [is_formatted String.eqb Ascii.eqb Bool.eqb negb].
    cbn [run fst snd from_ok fmap option_fmap option_map fd_content
           fd_tracked_changes_content]. split; reflexivity.
  - intros Hs. rewrite (not_formatted _ Hs). reflexivity.
Qed.

(** C9, on api.py.  [download_document] of api.py never returns a
    tracked-changes payload, and what it raises for a job that is not
    formatted reaches the caller as status code 500. *)
Theorem api_download_misses_the_contract
    (job_id : string) (user : User) (w : World) :
  (forall r,
      fst (run (Api.download_document job_id user) w) = Ok r ->
      fd_tracked_changes_content r = None)
  /\ (forall doc rest,
         pending_fault w = None ->
         select_rows job_id (u_user_id user) (documents w) = doc :: rest ->
         status doc <> "formatted" ->
         fst (run (Api.download_document job_id user) w)
         = Err (HTTPException 500 "400: Document not ready")).
Proof.
  unfold Api.download_document. rewrite run_try_except. split.
  - intros r H.
    match type of H with
    | context [fst (run ?p w)] =>
        assert (G : forall a, fst (run p w) = Ok a -> fd_tracked_changes_content a = None);
        [|destruct (fst (run p w)) as [a|e0] eqn:E]
    end.
    + clear H. intros a Ha. rewrite run_await in Ha.
      destruct (exec (DbSelect job_id (u_user_id user)) w) as [[[|doc rest]|e1] w1];
        cbn [fst snd run] in Ha; try discriminate Ha.
      destruct (negb (is_formatted (status doc))); [discriminate Ha|].
      destruct (negb (opt_str_truthy (result_url doc))); [discriminate Ha|].
      rewrite run_await in Ha.
      destruct (exec (Download (default "" (result_url doc))) w1) as [[content|e2] w2];
        cbn [fst snd run] in Ha; [|discriminate Ha].
      injection Ha as <-. reflexivity.
    + cbn [fst] in H. injection H as <-. apply G. reflexivity.
    + rewrite run_await in H. cbn [run fst snd exec remote normal] in H. discriminate H.
  - intros doc rest Hf Hsel Hs.
    pose proof (select_found job_id (u_user_id user) w Hf) as Hx. rewrite Hsel in Hx.
    rewrite run_await, Hx. cbn [fst snd]. rewrite (not_formatted _ Hs).
    cbn [negb run fst snd]. rewrite run_await.
    cbn [run fst snd exec remote normal]. vm_compute. reflexivity.
Qed.

(** The two services side by side.  "job-1" is formatted, its options
    ask for the tracked-changes variant and its result is in the bucket:
    api.py returns the primary content alone, main.py returns both
    payloads.  For "job-1" still in [processing], api.py answers 500 and
    main.py 400. *)
Example download_of_a_tracked_job :
  fd_content <$> from_ok (fst (run (Api.download_document "job-1" alice) formatted_world))
  = Some (Base64.b64encode "formatted:raw")
  /\ fd_tracked_changes_content
       <$> from_ok (fst (run (Api.download_document "job-1" alice) formatted_world))
     = Some None
  /\ fd_tracked_changes_content
       <$> from_ok (fst (run (Main.download_document "job-1" alice) formatted_world))
     = Some (Some (Base64.b64encode (Main.tracked_content formatted_row)))
  /\ fst (run (Api.download_document "job-1" alice) processing_world)
     = Err (HTTPException 500 "400: Document not ready")
  /\ fst (run (Main.download_document "job-1" alice) processing_world)
     = Err (HTTPException 400 "Document not ready for download").
Proof. repeat split; vm_compute; reflexivity. Qed.

Lemma api_download_witness :
  fd_tracked_changes_content
    <$> from_ok (fst (run (Api.download_document "job-1" alice) formatted_world))
  = Some None
  /\ fst (run (Api.download_document "job-1" alice) processing_world)
     = Err (HTTPException 500 "400: Document not ready").
Proof.
  split.
  - destruct (fst (run (Api.download_document "job-1" alice) formatted_world))
      as [r|e] eqn:E.
    + cbn. f_equal.
      exact (proj1 (api_download_misses_the_contract "job-1" alice formatted_world) r E).
    + vm_compute in E. discriminate E.
  - apply (proj2 (api_download_misses_the_contract "job-1" alice processing_world)
             (sample_row "processing" (Some {["progress" := VInt 30]}) None) []);
      [reflexivity | reflexivity | discriminate].
Defined.

(** * C5: what the rows of api.py keep *)









Lemma Forall_kept {A} (P : A -> Prop) (f : A -> bool) (l : list A) :
  Forall P l -> Forall P (List.filter f l).
Proof.
  induction 1 as [|x l Hx Hl IH]; simpl; [constructor|].
  destruct (f x); [constructor|]; assumption.
Qed.



(** ** C5 *)


(** ** Reaching the end of a thread *)

Lemma set_oracle_same (w : World) : set_oracle (oracle w) w = w.
Proof. destruct w; reflexivity. Qed.

(** A thread of a reachable state can be run to its end, with the faults
    the world holds; the tasks it created are then in the loop. *)
Lemma reach_run {A} (p : Prog A) (w : World) (before after : list Thread) :
  api_reachable (w, (before ++ Running p :: after)%list) ->
  api_reachable (snd (run p w),
                 (before ++ Running (finished (fst (run p w)))
                    :: after ++ spawned_by (calls p w))%list).
Proof.
  revert w after. induction p as [a|e|X c k IH]; intros w after H.
  - cbn [run calls spawned_by flat_map fst snd finished]. by rewrite app_nil_r.
  - cbn [run calls spawned_by flat_map fst snd finished]. by rewrite app_nil_r.
  - cbn [run calls spawned_by flat_map fst snd].
    rewrite app_assoc. apply IH.
    pose proof (step_call c k w before after (oracle w)) as Hstep.
    cbv zeta in Hstep. rewrite set_oracle_same in Hstep.
    eapply reach_step; eassumption.
Qed.

Lemma reach_request (r : ApiRequest) {A} (p : Prog A) (w : World) (pool : list Thread) :
  api_handler r = Running p ->
  api_reachable (w, pool) ->
  exists pool',
    api_reachable (snd (run p w), pool')
    /\ forall t, t ∈ tasks_created (calls p w) -> Running (task_body t) ∈ pool'.
Proof.
  intros Hr H.
  pose proof (reach_step _ _ H (step_request r w pool)) as H1. rewrite Hr in H1.
  apply reach_run in H1.
  eexists. split; [exact H1|].
  intros t Ht. apply list_elem_of_In. apply List.in_or_app. right. right.
  cbn [app]. apply list_elem_of_In in Ht. revert Ht. clear.
  induction (calls p w) as [|[X c] l IH]; [intros []|].
  rewrite tasks_created_cons. cbn [spawned_by flat_map].
  intros Ht. apply List.in_or_app.
  destruct c; cbn [task_of] in Ht; try (right; apply IH; exact Ht).
  destruct Ht as [<-|Ht]; [left; cbn [spawned List.In]; left; reflexivity|].
  right. apply IH. exact Ht.
Qed.

Lemma reach_task {A} (p : Prog A) (w : World) (pool : list Thread) :
  Running p ∈ pool ->
  api_reachable (w, pool) ->
  exists pool', api_reachable (snd (run p w), pool').
Proof.
  intros Hin H. apply list_elem_of_split in Hin. destruct Hin as (before & after & ->).
  apply reach_run in H. eexists. exact H.
Qed.

(** The job of the sample lifecycle is reachable at each of its stages. *)
Lemma lifecycle_reachable :
  (exists pool, api_reachable (finished_world, pool))
  /\ (exists pool, api_reachable (renotified_world, pool)).
Proof.
  assert (H0 : api_reachable (empty_world, [])) by (constructor; reflexivity).
  destruct (reach_request
              (CreateUpload "thesis.docx" "apa" "us" true (Some 500000) alice) _ _ _
              eq_refl H0) as (pool1 & H1 & _).
  fold created_world in H1.
  pose proof (reach_step _ _ H1 (step_client_upload uploaded_path "raw" _ _)) as H2.
  fold uploaded_world in H2.
  destruct (reach_request (UploadComplete upload_notice alice) _ _ _ eq_refl H2)
    as (pool2 & H3 & Htask).
  fold notified_world in H3.
  assert (Hin : Running (task_body upload_task) ∈ pool2).
  { apply Htask.
    assert (E : tasks_created (calls (Api.upload_complete_webhook upload_notice alice)
                                 uploaded_world) = [upload_task])
      by (vm_compute; reflexivity).
    rewrite E. apply list_elem_of_here. }
  destruct (reach_task _ _ _ Hin H3) as (pool3 & H4).
  fold finished_world in H4.
  split; [eexists; exact H4|].
  destruct (reach_request (UploadComplete upload_notice alice) _ _ _ eq_refl H4)
    as (pool4 & H5 & _).
  eexists. exact H5.
Qed.

(** In main.py the helper stores a log only when it is given a progress.
    Its two failure paths (the upload failure in [upload_complete_webhook]
    and the [except] block of [simulate_processing]) pass an error message
    and no progress: the update they send carries the status alone. *)
Lemma main_failure_update_carries_no_log (job_id : string) (log : option dict)
    (w : World) :
  (fun u => u_processing_log (snd u))
    <$> updates (calls (Main.update_document_status job_id "failed" None log) w)
  = [None].
Proof. rewrite main_update_updates. reflexivity. Qed.

(** So a draft whose upload is reported as failed ends up [failed] with
    no error message, where api.py records "Upload failed". *)
Example main_upload_failure_leaves_no_error :
  (fun d => (status d, error_shown d))
    <$> row_after (Main.upload_complete_webhook (mkWebhook "job-1" sample_path false) alice)
          draft_world "job-1"
  = Some ("failed", VNone)
  /\ (fun d => (status d, error_shown d))
       <$> row_after (Api.upload_complete_webhook (mkWebhook "job-1" sample_path false) alice)
             draft_world "job-1"
     = Some ("failed", VStr "Upload failed").
Proof. split; vm_compute; reflexivity. Qed.





(** * What a run leaves unchanged *)

(** A component of the world that no call of a program changes is the
    same after the run. *)
Lemma run_keeps {A F} (f : World -> F) (P : forall X, Cmd X -> Prop) :
  (forall X (c : Cmd X) w, P X c -> f (snd (exec c w)) = f w) ->
  forall (p : Prog A) (w : World), all_cmds P p -> f (snd (run p w)) = f w.
Proof.
  intros HP p. induction p as [a|e|X c k IH]; intros w Hp; cbn [run snd]; auto.
  destruct Hp as [Hc Hk]. rewrite IH by apply Hk. apply HP. exact Hc.
Qed.

Lemma exec_temp_dirs {X} (c : Cmd X) (w : World) :
  no_temp_dir X c -> temp_dirs (snd (exec c w)) = temp_dirs w.
Proof.
  intros Hc. unfold exec.
  assert (N : forall v, temp_dirs (snd (normal c v)) = temp_dirs v).
  { intros v. destruct c; simpl; try reflexivity; try contradiction.
    destruct (bucket v !! path); reflexivity. }
  destruct (remote c); [|apply N].
  destruct (oracle w) as [|[e|] rest]; rewrite ?N; reflexivity.
Qed.

Lemma exec_jobs_storage {X} (c : Cmd X) (w : World) :
  read_only X c -> jobs_storage (snd (exec c w)) = jobs_storage w.
Proof.
  intros Hc. unfold exec.
  assert (N : forall v, jobs_storage (snd (normal c v)) = jobs_storage v).
  { intros v. destruct c; simpl; try reflexivity; try contradiction.
    destruct (bucket v !! path); reflexivity. }
  destruct (remote c); [|apply N].
  destruct (oracle w) as [|[e|] rest]; rewrite ?N; reflexivity.
Qed.

Lemma read_only_table {X} (c : Cmd X) : read_only X c -> writes_table c = false.
Proof. destruct c; simpl; intros H; try reflexivity; contradiction. Qed.

Lemma read_only_bucket {X} (c : Cmd X) : read_only X c -> writes_bucket c = false.
Proof. destruct c; simpl; intros H; try reflexivity; contradiction. Qed.

(** A program of read-only calls leaves the table, the bucket and
    [jobs_storage] as they were, and creates no task. *)
Lemma read_only_run {A} (p : Prog A) (w : World) :
  all_cmds read_only p ->
  documents (snd (run p w)) = documents w
  /\ bucket (snd (run p w)) = bucket w
  /\ jobs_storage (snd (run p w)) = jobs_storage w
  /\ tasks_created (calls p w) = [].
Proof.
  intros Hp. repeat split.
  - apply (run_keeps documents read_only); [|exact Hp].
    intros X c v Hc. apply exec_documents, read_only_table, Hc.
  - apply (run_keeps bucket read_only); [|exact Hp].
    intros X c v Hc. apply exec_bucket, read_only_bucket, Hc.
  - apply (run_keeps jobs_storage read_only); [|exact Hp].
    intros X c v Hc. apply exec_jobs_storage, Hc.
  - pose proof (all_cmds_calls read_only p w Hp) as H.
    induction H as [|[X c] l Hc Hl IH]; [reflexivity|].
    rewrite tasks_created_cons. destruct c; cbn [task_of]; try exact IH. contradiction.
Qed.

(** * The real task, on every path *)

Lemma pipeline_failed_returns (job_id : string) (e : exn) (w : World) :
  fst (run (Api.pipeline_failed job_id e) w) = Ok tt.
Proof.
  unfold Api.pipeline_failed. rewrite run_await. cbn [exec remote normal fst snd].
  apply api_update_returns.
Qed.

Lemma api_update_no_temp (job_id st : string) (p : option Z) (log : option dict)
    (url : option string) (time : option Q) :
  all_cmds no_temp_dir (Api.update_document_status job_id st p log url time).
Proof. apply all_cmds_api_update; intros; exact I. Qed.

Lemma pipeline_steps_no_temp (job_id file_path style : string) :
  all_cmds no_temp_dir (Api.pipeline_steps job_id file_path style).
Proof.
  unfold Api.pipeline_steps. all_cmds_auto; try exact I; apply api_update_no_temp.
Qed.

Lemma pipeline_failed_no_temp (job_id : string) (e : exn) :
  all_cmds no_temp_dir (Api.pipeline_failed job_id e).
Proof.
  unfold Api.pipeline_failed. all_cmds_auto; try exact I; apply api_update_no_temp.
Qed.

(** ** With a disk that can fail *)

Lemma run_disk_bind {A B} (p : Prog A) (f : A -> Prog B) (w : World) :
  run_disk (bind p f) w =
  match fst (run_disk p w) with
  | Ok a => run_disk (f a) (snd (run_disk p w))
  | Err e => (Err e, snd (run_disk p w))
  end.
Proof. revert w; induction p as [a|e|X c k IH]; intros w; simpl; auto. Qed.

Lemma calls_disk_bind {A B} (p : Prog A) (f : A -> Prog B) (w : World) :
  calls_disk (bind p f) w =
  (calls_disk p w ++
   match fst (run_disk p w) with
   | Ok a => calls_disk (f a) (snd (run_disk p w))
   | Err _ => []
   end)%list.
Proof.
  revert w; induction p as [a|e|X c k IH]; intros w; simpl; auto.
  by rewrite IH.
Qed.

Lemma run_disk_try_finally {A} (p : Prog A) (f : Prog unit) (w : World) :
  run_disk (try_finally p f) w =
  match fst (run_disk f (snd (run_disk p w))) with
  | Ok _ => (fst (run_disk p w), snd (run_disk f (snd (run_disk p w))))
  | Err e => (Err e, snd (run_disk f (snd (run_disk p w))))
  end.
Proof.
  revert w; induction p as [a|e|X c k IH]; intros w; simpl; auto;
    rewrite run_disk_bind; destruct (run_disk f w) as [[[]|e'] w']; reflexivity.
Qed.

Lemma calls_disk_try_finally {A} (p : Prog A) (f : Prog unit) (w : World) :
  calls_disk (try_finally p f) w
  = (calls_disk p w ++ calls_disk f (snd (run_disk p w)))%list.
Proof.
  revert w; induction p as [a|e|X c k IH]; intros w; simpl; auto;
    try (rewrite calls_disk_bind; destruct (fst (run_disk f w)); simpl;
         rewrite ?app_nil_r; reflexivity).
  by rewrite IH.
Qed.

Lemma run_disk_call {X} (c : Cmd X) (w : World) : run_disk (call c) w = exec_disk c w.
Proof. unfold call; simpl. destruct (exec_disk c w) as [[x|e] w']; reflexivity. Qed.

Lemma calls_disk_call {X} (c : Cmd X) (w : World) : calls_disk (call c) w = [Called c].
Proof. unfold call; simpl. destruct (fst (exec_disk c w)); reflexivity. Qed.

(** A program that makes no call on the disk runs as before. *)
Lemma run_disk_same {A} (p : Prog A) (w : World) :
  all_cmds no_temp_dir p -> run_disk p w = run p w /\ calls_disk p w = calls p w.
Proof.
  revert w. induction p as [a|e|X c k IH]; intros w Hp; cbn [run_disk run calls_disk calls];
    [split; reflexivity..|].
  destruct Hp as [Hc Hk].
  assert (E : exec_disk c w = exec c w).
  { unfold exec_disk. destruct c; try reflexivity; contradiction. }
  rewrite E. destruct (IH (fst (exec c w)) (snd (exec c w)) (Hk _)) as [-> ->].
  split; reflexivity.
Qed.

Lemma guarded_steps_no_temp (job_id file_path style : string) :
  all_cmds no_temp_dir (guarded_steps job_id file_path style).
Proof.
  apply all_cmds_try_except; [apply pipeline_steps_no_temp|].
  intros e. apply pipeline_failed_no_temp.
Qed.

Lemma guarded_steps_return (job_id file_path style : string) (w : World) :
  fst (run (guarded_steps job_id file_path style) w) = Ok tt.
Proof.
  unfold guarded_steps. rewrite run_try_except.
  destruct (fst (run (Api.pipeline_steps job_id file_path style) w)) as [[]|e];
    [reflexivity|]. apply pipeline_failed_returns.
Qed.

Lemma exec_disk_raises {X} (c : Cmd X) (w : World) (e : exn) :
  on_disk c = true -> pending_fault w = Some e ->
  fst (exec_disk c w) = Err e
  /\ documents (snd (exec_disk c w)) = documents w
  /\ bucket (snd (exec_disk c w)) = bucket w
  /\ temp_dirs (snd (exec_disk c w)) = temp_dirs w.
Proof.
  unfold exec_disk, pending_fault. intros -> H.
  destruct (oracle w) as [|[e0|] rest]; try discriminate H.
  injection H as <-. repeat split; reflexivity.
Qed.

Lemma exec_disk_returns {X} (c : Cmd X) (w : World) :
  on_disk c = true -> pending_fault w = None ->
  exec_disk c w = normal c (set_oracle (tail (oracle w)) w).
Proof.
  unfold exec_disk, pending_fault. intros -> H.
  destruct (oracle w) as [|[e0|] rest] eqn:Ho; try discriminate H; cbn [tail].
  - rewrite <- Ho. destruct w; reflexivity.
  - reflexivity.
Qed.

(** [process_document_task] raises what the local disk raises, and
    nothing else; [tempfile.mkdtemp()] stands before its [try] and
    [shutil.rmtree()] in its [finally].  When [mkdtemp] raises, the task
    ends there with that exception: it makes no other call, so no status
    is written and the job stays as the completion handler left it.
    When [mkdtemp] returns, the [try] and [except] blocks never raise,
    and [rmtree] is the last call: when it returns, the task returns and
    the number of temporary directories is the one before the run; when
    it raises, the task ends with that exception after the outcome of
    the run was recorded, and the directory stays. *)
Theorem task_raises_only_what_the_disk_raises
    (job_id file_path style ev : string) (options : dict) (uid : string) (w : World) :
  let p := Api.process_document_task job_id file_path style ev options uid in
  let body := guarded_steps job_id file_path style in
  let w1 := snd (exec_disk Mkdtemp w) in
  let w2 := snd (run_disk body w1) in
  (forall e,
      pending_fault w = Some e ->
      fst (run_disk p w) = Err e
      /\ calls_disk p w = [Called Mkdtemp]
      /\ documents (snd (run_disk p w)) = documents w
      /\ bucket (snd (run_disk p w)) = bucket w
      /\ temp_dirs (snd (run_disk p w)) = temp_dirs w)
  /\ (pending_fault w = None ->
      fst (run_disk body w1) = Ok tt
      /\ calls_disk p w = (Called Mkdtemp :: calls_disk body w1 ++ [Called Rmtree])%list
      /\ (pending_fault w2 = None ->
          fst (run_disk p w) = Ok tt
          /\ temp_dirs (snd (run_disk p w)) = temp_dirs w)
      /\ (forall e,
             pending_fault w2 = Some e ->
             fst (run_disk p w) = Err e
             /\ temp_dirs (snd (run_disk p w)) = S (temp_dirs w)
             /\ documents (snd (run_disk p w)) = documents w2
             /\ bucket (snd (run_disk p w)) = bucket w2)).
Proof.
  cbv zeta.
  assert (Hp : Api.process_document_task job_id file_path style ev options uid
               = Vis Mkdtemp
                   (fun r => bind match r with Ok x => Ret x | Err e => Raise e end
                               (fun _ => try_finally (guarded_steps job_id file_path style)
                                           (call Rmtree)))) by reflexivity.
  rewrite Hp. clear Hp. cbn [run_disk calls_disk].
  destruct (run_disk_same (guarded_steps job_id file_path style)
              (snd (exec_disk Mkdtemp w)) (guarded_steps_no_temp _ _ _)) as [Hr Hc].
  split.
  - intros e He.
    destruct (exec_disk_raises Mkdtemp w e eq_refl He) as (H1 & H2 & H3 & H4).
    destruct (exec_disk Mkdtemp w) as [r w1]. cbn [fst snd] in *. subst r.
    cbn [bind run_disk calls_disk fst snd]. repeat split; assumption.
  - intros Hn. rewrite Hr, guarded_steps_return. split; [reflexivity|].
    rewrite (exec_disk_returns Mkdtemp w eq_refl Hn) in *.
    cbn [normal fst snd bind] in *.
    set (w1 := set_temp_dirs (S (temp_dirs (set_oracle (tail (oracle w)) w)))
                 (set_oracle (tail (oracle w)) w)) in *.
    rewrite run_disk_try_finally, calls_disk_try_finally, Hr, Hc.
    assert (Ht : temp_dirs (snd (run (guarded_steps job_id file_path style) w1))
                 = S (temp_dirs w)).
    { rewrite (run_keeps temp_dirs no_temp_dir).
      - reflexivity.
      - intros X c v Hv. apply exec_temp_dirs, Hv.
      - apply guarded_steps_no_temp. }
    set (w2 := snd (run (guarded_steps job_id file_path style) w1)) in *.
    rewrite run_disk_call, calls_disk_call.
    split; [reflexivity|]. split.
    + intros Hn2. rewrite (exec_disk_returns Rmtree w2 eq_refl Hn2).
      cbn [normal fst snd temp_dirs set_temp_dirs set_oracle].
      split; [apply guarded_steps_return|].
      change (temp_dirs (set_oracle (tail (oracle w2)) w2)) with (temp_dirs w2).
      rewrite Ht. reflexivity.
    + intros e He.
      destruct (exec_disk_raises Rmtree w2 e eq_refl He) as (H1 & H2 & H3 & H4).
      rewrite H1. cbn [fst snd]. rewrite H2, H3, H4, Ht. repeat split; reflexivity.
Qed.

Lemma full_disk_witness :
  let p := Api.process_document_task "job-1" sample_path "apa" "us" ∅ "alice" in
  (fst (run_disk p full_disk_world) = Err (Exception "[Errno 28] No space left on device")
   /\ calls_disk p full_disk_world = [Called Mkdtemp]
   /\ status <$> documents (snd (run_disk p full_disk_world)) = ["processing"])
  /\ (fst (run_disk p accepted_world) = Ok tt
      /\ temp_dirs (snd (run_disk p accepted_world)) = 0%nat)
  /\ (fst (run_disk p busy_disk_world)
      = Err (Exception "[Errno 16] Device or resource busy")
      /\ temp_dirs (snd (run_disk p busy_disk_world)) = 1%nat
      /\ status <$> documents (snd (run_disk p busy_disk_world)) = ["formatted"]).
Proof.
  cbv zeta.
  pose proof (task_raises_only_what_the_disk_raises "job-1" sample_path "apa" "us" ∅
                "alice") as T. cbv zeta in T.
  split; [|split].
  - destruct (T full_disk_world) as [H _].
    destruct (H (Exception "[Errno 28] No space left on device") eq_refl)
      as (H1 & H2 & H3 & _).
    split; [exact H1|]. split; [exact H2|]. rewrite H3. reflexivity.
  - destruct (T accepted_world) as [_ H].
    destruct (H eq_refl) as (_ & _ & H1 & _). apply H1. vm_compute. reflexivity.
  - destruct (T busy_disk_world) as [_ H].
    destruct (H eq_refl) as (_ & _ & _ & H1).
    destruct (H1 (Exception "[Errno 16] Device or resource busy"))
      as (H2 & H3 & H4 & _); [vm_compute; reflexivity|].
    split; [exact H2|]. split; [exact H3|]. rewrite H4. vm_compute. reflexivity.
Defined.

(** * Reading a job writes nothing *)

(** The status and download handlers of both services only read:
    whatever the job, the caller and the faults, a call leaves the table,
    the bucket and [jobs_storage] as they were and creates no task. *)
Theorem status_and_download_write_nothing (job_id : string) (user : User) (w : World) :
  changes_nothing (Api.get_document_status job_id user) w
  /\ changes_nothing (Api.download_document job_id user) w
  /\ changes_nothing (Main.get_document_status job_id user) w
  /\ changes_nothing (Main.download_document job_id user) w.
Proof.
  repeat split;
    apply read_only_run;
    unfold Api.get_document_status, Api.download_document, Main.get_document_status,
      Main.download_document;
    all_cmds_auto; exact I.
Qed.

(** * [jobs_storage] of main.py *)

Lemma exec_jobs_empty {X} (c : Cmd X) (w : World) :
  jobs_storage w = ∅ -> jobs_storage (snd (exec c w)) = ∅.
Proof.
  intros Hw. unfold exec.
  assert (N : forall v, jobs_storage v = ∅ -> jobs_storage (snd (normal c v)) = ∅).
  { intros v Hv. destruct c; simpl; try exact Hv.
    - destruct (bucket v !! path); exact Hv.
    - rewrite Hv. apply delete_empty. }
  destruct (remote c); [|apply N; exact Hw].
  destruct (oracle w) as [|[e|] rest]; [apply N; exact Hw | exact Hw | apply N; exact Hw].
Qed.

Lemma run_jobs_empty {A} (p : Prog A) (w : World) :
  jobs_storage w = ∅ -> jobs_storage (snd (run p w)) = ∅.
Proof.
  revert w. induction p as [a|e|X c k IH]; intros w Hw; cbn [run snd]; auto.
  apply IH, exec_jobs_empty, Hw.
Qed.

(** [delete_job] of main.py works on [jobs_storage] alone: it never
    changes the table or the bucket, a job that is in the dictionary is
    deleted once and answered 404 the second time, and, since no program
    of the service ever adds to the dictionary, after any run that
    started with an empty dictionary every job id is answered 404 (the
    jobs the run created in the table included). *)
Theorem main_delete_job_knows_no_job {A} (p : Prog A) (w : World) (job_id : string) :
  jobs_storage w = ∅ ->
  let w' := snd (run p w) in
  run (Main.delete_job job_id) w' = (Err (HTTPException 404 "Job not found"), w')
  /\ (forall v : World,
         documents (snd (run (Main.delete_job job_id) v)) = documents v
         /\ bucket (snd (run (Main.delete_job job_id) v)) = bucket v)
  /\ (forall v : World,
         is_Some (jobs_storage v !! job_id) ->
         fst (run (Main.delete_job job_id) v)
         = Ok {| dl_success := true; dl_message := "Job deleted" |}
         /\ fst (run (Main.delete_job job_id) (snd (run (Main.delete_job job_id) v)))
            = Err (HTTPException 404 "Job not found")).
Proof.
  intros Hw w'. split; [|split].
  - pose proof (run_jobs_empty p w Hw) as He. fold w' in He.
    unfold Main.delete_job. rewrite run_await. cbn [exec remote normal fst snd].
    rewrite He, lookup_empty.
    rewrite bool_decide_eq_false_2 by (intros [x Hx]; discriminate Hx). reflexivity.
  - intros v. unfold Main.delete_job. rewrite run_await. cbn [exec remote normal fst snd].
    destruct (bool_decide (is_Some (jobs_storage v !! job_id))); split; reflexivity.
  - intros v Hv. unfold Main.delete_job. rewrite !run_await.
    cbn [exec remote normal fst snd].
    rewrite (bool_decide_eq_true_2 _ Hv).
    rewrite run_await. cbn [exec remote normal fst snd run jobs_storage set_jobs_storage].
    split; [reflexivity|].
    rewrite lookup_delete_eq.
    rewrite bool_decide_eq_false_2 by (intros [x Hx]; discriminate Hx). reflexivity.
Qed.

Lemma main_delete_job_witness :
  let create := Main.create_upload_url "thesis.docx" "apa" "us" false (Some 500000) alice in
  let w' := snd (run create empty_world) in
  id_ <$> documents w' = ["uuid-0"]
  /\ run (Main.delete_job "uuid-0") w' = (Err (HTTPException 404 "Job not found"), w')
  /\ fst (run (Main.delete_job "job-1") stored_job_world)
     = Ok {| dl_success := true; dl_message := "Job deleted" |}
  /\ fst (run (Main.delete_job "job-1")
            (snd (run (Main.delete_job "job-1") stored_job_world)))
     = Err (HTTPException 404 "Job not found").
Proof.
  cbv zeta. split; [vm_compute; reflexivity|].
  pose proof (main_delete_job_knows_no_job
                (Main.create_upload_url "thesis.docx" "apa" "us" false (Some 500000) alice)
                empty_world "uuid-0" eq_refl) as H.
  cbv zeta in H. destruct H as (H1 & _ & _). split; [exact H1|].
  pose proof (main_delete_job_knows_no_job (Ret tt) empty_world "job-1" eq_refl) as H.
  cbv zeta in H. destruct H as (_ & _ & H3).
  apply (H3 stored_job_world). eexists. vm_compute. reflexivity.
Defined.

(** * A status update touches one job *)

Lemma update_rows_identity (u : UpdateData) (job_id : string) (t : list Document) :
  identity_of <$> update_rows u job_id t = identity_of <$> t.
Proof.
  unfold update_rows. induction t as [|d t IH]; [reflexivity|].
  cbn [List.map fmap list_fmap]. cbn [fmap list_fmap] in IH.
  change (List.map ?f ?l) with (list_fmap _ _ f l) in *.
  f_equal; [|exact IH]. destruct (has_id job_id d); reflexivity.
Qed.

Lemma update_rows_others (u : UpdateData) (job_id : string) (t : list Document) :
  other_rows job_id (update_rows u job_id t) = other_rows job_id t.
Proof.
  unfold other_rows, update_rows. induction t as [|d t IH]; [reflexivity|].
  cbn [List.map List.filter].
  destruct (has_id job_id d) eqn:E.
  - assert (E' : has_id job_id (apply_update u d) = true) by exact E.
    rewrite E'. cbn [negb]. exact IH.
  - rewrite E. cbn [negb]. f_equal. exact IH.
Qed.

Lemma exec_update_frame (u : UpdateData) (job_id : string) (w : World) :
  let w' := snd (exec (DbUpdate u job_id) w) in
  identity_of <$> documents w' = identity_of <$> documents w
  /\ other_rows job_id (documents w') = other_rows job_id (documents w)
  /\ bucket w' = bucket w.
Proof.
  cbv zeta. cbn [exec remote normal].
  destruct (oracle w) as [|[e|] rest]; cbn [fst snd documents bucket set_documents set_oracle];
    auto using update_rows_identity, update_rows_others.
Qed.

(** [update_document_status], in api.py and in main.py, changes only
    rows whose id is the job's, and of those only the status, the log,
    the result location and the time stamps: the id, the owner, the file
    name, the storage location, the options, the size and the creation
    time of every row stay, the rows of other jobs stay as they are, no
    row is added or removed, and the bucket is not touched. *)
Theorem status_update_touches_one_job
    (job_id st : string) (p : option Z) (log : option dict) (url : option string)
    (time : option Q) (w : World) :
  let api := snd (run (Api.update_document_status job_id st p log url time) w) in
  let main := snd (run (Main.update_document_status job_id st p log) w) in
  (identity_of <$> documents api = identity_of <$> documents w
   /\ other_rows job_id (documents api) = other_rows job_id (documents w)
   /\ bucket api = bucket w)
  /\ (identity_of <$> documents main = identity_of <$> documents w
      /\ other_rows job_id (documents main) = other_rows job_id (documents w)
      /\ bucket main = bucket w).
Proof.
  cbv zeta. rewrite api_update_run, main_update_run. cbn [snd].
  split; apply exec_update_frame.
Qed.

(** * The completion webhook and jobs of other users *)

(** Name the world after the lookup of a job, keeping what the lookup
    leaves unchanged. *)
Ltac after_select job uid w w1 :=
  let Hd := fresh "Hdocs" in
  let Hb := fresh "Hbucket" in
  let Hj := fresh "Hjobs" in
  pose proof (exec_documents (DbSelect job uid) w eq_refl) as Hd;
  pose proof (exec_bucket (DbSelect job uid) w eq_refl) as Hb;
  pose proof (exec_jobs_storage (DbSelect job uid) w I) as Hj;
  destruct (exec (DbSelect job uid) w) as [? w1]; cbn [fst snd] in *; subst.

(** Run the local calls and the pure steps of a handler. *)
Ltac crunch :=
  repeat (progress (rewrite ?run_await, ?calls_await;
                    cbn [exec remote normal fst snd run calls app updates
                           tasks_created omap update_of task_of])).

(** A completion notice for a job the lookup does not find for the
    caller (another user's job, or no job at all) sends no status update
    and creates no task, whether it reports success or failure.  api.py
    answers 500 with detail "404: Job not found", main.py and
    upload-complete.py answer 404. *)
Theorem foreign_completion_changes_nothing
    (wd : WebhookUploadComplete) (user : User) (w : World) :
  pending_fault w = None ->
  select_rows (wh_job_id wd) (u_user_id user) (documents w) = [] ->
  (fst (run (Api.upload_complete_webhook wd user) w)
   = Err (HTTPException 500 "404: Job not found")
   /\ updates (calls (Api.upload_complete_webhook wd user) w) = []
   /\ changes_nothing (Api.upload_complete_webhook wd user) w)
  /\ (fst (run (Main.upload_complete_webhook wd user) w)
      = Err (HTTPException 404 "Job not found")
      /\ updates (calls (Main.upload_complete_webhook wd user) w) = []
      /\ changes_nothing (Main.upload_complete_webhook wd user) w)
  /\ (fst (run (UploadComplete.upload_complete_webhook wd user) w)
      = Err (HTTPException 404 "Job not found")
      /\ updates (calls (UploadComplete.upload_complete_webhook wd user) w) = []
      /\ changes_nothing (UploadComplete.upload_complete_webhook wd user) w).
Proof.
  intros Hf Hsel.
  pose proof (select_found (wh_job_id wd) (u_user_id user) w Hf) as Hx.
  rewrite Hsel in Hx. clear Hsel Hf. unfold changes_nothing.
  unfold Api.upload_complete_webhook, Main.upload_complete_webhook,
    UploadComplete.upload_complete_webhook.
  rewrite !run_try_except, !calls_try_except, !run_bind, !calls_bind.
  rewrite !run_try_except, !calls_try_except, !run_call, !calls_call.
  after_select (wh_job_id wd) (u_user_id user) w w1.
  crunch. rewrite Hdocs, Hbucket, Hjobs.
  repeat split; reflexivity.
Qed.

Lemma foreign_completion_witness :
  (fst (run (Api.upload_complete_webhook sample_notice bob) draft_world)
   = Err (HTTPException 500 "404: Job not found")
   /\ updates (calls (Api.upload_complete_webhook sample_notice bob) draft_world) = []
   /\ changes_nothing (Api.upload_complete_webhook sample_notice bob) draft_world)
  /\ (fst (run (Main.upload_complete_webhook sample_notice bob) draft_world)
      = Err (HTTPException 404 "Job not found")
      /\ updates (calls (Main.upload_complete_webhook sample_notice bob) draft_world) = []
      /\ changes_nothing (Main.upload_complete_webhook sample_notice bob) draft_world)
  /\ (fst (run (UploadComplete.upload_complete_webhook sample_notice bob) draft_world)
      = Err (HTTPException 404 "Job not found")
      /\ updates (calls (UploadComplete.upload_complete_webhook sample_notice bob)
                    draft_world) = []
      /\ changes_nothing (UploadComplete.upload_complete_webhook sample_notice bob)
           draft_world).
Proof.
  apply (foreign_completion_changes_nothing sample_notice bob draft_world); reflexivity.
Defined.

(** * The record store failing under the completion webhook *)

(** When the lookup of the job itself fails, upload-complete.py tells a
    time-out (504 "Database query timeout") from any other failure (500
    "Database error", whatever the exception said), while main.py lets an
    [HTTPException] through and wraps anything else as 500 "Webhook
    processing failed: <e>" and api.py answers 500 with the text of the
    exception.  None of them sends an update or creates a task. *)
Theorem completion_lookup_failure
    (wd : WebhookUploadComplete) (user : User) (w : World) (e : exn)
    (rest : list (option exn)) :
  oracle w = Some e :: rest ->
  (fst (run (UploadComplete.upload_complete_webhook wd user) w)
   = Err match e with
         | TimeoutError => HTTPException 504 "Database query timeout"
         | _ => HTTPException 500 "Database error"
         end
   /\ updates (calls (UploadComplete.upload_complete_webhook wd user) w) = []
   /\ changes_nothing (UploadComplete.upload_complete_webhook wd user) w)
  /\ (fst (run (Main.upload_complete_webhook wd user) w)
      = Err match e with
            | HTTPException _ _ => e
            | _ => HTTPException 500 ("Webhook processing failed: " +:+ str_exn e)
            end
      /\ updates (calls (Main.upload_complete_webhook wd user) w) = []
      /\ changes_nothing (Main.upload_complete_webhook wd user) w)
  /\ (fst (run (Api.upload_complete_webhook wd user) w)
      = Err (HTTPException 500 (str_exn e))
      /\ updates (calls (Api.upload_complete_webhook wd user) w) = []
      /\ changes_nothing (Api.upload_complete_webhook wd user) w).
Proof.
  intros Ho.
  assert (Hx : exec (DbSelect (wh_job_id wd) (u_user_id user)) w
               = (Err e, set_oracle rest w)).
  { cbn [exec remote]. rewrite Ho. reflexivity. }
  unfold changes_nothing.
  unfold Api.upload_complete_webhook, Main.upload_complete_webhook,
    UploadComplete.upload_complete_webhook.
  rewrite !run_try_except, !calls_try_except, !run_bind, !calls_bind.
  rewrite !run_try_except, !calls_try_except, !run_call, !calls_call, !Hx.
  cbn [fst snd]. destruct e; crunch; repeat split; reflexivity.
Qed.

Lemma completion_lookup_failure_witness :
  fst (run (UploadComplete.upload_complete_webhook sample_notice alice) timeout_world)
  = Err (HTTPException 504 "Database query timeout")
  /\ fst (run (Main.upload_complete_webhook sample_notice alice) timeout_world)
     = Err (HTTPException 500 "Webhook processing failed: ")
  /\ fst (run (Api.upload_complete_webhook sample_notice alice) timeout_world)
     = Err (HTTPException 500 "").
Proof.
  pose proof (completion_lookup_failure sample_notice alice timeout_world TimeoutError []
                eq_refl) as H.
  destruct H as ((H1 & _) & (H2 & _) & (H3 & _)).
  split; [exact H1|]. split; [exact H2|exact H3].
Defined.

(** * Deleting a job, step by step *)

(** A call that raises has changed neither the table nor the bucket. *)
Lemma exec_err_frame {X} (c : Cmd X) (w : World) (e : exn) :
  fst (exec c w) = Err e ->
  documents (snd (exec c w)) = documents w /\ bucket (snd (exec c w)) = bucket w.
Proof.
  unfold exec.
  assert (N : forall v, fst (normal c v) = Err e ->
                        documents (snd (normal c v)) = documents v
                        /\ bucket (snd (normal c v)) = bucket v).
  { intros v. destruct c; simpl; try discriminate; auto.
    destruct (bucket v !! path); simpl; [discriminate|auto]. }
  destruct (remote c); [|apply N].
  destruct (oracle w) as [|[e0|] rest]; [apply N| auto |].
  intros H. apply N in H. exact H.
Qed.

Lemma delete_rows_others (job_id : string) (t : list Document) :
  other_rows job_id (delete_rows job_id t) = other_rows job_id t.
Proof.
  unfold other_rows, delete_rows. induction t as [|d t IH]; [reflexivity|].
  cbn [List.filter]. destruct (negb (has_id job_id d)) eqn:E; cbn [List.filter].
  - rewrite E. f_equal. exact IH.
  - exact IH.
Qed.

(** [delete_job] of api.py removes the objects first and the record
    last.  So a call that fails has left the table as it was; a call that
    succeeds has removed every row of the job and no other row; and when
    the removal of the result object fails, the source object is already
    gone while the record stays and the caller gets 500. *)
Theorem delete_removes_the_record_last (job_id : string) (user : User) (w : World) :
  let p := Api.delete_job job_id user in
  (forall e, fst (run p w) = Err e -> documents (snd (run p w)) = documents w)
  /\ (forall r,
         fst (run p w) = Ok r ->
         r = {| dl_success := true; dl_message := "Job deleted" |}
         /\ List.filter (has_id job_id) (documents (snd (run p w))) = []
         /\ other_rows job_id (documents (snd (run p w))) = other_rows job_id (documents w))
  /\ (forall doc rest loc res e faults,
         oracle w = None :: None :: Some e :: faults ->
         select_rows job_id (u_user_id user) (documents w) = doc :: rest ->
         storage_location doc = Some loc -> Str.truthy loc = true ->
         result_url doc = Some res -> Str.truthy res = true ->
         fst (run p w) = Err (HTTPException 500 (str_exn e))
         /\ bucket (snd (run p w)) = delete loc (bucket w)
         /\ documents (snd (run p w)) = documents w).
Proof.
  cbv zeta.
  assert (G : forall A (q : Prog A) v,
             all_cmds keeps_table q -> documents (snd (run q v)) = documents v).
  { intros A q v. apply (run_keeps documents keeps_table).
    intros X c v' Hc. apply exec_documents, Hc. }
  unfold Api.delete_job. rewrite run_try_except.
  set (removals := fun doc : Document =>
         bind (if opt_str_truthy (storage_location doc)
               then await (Remove [default "" (storage_location doc)]) else Ret tt)
           (fun _ => if opt_str_truthy (result_url doc)
                     then await (Remove [default "" (result_url doc)]) else Ret tt)).
  assert (Hrem : forall doc, all_cmds keeps_table (removals doc)).
  { intros doc. unfold removals. all_cmds_auto; reflexivity. }
  assert (Hbody : forall doc v,
             run (bind (if opt_str_truthy (storage_location doc)
                        then await (Remove [default "" (storage_location doc)])
                        else Ret tt)
                    (fun _ => bind (if opt_str_truthy (result_url doc)
                                    then await (Remove [default "" (result_url doc)])
                                    else Ret tt)
                                (fun _ => bind (await (DbDelete job_id))
                                            (fun _ => Ret {| dl_success := true;
                                                            dl_message := "Job deleted" |}))))
               v
             = run (bind (removals doc)
                      (fun _ => bind (await (DbDelete job_id))
                                  (fun _ => Ret {| dl_success := true;
                                                  dl_message := "Job deleted" |}))) v).
  { intros doc v. unfold removals. rewrite !run_bind.
    destruct (fst (run _ v)) as [[]|e0]; [|reflexivity].
    rewrite ?run_bind. reflexivity. }
  rewrite run_await.
  pose proof (exec_documents (DbSelect job_id (u_user_id user)) w eq_refl) as Hd1.
  split; [|split].
  - intros e.
    destruct (exec (DbSelect job_id (u_user_id user)) w) as [[[|doc rest]|e1] w1];
      cbn [fst snd] in *.
    + crunch. intros _. exact Hd1.
    + rewrite Hbody, run_bind. specialize (G _ (removals doc) w1 (Hrem doc)).
      destruct (run (removals doc) w1) as [[[]|e2] w2]; cbn [fst snd] in *.
      * rewrite run_await.
        destruct (exec (DbDelete job_id) w2) as [[[]|e3] w3] eqn:E3; cbn [fst snd].
        -- discriminate.
        -- crunch. intros _.
           destruct (exec_err_frame (DbDelete job_id) w2 e3) as [H3 _];
             [rewrite E3; reflexivity|].
           rewrite E3 in H3. cbn [snd] in H3. congruence.
      * crunch. intros _. congruence.
    + crunch. intros _. exact Hd1.
  - intros r.
    destruct (exec (DbSelect job_id (u_user_id user)) w) as [[[|doc rest]|e1] w1];
      cbn [fst snd] in *.
    + crunch. discriminate.
    + rewrite Hbody, run_bind. specialize (G _ (removals doc) w1 (Hrem doc)).
      destruct (run (removals doc) w1) as [[[]|e2] w2]; cbn [fst snd] in *.
      * rewrite run_await.
        destruct (exec (DbDelete job_id) w2) as [[[]|e3] w3] eqn:E3; cbn [fst snd].
        -- cbn [run fst snd]. intros [= <-]. split; [reflexivity|].
           assert (Hw3 : documents w3 = delete_rows job_id (documents w2)).
           { revert E3. cbn [exec remote normal].
             destruct (oracle w2) as [|[e0|] rest0]; intros [= <-]; reflexivity. }
           rewrite Hw3, G, Hd1. split; [apply delete_rows_gone|apply delete_rows_others].
        -- crunch. discriminate.
      * crunch. discriminate.
    + crunch. discriminate.
  - intros doc rest loc res e faults Ho Hsel Hloc Ht Hres Htr.
    cbn [exec remote]. rewrite Ho. cbn [normal fst snd documents set_oracle].
    rewrite Hsel. rewrite Hloc, Hres. cbn [opt_str_truthy default]. rewrite Ht, Htr.
    crunch. repeat split; reflexivity.
Qed.

Lemma delete_witness_of_a_failed_removal :
  let p := Api.delete_job "job-1" alice in
  fst (run p half_deleted_world) = Err (HTTPException 500 "storage unavailable")
  /\ bucket (snd (run p half_deleted_world)) !! sample_path = None
  /\ bucket (snd (run p half_deleted_world)) !! "formatted/job-1.docx"
     = Some "formatted:raw"
  /\ documents (snd (run p half_deleted_world)) = [formatted_row].
Proof.
  cbv zeta.
  pose proof (delete_removes_the_record_last "job-1" alice half_deleted_world) as H.
  cbv zeta in H. destruct H as (_ & _ & H).
  destruct (H formatted_row [] sample_path "formatted/job-1.docx"
              (Exception "storage unavailable") [])
    as (H1 & H2 & H3); try reflexivity.
  split; [exact H1|]. rewrite H2, H3. repeat split; vm_compute; reflexivity.
Defined.

(** * Reading back what was written *)

Lemma quiet_pending (w : World) : quiet w -> pending_fault w = None.
Proof.
  unfold quiet, pending_fault. destruct (oracle w) as [|[e|] rest]; auto.
  intros H. inversion H; subst. discriminate.
Qed.

Lemma select_update_rows (u : UpdateData) (job_id uid : string) (t : list Document) :
  select_rows job_id uid (update_rows u job_id t)
  = List.map (apply_update u) (select_rows job_id uid t).
Proof.
  unfold select_rows, update_rows. induction t as [|d t IH]; [reflexivity|].
  cbn [List.map List.filter].
  destruct (has_id job_id d) eqn:E.
  - assert (E1 : has_id job_id (apply_update u d) = true) by exact E.
    assert (E2 : owned_by uid (apply_update u d) = owned_by uid d) by reflexivity.
    rewrite E1, E2. cbn [andb]. destruct (owned_by uid d); cbn [List.map]; by rewrite IH.
  - rewrite E. cbn [andb]. exact IH.
Qed.

Lemma api_status_found (job_id : string) (user : User) (w : World) (doc : Document)
    (rest : list Document) :
  fst (exec (DbSelect job_id (u_user_id user)) w) = Ok (doc :: rest) ->
  fst (run (Api.get_document_status job_id user) w) = Ok (api_status_of job_id doc).
Proof.
  intros Hx. unfold Api.get_document_status.
  rewrite run_try_except, run_await, Hx. reflexivity.
Qed.

Lemma main_status_found (job_id : string) (user : User) (w : World) (doc : Document)
    (rest : list Document) :
  fst (exec (DbSelect job_id (u_user_id user)) w) = Ok (doc :: rest) ->
  fst (run (Main.get_document_status job_id user) w) = Ok (main_status_of job_id doc).
Proof.
  intros Hx. unfold Main.get_document_status.
  rewrite run_try_except, run_await, Hx. reflexivity.
Qed.

Lemma exec_update_calm (u : UpdateData) (job_id : string) (w : World) :
  exec (DbUpdate u job_id) (calm w)
  = (Ok (List.filter (has_id job_id) (update_rows u job_id (documents w))),
     set_documents (update_rows u job_id (documents w)) (calm w)).
Proof. reflexivity. Qed.

Lemma exec_select_calm (job_id uid : string) (t : list Document) (w : World) :
  fst (exec (DbSelect job_id uid) (set_documents t (calm w))) = Ok (select_rows job_id uid t).
Proof. reflexivity. Qed.

(** A status update followed by a status request, when no collaborator
    call fails and the progress and the error to be read are an integer
    and a string (or no error), as the response model declares them:
    the owner reads back the status just written; the progress and the
    error read back are those of the update when it was given a
    progress, and those the row showed before when it was not (the log
    passed is then dropped, error message included).  main.py adds the
    download link exactly when the status written is [formatted];
    api.py never returns one. *)
Theorem status_reads_back_the_update
    (job_id st : string) (p : option Z) (log : option dict) (url : option string)
    (time : option Q) (user : User) (w : World) (doc : Document) (rest : list Document) :
  quiet w ->
  select_rows job_id (u_user_id user) (documents w) = doc :: rest ->
  let api := snd (run (Api.update_document_status job_id st p log url time) w) in
  let main := snd (run (Main.update_document_status job_id st p log) w) in
  let progress := match p with Some n => VInt n | None => progress_shown doc end in
  let error :=
    match p with
    | Some _ => dict_get (or_empty log) "error" VNone
    | None => error_shown doc
    end in
  declared_int progress ->
  declared_optional_str error ->
  fst (run (Api.get_document_status job_id user) api)
  = Ok {| ds_success := true; ds_job_id := job_id; ds_status := st;
          ds_progress := progress; ds_result_url := None; ds_error := error |}
  /\ fst (run (Main.get_document_status job_id user) main)
     = Ok {| ds_success := true; ds_job_id := job_id; ds_status := st;
             ds_progress := progress;
             ds_result_url :=
               if is_formatted st then Some ("/api/documents/download/" +:+ job_id)
               else None;
             ds_error := error |}.
Proof.
  intros Hq Hsel api main progress error _ _. subst api main progress error.
  assert (Ha : fst (run (Api.get_document_status job_id user)
                      (snd (run (Api.update_document_status job_id st p log url time) w)))
               = fst (run (bind (Api.update_document_status job_id st p log url time)
                             (fun _ => Api.get_document_status job_id user)) (calm w))).
  { destruct (run_quiet (bind (Api.update_document_status job_id st p log url time)
                           (fun _ => Api.get_document_status job_id user)) w Hq)
      as (R & _). rewrite <- R, run_bind, api_update_returns. reflexivity. }
  assert (Hm : fst (run (Main.get_document_status job_id user)
                      (snd (run (Main.update_document_status job_id st p log) w)))
               = fst (run (bind (Main.update_document_status job_id st p log)
                             (fun _ => Main.get_document_status job_id user)) (calm w))).
  { destruct (run_quiet (bind (Main.update_document_status job_id st p log)
                           (fun _ => Main.get_document_status job_id user)) w Hq)
      as (R & _). rewrite <- R, run_bind, main_update_returns. reflexivity. }
  rewrite Ha, Hm. clear Ha Hm.
  rewrite !run_bind, api_update_run, main_update_run. cbn [fst snd].
  rewrite !exec_update_calm. cbn [snd].
  split.
  - erewrite api_status_found
      by (rewrite exec_select_calm, select_update_rows, Hsel; reflexivity).
    unfold api_status_of, progress_shown, error_shown, log_or_empty, api_update_data.
    cbn [apply_update status processing_log u_status u_processing_log].
    destruct p as [n|]; cbn [or_else]; [|reflexivity].
    rewrite (or_empty_default (Some _)). cbn [default id]. unfold dict_get.
    rewrite lookup_insert_eq, lookup_insert_ne by discriminate. reflexivity.
  - erewrite main_status_found
      by (rewrite exec_select_calm, select_update_rows, Hsel; reflexivity).
    unfold main_status_of, progress_shown, error_shown, log_or_empty, main_update_data.
    cbn [apply_update status processing_log u_status u_processing_log].
    destruct p as [n|]; cbn [or_else]; [|reflexivity].
    rewrite (or_empty_default (Some _)). cbn [default id]. unfold dict_get.
    rewrite lookup_insert_eq, lookup_insert_ne by discriminate. reflexivity.
Qed.

Lemma status_reads_back_witness :
  let api :=
    snd (run (Api.update_document_status "job-1" "failed" (Some 0)
                (Some {["error" := VStr "File upload failed"]}) None None) draft_world) in
  let main :=
    snd (run (Main.update_document_status "job-1" "failed" None
                (Some {["error" := VStr "File upload failed"]})) draft_world) in
  fst (run (Api.get_document_status "job-1" alice) api)
  = Ok {| ds_success := true; ds_job_id := "job-1"; ds_status := "failed";
          ds_progress := VInt 0; ds_result_url := None;
          ds_error := VStr "File upload failed" |}
  /\ fst (run (Main.get_document_status "job-1" alice) main)
     = Ok {| ds_success := true; ds_job_id := "job-1"; ds_status := "failed";
             ds_progress := VInt 0; ds_result_url := None; ds_error := VNone |}.
Proof.
  cbv zeta. split.
  - destruct (status_reads_back_the_update "job-1" "failed" (Some 0)
                (Some {["error" := VStr "File upload failed"]}) None None alice draft_world
                (sample_row "draft" None None) []) as [Ha _];
      [constructor | reflexivity | eexists; reflexivity
      | right; eexists; vm_compute; reflexivity |].
    etransitivity; [exact Ha|]. vm_compute. reflexivity.
  - destruct (status_reads_back_the_update "job-1" "failed" None
                (Some {["error" := VStr "File upload failed"]}) None None alice draft_world
                (sample_row "draft" None None) []) as [_ Hm];
      [constructor | reflexivity | eexists; reflexivity | left; reflexivity |].
    exact Hm.
Defined.

(** * Signing an upload *)

Lemma signed_url_read_only (filename user : string) :
  all_cmds read_only (Api.generate_signed_upload_url filename user)
  /\ all_cmds read_only (Main.generate_signed_upload_url filename user).
Proof.
  split; unfold Api.generate_signed_upload_url, Main.generate_signed_upload_url;
    all_cmds_auto; exact I.
Qed.

Ltac crunch_signing :=
  repeat (progress (rewrite ?run_await, ?calls_await;
                    cbn [exec remote normal fst snd run calls app signings omap
                           signed_of negb])).

(** [generate_signed_upload_url] of api.py, whatever the storage
    answers: it asks for one signature, for a path under the caller's
    folder made of the time, a fresh uuid and the extension of the file
    name; when it returns, the upload URL is not empty and the headers are
    the two the client needs; when it fails, by a fault of the storage or
    an answer without URL, it raises 500 with a detail that starts with
    "Failed to generate upload URL: "; and it writes nothing. *)
Theorem signed_upload_url_outcomes (filename user : string) (w : World) :
  let p := Api.generate_signed_upload_url filename user in
  match fst (run p w) with
  | Ok info =>
      file_path info = upload_path_in filename user w
      /\ Str.truthy (upload_url info) = true
      /\ upload_headers info = upload_headers_in w
  | Err e => exists msg, e = HTTPException 500 ("Failed to generate upload URL: " +:+ msg)
  end
  /\ signings (calls p w) = [upload_path_in filename user w]
  /\ changes_nothing p w.
Proof.
  cbv zeta.
  destruct (signed_url_read_only filename user) as [Hro _].
  assert (G : match fst (run (Api.generate_signed_upload_url filename user) w) with
              | Ok info =>
                  file_path info = upload_path_in filename user w
                  /\ Str.truthy (upload_url info) = true
                  /\ upload_headers info = upload_headers_in w
              | Err e =>
                  exists msg,
                    e = HTTPException 500 ("Failed to generate upload URL: " +:+ msg)
              end
              /\ signings (calls (Api.generate_signed_upload_url filename user) w)
                 = [upload_path_in filename user w]);
    [|destruct G; repeat split; try assumption; apply read_only_run; exact Hro].
  clear Hro. unfold Api.generate_signed_upload_url, upload_path_in, upload_headers_in.
  rewrite run_try_except, calls_try_except.
  do 2 (rewrite run_await, calls_await; cbn [exec remote normal fst snd]).
  rewrite run_await, calls_await.
  match goal with
  | |- context [exec ?c ?v] =>
      pose proof (exec_env c v) as He; destruct (exec c v) as [[resp|e] w2]
  end; cbn [fst snd env set_uuid_next] in *.
  - assert (S : forall (signed_url : option string) (token : string),
               opt_str_truthy signed_url = true ->
               Str.truthy (default "" signed_url) = true).
    { intros [s|] _ H; [exact H|discriminate H]. }
    destruct resp as [d|truth repr].
    + destruct (opt_str_truthy
                  (str_or (str_or (d !! "signedURL") (d !! "signed_url")) (d !! "url")))
        eqn:E; crunch_signing.
      * rewrite He. split; [|reflexivity]. split; [reflexivity|].
        split; [apply S; [exact ""|exact E]|reflexivity].
      * split; [eexists; reflexivity|reflexivity].
    + destruct truth; crunch_signing.
      * destruct repr as [|c r]; cbn [opt_str_truthy Str.truthy]; crunch_signing.
        -- split; [eexists; reflexivity|reflexivity].
        -- rewrite He. split; [|reflexivity]. repeat split; reflexivity.
      * split; [eexists; reflexivity|reflexivity].
  - crunch_signing. split; [eexists; reflexivity|reflexivity].
Qed.

Lemma exec_now (w : World) : exec Now w = (Ok (clock w), w).
Proof. reflexivity. Qed.
Lemma exec_uuid4 (w : World) :
  exec Uuid4 w = (Ok (uuids (env w) (uuid_next w)), set_uuid_next (S (uuid_next w)) w).
Proof. reflexivity. Qed.
Lemma exec_getenv (name : string) (w : World) :
  exec (GetEnv name) w = (Ok (environ (env w) !! name), w).
Proof. reflexivity. Qed.
Lemma exec_log (level : Level) (msg : string) (w : World) :
  exec (Log level msg) w = (Ok tt, w).
Proof. reflexivity. Qed.

Ltac unwind :=
  repeat (rewrite ?run_try_except, ?calls_try_except, ?run_bind, ?calls_bind,
            ?run_call, ?calls_call, ?exec_now, ?exec_uuid4, ?exec_getenv, ?exec_log;
          cbn [fst snd run calls app]).

Ltac split_signing :=
  match goal with
  | |- context [exec (CreateSignedUploadUrl ?p) ?v] =>
      let He := fresh "Henv" in
      pose proof (exec_env (CreateSignedUploadUrl p) v) as He;
      destruct (exec (CreateSignedUploadUrl p) v) as [[?resp|?err] ?w2];
      cbn [fst snd env set_uuid_next] in *
  | |- context [Main.parse_signed ?r] =>
      destruct (Main.parse_signed r) as [[[|? ?]|] ?];
      cbn [opt_str_truthy Str.truthy negb default]
  end.

(** [generate_signed_upload_url] of main.py asks the storage a second
    time when the first attempt fails: it makes one or two signing calls,
    for the same path, and writes nothing.  One fault of the storage is
    absorbed: when the first call raises and the second is answered with
    a URL, the helper returns that URL, where the helper of api.py raises
    500.  When both calls raise, the detail names both exceptions. *)
Theorem signing_is_retried_once (filename user : string) (w : World) :
  let p := Main.generate_signed_upload_url filename user in
  let path := upload_path_in filename user w in
  (exists n, (1 <= n <= 2)%nat /\ signings (calls p w) = replicate n path)
  /\ changes_nothing p w
  /\ (forall e rest url,
         oracle w = Some e :: rest ->
         pending_fault (set_oracle rest w) = None ->
         fst (Main.parse_signed (signer (env w) path)) = Some url ->
         Str.truthy url = true ->
         fst (run p w)
         = Ok {| upload_url := url;
                 file_path := path;
                 upload_token := snd (Main.parse_signed (signer (env w) path));
                 upload_headers := upload_headers_in w |}
         /\ signings (calls p w) = [path; path]
         /\ fst (run (Api.generate_signed_upload_url filename user) w)
            = Err (HTTPException 500 ("Failed to generate upload URL: " +:+ str_exn e)))
  /\ (forall e1 e2 rest,
         oracle w = Some e1 :: Some e2 :: rest ->
         fst (run p w)
         = Err (HTTPException 500
                  ("Failed to generate upload URL: Both storage methods failed: "
                     +:+ str_exn e1 +:+ " | " +:+ str_exn e2))).
Proof.
  cbv zeta. split; [|split; [apply read_only_run, signed_url_read_only|split]].
  - unfold Main.generate_signed_upload_url, upload_path_in. cbv zeta.
    repeat (unwind; try split_signing);
      cbn [signings omap signed_of];
      first [ exists 1%nat; split; [lia|reflexivity]
            | exists 2%nat; split; [lia|reflexivity] ].
  - intros e rest url Ho Hp Hurl Ht.
    unfold Main.generate_signed_upload_url, Api.generate_signed_upload_url,
      upload_path_in, upload_headers_in in *. cbv zeta.
    unwind.
    set (path := "documents/" +:+ _) in *. clearbody path.
    assert (E1 : exec (CreateSignedUploadUrl path) (set_uuid_next (S (uuid_next w)) w)
                 = (Err e, set_oracle rest (set_uuid_next (S (uuid_next w)) w))).
    { cbn [exec remote oracle set_uuid_next]. rewrite Ho. reflexivity. }
    rewrite !E1. unwind.
    assert (E2 : exec (CreateSignedUploadUrl path)
                   (set_oracle rest (set_uuid_next (S (uuid_next w)) w))
                 = (Ok (signer (env w) path),
                    set_oracle (tail rest) (set_uuid_next (S (uuid_next w)) w))).
    { cbn [exec remote oracle set_oracle set_uuid_next].
      unfold pending_fault in Hp. cbn [oracle set_oracle] in Hp.
      destruct rest as [|[e0|] rest0]; [reflexivity|discriminate Hp|reflexivity]. }
    rewrite !E2. unwind.
    destruct (Main.parse_signed (signer (env w) path)) as [signed_url token].
    cbn [fst snd] in Hurl |- *. subst signed_url.
    cbn [opt_str_truthy default]. rewrite Ht. cbn [negb]. unwind.
    repeat split; reflexivity.
  - intros e1 e2 rest Ho.
    unfold Main.generate_signed_upload_url, upload_path_in. cbv zeta.
    unwind.
    set (path := "documents/" +:+ _). clearbody path.
    assert (E1 : exec (CreateSignedUploadUrl path) (set_uuid_next (S (uuid_next w)) w)
                 = (Err e1, set_oracle (Some e2 :: rest)
                              (set_uuid_next (S (uuid_next w)) w))).
    { cbn [exec remote oracle set_uuid_next]. rewrite Ho. reflexivity. }
    rewrite !E1. unwind.
    assert (E2 : exec (CreateSignedUploadUrl path)
                   (set_oracle (Some e2 :: rest) (set_uuid_next (S (uuid_next w)) w))
                 = (Err e2, set_oracle rest (set_uuid_next (S (uuid_next w)) w)))
      by reflexivity.
    rewrite !E2. unwind. reflexivity.
Qed.

Lemma signing_retry_witness :
  let p := Main.generate_signed_upload_url "thesis.docx" "alice" in
  fst (run p flaky_storage_world)
  = Ok {| upload_url := "https://storage.example/documents/alice/1000_uuid-0.docx";
          file_path := "documents/alice/1000_uuid-0.docx";
          upload_token := "";
          upload_headers := [("Authorization", "Bearer "); ("x-upsert", "true")] |}
  /\ signings (calls p flaky_storage_world)
     = ["documents/alice/1000_uuid-0.docx"; "documents/alice/1000_uuid-0.docx"]
  /\ fst (run (Api.generate_signed_upload_url "thesis.docx" "alice") flaky_storage_world)
     = Err (HTTPException 500 "Failed to generate upload URL: connection reset").
Proof.
  pose proof (signing_is_retried_once "thesis.docx" "alice" flaky_storage_world) as H.
  cbv zeta in H. destruct H as (_ & _ & H & _).
  apply (H (Exception "connection reset") []
           "https://storage.example/documents/alice/1000_uuid-0.docx");
    vm_compute; reflexivity.
Defined.

(** * Creating a record *)

Lemma documents_quiet {A} (p : Prog A) (w : World) :
  quiet w -> documents (snd (run p w)) = documents (snd (run p (calm w))).
Proof.
  intros Hq. destruct (run_quiet p w Hq) as (_ & R & _). rewrite <- R. reflexivity.
Qed.

Lemma then_quiet {A B} (p : Prog A) (q : Prog B) (w : World) (a : A) :
  quiet w ->
  fst (run p (calm w)) = Ok a ->
  fst (run q (snd (run p w))) = fst (run q (snd (run p (calm w)))).
Proof.
  intros Hq Hp.
  destruct (run_quiet (bind p (fun _ => q)) w Hq) as (R & _).
  destruct (run_quiet p w Hq) as (Rp & _).
  rewrite !run_bind in R. rewrite Rp, Hp in R. exact R.
Qed.

Lemma select_rows_app (job_id uid : string) (t1 t2 : list Document) :
  select_rows job_id uid (t1 ++ t2)
  = (select_rows job_id uid t1 ++ select_rows job_id uid t2)%list.
Proof. apply List.filter_app. Qed.

Lemma select_new_row (job_id uid : string) (d : Document) :
  id_ d = job_id -> user_id d = uid -> select_rows job_id uid [d] = [d].
Proof.
  intros <- <-. unfold select_rows, has_id, owned_by. cbn [List.filter].
  rewrite !String.eqb_refl. reflexivity.
Qed.

(** [create_document_record] followed by a status request, when no
    collaborator call fails and the job id is new for the user: the
    helper returns the job id, the table has one more row, a draft with
    the columns it was given and no log and no result location, and the
    owner reads back status [draft], progress 0 and no error.  The helper
    of main.py does the same for a size it accepts, and also records the
    file type. *)
Theorem created_record_reads_back_as_draft
    (uid filename path job_id style variant : string) (options : dict)
    (size : option Z) (email : option string) (w : World) :
  quiet w ->
  select_rows job_id uid (documents w) = [] ->
  let user := mkUser uid email in
  let api :=
    Api.create_document_record uid filename path job_id style variant options size in
  let main :=
    Main.create_document_record uid filename path job_id style variant options size in
  (fst (run api w) = Ok job_id
   /\ (exists row,
          documents (snd (run api w)) = (documents w ++ [row])%list
          /\ columns_of row
             = draft_columns uid filename path job_id style variant options size)
   /\ fst (run (Api.get_document_status job_id user) (snd (run api w)))
      = Ok (draft_status job_id))
  /\ (size_accepted size ->
      fst (run main w) = Ok job_id
      /\ (exists row,
             documents (snd (run main w)) = (documents w ++ [row])%list
             /\ columns_of row
                = draft_columns uid filename path job_id style variant options size
             /\ file_type row = Some (extension_of filename))
      /\ fst (run (Main.get_document_status job_id user) (snd (run main w)))
         = Ok (draft_status job_id)).
Proof.
  intros Hq Hsel. cbv zeta. split.
  - assert (E : run (Api.create_document_record uid filename path job_id style variant
                       options size) (calm w)
                = (Ok job_id,
                   set_documents
                     (documents w
                        ++ [mkDocument job_id uid filename filename "draft" style variant
                              (Some path) (Some options)
                              (Some (dict_get options "trackedChanges" (VBool false)))
                              None size None None None None (clock w) (clock w)])
                     (calm w))) by reflexivity.
    destruct (run_quiet (Api.create_document_record uid filename path job_id style
                           variant options size) w Hq) as (R & _).
    rewrite R, E. split; [reflexivity|]. split.
    + eexists. rewrite documents_quiet, E by exact Hq. split; reflexivity.
    + erewrite then_quiet; [|exact Hq|rewrite E; reflexivity].
      rewrite E. cbn [snd].
      erewrite api_status_found
        by (cbn [u_user_id];
            rewrite exec_select_calm, select_rows_app, Hsel, select_new_row; reflexivity).
      reflexivity.
  - intros Hs.
    assert (E : run (Main.create_document_record uid filename path job_id style variant
                       options size) (calm w)
                = (Ok job_id,
                   set_documents
                     (documents w
                        ++ [mkDocument job_id uid filename filename "draft" style variant
                              (Some path) (Some options)
                              (Some (dict_get options "trackedChanges" (VBool false)))
                              (Some (extension_of filename)) size None None None None
                              (clock w) (clock w)])
                     (calm w))).
    { unfold Main.create_document_record.
      destruct size as [n|]; cbn [size_accepted] in Hs.
      - assert (E1 : (n <? 0) = false) by lia.
        assert (E2 : (Main.max_file_size <? n) = false) by lia.
        rewrite run_try_except, !run_await. cbn [exec remote normal fst snd].
        rewrite !run_await. cbn [exec remote normal fst snd].
        rewrite run_bind, E1, E2. reflexivity.
      - reflexivity. }
    destruct (run_quiet (Main.create_document_record uid filename path job_id style
                           variant options size) w Hq) as (R & _).
    rewrite R, E. split; [reflexivity|]. split.
    + eexists. rewrite documents_quiet, E by exact Hq. repeat split; reflexivity.
    + erewrite then_quiet; [|exact Hq|rewrite E; reflexivity].
      rewrite E. cbn [snd].
      erewrite main_status_found
        by (cbn [u_user_id];
            rewrite exec_select_calm, select_rows_app, Hsel, select_new_row; reflexivity).
      reflexivity.
Qed.

Lemma created_record_witness :
  let api :=
    Api.create_document_record "alice" "thesis.docx" sample_path "job-2" "apa" "us"
      {["trackedChanges" := VBool true]} (Some 500000) in
  let main :=
    Main.create_document_record "alice" "thesis.docx" sample_path "job-2" "apa" "us"
      {["trackedChanges" := VBool true]} (Some 500000) in
  fst (run (Api.get_document_status "job-2" alice) (snd (run api draft_world)))
  = Ok (draft_status "job-2")
  /\ fst (run (Main.get_document_status "job-2" alice) (snd (run main draft_world)))
     = Ok (draft_status "job-2").
Proof.
  pose proof (created_record_reads_back_as_draft "alice" "thesis.docx" sample_path
                "job-2" "apa" "us" {["trackedChanges" := VBool true]} (Some 500000)
                None draft_world) as H.
  cbv zeta in H. destruct H as [(_ & _ & Ha) Hm]; [constructor|reflexivity|].
  split; [exact Ha|].
  destruct Hm as (_ & _ & Hm); [|exact Hm].
  cbn [size_accepted]. unfold Main.max_file_size. lia.
Defined.

(** * The size check inside the record helper of main.py *)

(** [create_document_record] of main.py checks the size inside its own
    [try]: the 400 it raises for a negative or too large size is caught
    by its [except Exception] and leaves the helper as a 500 whose detail
    quotes the 400; nothing is inserted. *)
Theorem record_helper_turns_its_400_into_500
    (uid filename path job_id style variant : string) (options : dict) (n : Z)
    (w : World) :
  let p :=
    Main.create_document_record uid filename path job_id style variant options (Some n) in
  (n < 0 ->
   fst (run p w)
   = Err (HTTPException 500
            "Failed to create document record: 400: File size must be non-negative")
   /\ inserted (calls p w) = []
   /\ documents (snd (run p w)) = documents w)
  /\ (Main.max_file_size < n ->
      fst (run p w)
      = Err (HTTPException 500
               "Failed to create document record: 400: File size exceeds maximum limit of 100MB")
      /\ inserted (calls p w) = []
      /\ documents (snd (run p w)) = documents w).
Proof.
  cbv zeta. unfold Main.create_document_record.
  rewrite run_try_except, calls_try_except.
  do 2 (rewrite run_await, calls_await; cbn [exec remote normal fst snd]).
  rewrite run_bind, calls_bind.
  split; intros Hn.
  - assert (E1 : (n <? 0) = true) by lia. rewrite E1.
    cbn [run calls fst snd app]. rewrite run_await, calls_await.
    cbn [exec remote normal fst snd run calls app inserted omap insert_of].
    repeat split; reflexivity.
  - assert (E1 : (n <? 0) = false) by (unfold Main.max_file_size in Hn; lia).
    assert (E2 : (Main.max_file_size <? n) = true) by lia. rewrite E1, E2.
    cbn [run calls fst snd app]. rewrite run_await, calls_await.
    cbn [exec remote normal fst snd run calls app inserted omap insert_of].
    repeat split; reflexivity.
Qed.

Lemma record_helper_witness :
  let p := Main.create_document_record "alice" "thesis.docx" sample_path "job-2" "apa" "us"
             ∅ (Some (-1)) in
  fst (run p empty_world)
  = Err (HTTPException 500
           "Failed to create document record: 400: File size must be non-negative")
  /\ inserted (calls p empty_world) = []
  /\ documents (snd (run p empty_world)) = documents empty_world.
Proof.
  pose proof (record_helper_turns_its_400_into_500 "alice" "thesis.docx" sample_path
                "job-2" "apa" "us" ∅ (-1) empty_world) as H.
  cbv zeta in H. destruct H as [H _]. apply H. lia.
Defined.

(** * The legacy request of api.py *)

Lemma exec_create_task (t : Task) (w : World) : exec (CreateTask t) w = (Ok tt, w).
Proof. reflexivity. Qed.
Lemma exec_b64decode (content : string) (w : World) :
  exec (B64Decode content) w = (b64decode (env w) content, w).
Proof. reflexivity. Qed.

(** Follow a handler through every outcome of its remote calls. *)
Ltac walk :=
  repeat first
    [ progress (rewrite ?run_try_except, ?calls_try_except, ?run_bind, ?calls_bind,
                  ?run_call, ?calls_call, ?exec_now, ?exec_uuid4, ?exec_getenv, ?exec_log,
                  ?exec_create_task, ?exec_b64decode;
                cbn [fst snd run calls app])
    | match goal with
      | |- context [exec ?c ?v] =>
          let He := fresh "Henv" in
          pose proof (exec_env c v) as He;
          try (let Hb := fresh "Hbucket" in pose proof (exec_bucket c v eq_refl) as Hb);
          try (let Hd := fresh "Hdocs" in pose proof (exec_documents c v eq_refl) as Hd);
          destruct (exec c v) as [[?x|?err] ?w']; cbn [fst snd] in *
      | |- context [b64decode ?e ?c] =>
          destruct (b64decode e c) as [?bytes|?err]; cbn [fst snd] in *
      end ].

(** [process_document] of api.py, when it answers: the job id is a fresh
    uuid and one draft is inserted, stored under
    "legacy/<user>/<job>.docx", with no size.  With content, the answer says
    [processing] (the row says [draft]) and one real task is created for
    that path, also when the upload of the content failed, which is only
    logged; without content the answer says [draft], no task is created
    and the bucket is not touched. *)
Theorem legacy_process_outcomes
    (request : ProcessDocumentRequest) (user : User) (w : World)
    (r : ProcessDocumentResponse) :
  let p := Api.process_document request user in
  fst (run p w) = Ok r ->
  let uid := u_user_id user in
  pd_job_id r = uuids (env w) (uuid_next w)
  /\ (exists row,
         inserted (calls p w) = [row]
         /\ columns_of row
            = draft_columns uid (pr_filename request) (legacy_path uid (pd_job_id r))
                (pd_job_id r) (pr_style request) (pr_englishVariant request)
                {["trackedChanges" := VBool (pr_trackedChanges request)]} None)
  /\ if Str.truthy (pr_content request)
     then pd_status r = "processing"
          /\ tasks_created (calls p w) = [legacy_task request uid (pd_job_id r)]
     else pd_status r = "draft"
          /\ tasks_created (calls p w) = []
          /\ bucket (snd (run p w)) = bucket w.
Proof.
  cbv zeta.
  unfold Api.process_document, Api.create_document_record, legacy_task, legacy_path.
  destruct (Str.truthy (pr_content request)); walk;
    first
      [ discriminate
      | intros [= <-]; cbn [pd_job_id pd_status inserted tasks_created omap insert_of task_of];
        split; [reflexivity|]; split; [eexists; split; reflexivity|];
        first [ split; reflexivity
              | split; [reflexivity|split; [reflexivity|assumption]] ] ].
Qed.

Lemma legacy_process_witness :
  let p := Api.process_document (legacy_request "Zm9v") alice in
  fst (run p refusing_storage_world)
  = Ok {| pd_success := true; pd_job_id := "uuid-0"; pd_status := "processing";
          pd_message := "Document queued for apa formatting" |}
  /\ bucket (snd (run p refusing_storage_world)) !! legacy_path "alice" "uuid-0" = None
  /\ status <$> documents (snd (run p refusing_storage_world)) = ["draft"]
  /\ tasks_created (calls p refusing_storage_world)
     = [legacy_task (legacy_request "Zm9v") "alice" "uuid-0"].
Proof.
  cbv zeta.
  assert (E : fst (run (Api.process_document (legacy_request "Zm9v") alice)
                     refusing_storage_world)
              = Ok {| pd_success := true; pd_job_id := "uuid-0"; pd_status := "processing";
                      pd_message := "Document queued for apa formatting" |})
    by (vm_compute; reflexivity).
  split; [exact E|]. split; [vm_compute; reflexivity|]. split; [vm_compute; reflexivity|].
  pose proof (legacy_process_outcomes _ _ _ _ E) as H. cbv zeta in H.
  destruct H as (_ & _ & _ & H). exact H.
Defined.

(** * One outcome per run *)

Lemma task_returns (job_id file_path style ev : string) (options : dict) (uid : string)
    (w : World) :
  fst (run (Api.process_document_task job_id file_path style ev options uid) w) = Ok tt.
Proof.
  unfold Api.process_document_task. rewrite run_await. cbn [exec remote normal fst snd].
  rewrite run_try_finally, run_call. cbn [exec remote normal fst snd].
  rewrite run_try_except.
  destruct (fst (run (Api.pipeline_steps job_id file_path style) _)) as [[]|e];
    [reflexivity|]. apply pipeline_failed_returns.
Qed.




(** * Downloading what a run stored *)

Lemma bucket_quiet {A} (p : Prog A) (w : World) :
  quiet w -> bucket (snd (run p w)) = bucket (snd (run p (calm w))).
Proof.
  intros Hq. destruct (run_quiet p w Hq) as (_ & R & _). rewrite <- R. reflexivity.
Qed.

(** Run a program in a world without faults. *)
Ltac calmly :=
  repeat (progress
            (rewrite ?run_bind, ?run_call, ?api_update_run, ?run_try_except,
               ?run_try_finally;
             cbn [exec remote normal oracle documents bucket clock env temp_dirs
                    uuid_next jobs_storage set_documents set_bucket set_clock
                    set_temp_dirs set_uuid_next set_oracle calm fst snd run])).

Lemma task_in_calm (job_id file_path style ev : string) (options : dict) (uid : string)
    (w : World) (content : string) :
  bucket w !! Api.relative_path_of file_path = Some content ->
  let backend := default "huggingface" (environ (env w) !! "DEFAULT_BACKEND") in
  let output := engine (env w) style (Api.client_class backend) content in
  let t1 := (clock w + engine_time (env w) style (Api.client_class backend) content)%Q in
  let w' := snd (run (Api.process_document_task job_id file_path style ev options uid)
                   (calm w)) in
  oracle w' = []
  /\ bucket w' = <[Api.result_filename_of job_id := output]> (bucket w)
  /\ documents w'
     = List.fold_left (fun t ju => update_rows (snd ju) job_id t)
         (real_updates job_id backend (clock w) t1) (documents w).
Proof.
  intros Hb. cbv zeta. unfold Api.process_document_task, Api.pipeline_steps.
  calmly. rewrite Hb. calmly.
  split; [reflexivity|]. split; [reflexivity|].
  unfold real_updates, api_update_data. cbn [List.fold_left snd].
  rewrite !or_empty_default. reflexivity.
Qed.

Lemma api_download_in_calm (job_id : string) (user : User) (w : World) (d : Document)
    (rest : list Document) (res out : string) :
  oracle w = [] ->
  select_rows job_id (u_user_id user) (documents w) = d :: rest ->
  status d = "formatted" ->
  result_url d = Some res ->
  Str.truthy res = true ->
  bucket w !! res = Some out ->
  fst (run (Api.download_document job_id user) w) = Ok (api_download_of d out).
Proof.
  intros Ho Hsel Hst Hres Ht Hb. unfold Api.download_document.
  rewrite run_try_except, run_await. cbn [exec remote]. rewrite Ho.
  cbn [normal fst snd]. rewrite Hsel, Hst, Hres. cbn [is_formatted String.eqb Ascii.eqb
    Bool.eqb negb opt_str_truthy default]. rewrite Ht. cbn [negb].
  rewrite run_await. cbn [exec remote]. rewrite Ho. cbn [normal id]. rewrite Hb.
  reflexivity.
Qed.

(** A real run that meets no fault, then a download and a status request
    by the owner: the run stores the formatter's output under
    "formatted/<job>.docx", the download returns that output, base64
    encoded, under the name "formatted_<filename>", without tracked-changes
    payload, and the status read is [formatted] with progress 100 and no
    error. *)
Theorem download_returns_what_the_run_stored
    (job_id file_path style ev : string) (options : dict) (user : User) (w : World)
    (doc : Document) (rest : list Document) (content : string) :
  quiet w ->
  select_rows job_id (u_user_id user) (documents w) = doc :: rest ->
  bucket w !! Api.relative_path_of file_path = Some content ->
  let backend := default "huggingface" (environ (env w) !! "DEFAULT_BACKEND") in
  let output := engine (env w) style (Api.client_class backend) content in
  let w' := snd (run (Api.process_document_task job_id file_path style ev options
                        (u_user_id user)) w) in
  bucket w' !! Api.result_filename_of job_id = Some output
  /\ fst (run (Api.download_document job_id user) w') = Ok (api_download_of doc output)
  /\ fst (run (Api.get_document_status job_id user) w')
     = Ok (formatted_status job_id None).
Proof.
  intros Hq Hsel Hb. cbv zeta.
  destruct (task_in_calm job_id file_path style ev options (u_user_id user) w content Hb)
    as (Ho & Hbucket & Hdocs). cbv zeta in *.
  set (task := Api.process_document_task job_id file_path style ev options
                 (u_user_id user)) in *.
  rewrite (bucket_quiet task w Hq).
  rewrite (then_quiet task (Api.download_document job_id user) w tt Hq
             (task_returns _ _ _ _ _ _ _)).
  rewrite (then_quiet task (Api.get_document_status job_id user) w tt Hq
             (task_returns _ _ _ _ _ _ _)).
  set (w' := snd (run task (calm w))) in *. clearbody w'. clear task.
  assert (Hrow : exists d rest',
             select_rows job_id (u_user_id user) (documents w') = d :: rest'
             /\ status d = "formatted"
             /\ result_url d = Some (Api.result_filename_of job_id)
             /\ filename d = filename doc
             /\ style_applied d = style_applied doc
             /\ progress_shown d = VInt 100
             /\ error_shown d = VNone).
  { rewrite Hdocs. unfold real_updates. cbn [List.fold_left snd].
    rewrite !select_update_rows, Hsel. cbn [List.map].
    eexists _, _. split; [reflexivity|].
    repeat split; try reflexivity;
      unfold progress_shown, error_shown, log_or_empty;
      cbn [apply_update processing_log u_processing_log or_else];
      rewrite or_empty_default; cbn [default]; unfold dict_get;
      rewrite ?lookup_insert_eq, ?lookup_insert_ne, ?lookup_singleton_ne by discriminate;
      reflexivity. }
  destruct Hrow as (d & rest' & Hsel' & Hst & Hres & Hname & Hstyle & Hp & He).
  split; [|split].
  - rewrite Hbucket. apply lookup_insert_eq.
  - rewrite (api_download_in_calm job_id user w' d rest' (Api.result_filename_of job_id)
               (engine (env w) style
                  (Api.client_class
                     (default "huggingface" (environ (env w) !! "DEFAULT_BACKEND")))
                  content)); try assumption.
    + unfold api_download_of. rewrite Hname, Hstyle. reflexivity.
    + reflexivity.
    + rewrite Hbucket. apply lookup_insert_eq.
  - erewrite api_status_found.
    + unfold api_status_of, formatted_status. rewrite Hst, Hp, He. reflexivity.
    + cbn [exec remote]. rewrite Ho. cbn [normal fst]. rewrite Hsel'. reflexivity.
Qed.

Lemma download_after_run_witness :
  let w' := snd (run (Api.process_document_task "job-1" sample_path "apa" "us" ∅ "alice")
                   accepted_world) in
  bucket w' !! "formatted/job-1.docx" = Some "formatted:raw"
  /\ fst (run (Api.download_document "job-1" alice) w')
     = Ok (api_download_of (sample_row "processing" (Some {["progress" := VInt 0]}) None)
             "formatted:raw")
  /\ fst (run (Api.get_document_status "job-1" alice) w')
     = Ok (formatted_status "job-1" None).
Proof.
  apply (download_returns_what_the_run_stored "job-1" sample_path "apa" "us" ∅ alice
           accepted_world (sample_row "processing" (Some {["progress" := VInt 0]}) None)
           [] "raw");
    [constructor | reflexivity | reflexivity].
Defined.

(** * Row invariants of a service *)

Section Invariant.

Context {R : Type}.
Variable handler : R -> Thread.
Variable Inv : Document -> Prop.
Variable tasks : Task -> Prop.

Hypothesis handlers_keep :
  forall r, match handler r with Running p => all_cmds (keeps Inv tasks) p end.
Hypothesis tasks_keep : forall t, tasks t -> all_cmds (keeps Inv tasks) (task_body t).

Lemma exec_keeps {X} (c : Cmd X) (w : World) :
  keeps Inv tasks X c -> Forall Inv (documents w) -> Forall Inv (documents (snd (exec c w))).
Proof.
  intros Hc Hw.
  assert (N : forall v, documents v = documents w ->
                        Forall Inv (documents (snd (normal c v)))).
  { intros v Hv. destruct c; simpl; rewrite ?Hv; try exact Hw.
    - apply Forall_app. split; [exact Hw|]. constructor; [exact Hc|constructor].
    - unfold update_rows. apply Forall_map.
      eapply Forall_impl; [exact Hw|]. intros d0 Hd0. simpl.
      destruct (has_id job_id d0) eqn:E; [|exact Hd0].
      apply Hc; [exact Hd0|]. apply String.eqb_eq. exact E.
    - unfold delete_rows. apply Forall_kept. exact Hw.
    - destruct (bucket v !! path); simpl; rewrite ?Hv; exact Hw. }
  unfold exec. destruct (remote c); [|apply N; reflexivity].
  destruct (oracle w) as [|[e|] rest]; [apply N; reflexivity| exact Hw |].
  apply N. reflexivity.
Qed.

Lemma loop_step_keeps (s s' : World * list Thread) :
  loop_step handler s s' ->
  Forall Inv (documents (fst s)) /\ Forall (thread_keeps Inv tasks) (snd s) ->
  Forall Inv (documents (fst s')) /\ Forall (thread_keeps Inv tasks) (snd s').
Proof.
  intros Hstep [Hrows Hpool].
  destruct Hstep as [r w pool|path content w pool|A X c k w before after faults rw
                    |A a w before after|A e w before after];
    cbn [fst snd] in *.
  - split; [exact Hrows|]. apply Forall_app. split; [exact Hpool|].
    constructor; [|constructor]. specialize (handlers_keep r).
    destruct (handler r). exact handlers_keep.
  - split; assumption.
  - apply Forall_app in Hpool. destruct Hpool as [Hb Ha].
    apply Forall_cons in Ha. destruct Ha as [[Hc Hk] Ha].
    split.
    + subst rw. apply exec_keeps; assumption.
    + apply Forall_app. split; [exact Hb|]. constructor; [apply Hk|].
      apply Forall_app. split; [exact Ha|].
      destruct c; cbn [spawned]; try constructor.
      * apply tasks_keep. exact Hc.
      * constructor.
  - split; [exact Hrows|].
    apply Forall_app in Hpool. destruct Hpool as [Hb Ha].
    apply Forall_cons in Ha. destruct Ha as [_ Ha].
    apply Forall_app. split; assumption.
  - split; [exact Hrows|].
    apply Forall_app in Hpool. destruct Hpool as [Hb Ha].
    apply Forall_cons in Ha. destruct Ha as [_ Ha].
    apply Forall_app. split; assumption.
Qed.

Lemma loop_invariant (w : World) (pool : list Thread) :
  loop_reachable handler (w, pool) -> Forall Inv (documents w).
Proof.
  intros Hreach.
  assert (G : Forall Inv (documents (fst (w, pool)))
              /\ Forall (thread_keeps Inv tasks) (snd (w, pool))).
  { induction Hreach as [w0 Hw0|s s' Hs IH Hstep].
    - cbn [fst snd]. rewrite Hw0. split; constructor.
    - eapply loop_step_keeps; eassumption. }
  exact (proj1 G).
Qed.

End Invariant.

Lemma api_reachable_loop (s : World * list Thread) :
  api_reachable s -> loop_reachable api_handler s.
Proof.
  induction 1 as [w Hw|s s' Hs IH Hstep]; [constructor; exact Hw|].
  eapply loop_next; [exact IH|].
  destruct Hstep; constructor.
Qed.

(** ** Return values *)

Lemma all_cmds_bind_returns {A B} (P : forall X, Cmd X -> Prop) (Q : A -> Prop)
    (p : Prog A) (f : A -> Prog B) :
  all_cmds P p -> returns Q p -> (forall a, Q a -> all_cmds P (f a)) ->
  all_cmds P (bind p f).
Proof.
  intros Hp Hq Hf. induction p as [a|e|X c k IH]; simpl in *; auto.
  destruct Hp as [Hc Hk]. split; auto.
Qed.

Lemma returns_bind {A B} (Q : B -> Prop) (p : Prog A) (f : A -> Prog B) :
  (forall a, returns Q (f a)) -> returns Q (bind p f).
Proof. intros Hf. induction p as [a|e|X c k IH]; simpl; auto. Qed.

Lemma returns_try_except {A} (Q : A -> Prop) (p : Prog A) (h : exn -> Prog A) :
  returns Q p -> (forall e, returns Q (h e)) -> returns Q (try_except p h).
Proof. intros Hp Hh. induction p as [a|e|X c k IH]; simpl in *; auto. Qed.

Lemma returns_call {X} (Q : X -> Prop) (c : Cmd X) : (forall x, Q x) -> returns Q (call c).
Proof. intros H [x|e]; simpl; auto. Qed.

Ltac returns_auto :=
  repeat lazymatch goal with
    | |- returns _ (try_except _ _) => apply returns_try_except; [|intros]
    | |- returns _ (bind _ _) => apply returns_bind; intros
    | |- returns _ (Ret _) => cbn [returns]
    | |- returns _ (Raise _) => exact I
    | |- returns _ (match ?x with _ => _ end) => destruct x
    end.

(** ** The helper of api.py, with all it sends *)

Lemma all_cmds_api_update_full (P : forall X, Cmd X -> Prop) (job_id st : string)
    (p : option Z) (log : option dict) (url : option string) (time : option Q) :
  P _ Now ->
  (forall level msg, P _ (Log level msg)) ->
  (forall u,
      u_status u = st ->
      u_processing_log u = u_processing_log (api_update_data st p log url time 0) ->
      u_result_url u = u_result_url (api_update_data st p log url time 0) ->
      (is_formatted st = true -> is_Some (u_processed_at u) /\ u_formatting_time u = time) ->
      P _ (DbUpdate u job_id)) ->
  all_cmds P (Api.update_document_status job_id st p log url time).
Proof.
  intros Hn Hl Hu. unfold Api.update_document_status, api_update_data in *.
  destruct (is_formatted st); simpl;
    repeat match goal with
      | |- _ /\ _ => split
      | |- forall r : result _, _ => intros [?|?]; simpl
      | |- True => exact I
      | |- P _ Now => exact Hn
      | |- P _ (Log _ _) => apply Hl
      | |- P _ (DbUpdate _ _) =>
          apply Hu; try reflexivity; intros H;
          first [discriminate H | split; [eexists; reflexivity|reflexivity]]
      end.
Qed.

(** ** The shape of the rows of api.py *)

Ltac in_list := repeat first [apply list_elem_of_here | apply list_elem_of_further].

Ltac shape_conditions :=
  match goal with
  | |- status_known _ => unfold status_known; repeat (first [left; reflexivity | right]);
                         reflexivity
  | |- _ <> _ => discriminate
  | |- _ ∈ _ => in_list
  | |- _ <-> _ => split; intros H; first [discriminate H | reflexivity]
  | |- _ -> _ => intros H; first [discriminate H | eexists; reflexivity | reflexivity]
  | |- _ \/ _ => first [left; reflexivity | right; reflexivity]
  | |- _ = _ => reflexivity
  end.

Lemma is_formatted_true (st : string) : st = "formatted" -> is_formatted st = true.
Proof. intros ->. reflexivity. Qed.

Lemma api_update_keeps_shape (job_id st : string) (n : Z) (log : option dict)
    (url : option string) (time : option Q) :
  status_known st ->
  st <> "draft" ->
  n ∈ [0; 10; 30; 90; 100] ->
  (n = 100 <-> st = "formatted") ->
  (st = "formatted" -> is_Some time) ->
  all_cmds (keeps api_row_shape real_task)
    (Api.update_document_status job_id st (Some n) log url time).
Proof.
  intros Hk Hd Hn H100 Ht.
  apply all_cmds_api_update_full; [exact I | intros; exact I |].
  intros u Hs Hl _ Hf d Hsh _. unfold api_row_shape in *.
  destruct Hsh as (_ & _ & _ & _ & _ & Hname).
  unfold progress_shown, log_or_empty.
  cbn [apply_update status processing_log original_filename filename processed_at
         formatting_time].
  rewrite Hs, Hl. cbn [api_update_data u_processing_log or_else].
  rewrite (or_empty_default (Some _)). cbn [default id]. unfold dict_get.
  rewrite lookup_insert_eq.
  split; [exact Hk|]. split; [eauto|].
  split; [split; [intros [= ->]; tauto | intros ->; f_equal; tauto]|].
  split; [intros Hx; contradiction|]. split; [|exact Hname].
  intros Hst. destruct (Hf (is_formatted_true _ Hst)) as [[t Hp] Hft].
  rewrite Hp, Hft. cbn [or_else]. split; [eexists; reflexivity|].
  destruct (Ht Hst) as [q ->]. eexists. reflexivity.
Qed.

Lemma create_record_keeps_shape (uid fname path job_id style variant : string)
    (options : dict) (size : option Z) :
  all_cmds (keeps api_row_shape real_task)
    (Api.create_document_record uid fname path job_id style variant options size).
Proof.
  unfold Api.create_document_record. all_cmds_auto; try exact I.
  cbn [keeps]. unfold api_row_shape, progress_shown, log_or_empty.
  cbn [status processing_log original_filename filename].
  split; [left; reflexivity|]. split; [exists 0; split; [reflexivity|in_list]|].
  split; [split; intros H; discriminate H|].
  split; [reflexivity|]. split; [intros H; discriminate H|reflexivity].
Qed.

Lemma signed_url_keeps_any (Inv : Document -> Prop) (tasks : Task -> Prop)
    (fname uid : string) :
  all_cmds (keeps Inv tasks) (Api.generate_signed_upload_url fname uid)
  /\ all_cmds (keeps Inv tasks) (Main.generate_signed_upload_url fname uid).
Proof.
  split; unfold Api.generate_signed_upload_url, Main.generate_signed_upload_url;
    all_cmds_auto; exact I.
Qed.

Lemma api_handlers_keep_shape (r : ApiRequest) :
  match api_handler r with
  | Running p => all_cmds (keeps api_row_shape real_task) p
  end.
Proof.
  destruct r; cbn [api_handler];
    unfold Api.create_upload_url, Api.upload_document, Api.upload_complete_webhook,
      Api.process_document, Api.get_document_status, Api.download_document,
      Api.delete_job;
    all_cmds_auto; try exact I;
    first [ apply signed_url_keeps_any
          | apply create_record_keeps_shape
          | apply api_update_keeps_shape; shape_conditions ].
Qed.

Lemma api_tasks_keep_shape (t : Task) :
  real_task t -> all_cmds (keeps api_row_shape real_task) (task_body t).
Proof.
  destruct t as [job_id file_path style ev options uid|job_id]; [intros _|intros []].
  cbn [task_body]. unfold Api.process_document_task, Api.pipeline_steps, Api.pipeline_failed.
  all_cmds_auto; try exact I; apply api_update_keeps_shape; shape_conditions.
Qed.

(** In every state the service of api.py can reach, every Job Record
    has one of the four statuses; its progress is 0, 10, 30, 90 or 100,
    and it is 100 exactly when the status is [formatted]; a draft has no
    log; a formatted record has its processing time stamp and its
    formatting time; and the original file name is the file name. *)
Theorem api_rows_keep_their_shape (w : World) (pool : list Thread) :
  api_reachable (w, pool) ->
  forall d, d ∈ documents w ->
    status_known (status d)
    /\ (exists n, progress_shown d = VInt n /\ n ∈ [0; 10; 30; 90; 100])
    /\ (progress_shown d = VInt 100 <-> status d = "formatted")
    /\ (status d = "draft" -> processing_log d = None)
    /\ (status d = "formatted" -> is_Some (processed_at d) /\ is_Some (formatting_time d))
    /\ original_filename d = filename d.
Proof.
  intros Hreach. apply api_reachable_loop in Hreach.
  pose proof (loop_invariant api_handler api_row_shape real_task
                api_handlers_keep_shape api_tasks_keep_shape w pool Hreach) as G.
  rewrite Forall_forall in G. exact G.
Qed.

Lemma api_shape_witness :
  exists d,
    documents finished_world = [d]
    /\ status_known (status d)
    /\ (exists n, progress_shown d = VInt n /\ n ∈ [0; 10; 30; 90; 100])
    /\ (progress_shown d = VInt 100 <-> status d = "formatted")
    /\ (status d = "draft" -> processing_log d = None)
    /\ (status d = "formatted" -> is_Some (processed_at d) /\ is_Some (formatting_time d))
    /\ original_filename d = filename d.
Proof.
  destruct lifecycle_reachable as [[pool H] _].
  eexists. split; [vm_compute; reflexivity|].
  apply (api_rows_keep_their_shape finished_world pool H).
  vm_compute. apply list_elem_of_here.
Defined.

(** ** Where the objects of api.py are *)

Lemma prefix_app_same (p s t : string) :
  String.prefix (p +:+ s) (p +:+ t) = String.prefix s t.
Proof.
  induction p as [|a p IH]; [reflexivity|].
  simpl. destruct (ascii_dec a a) as [_|Hn]; [exact IH|].
  contradiction.
Qed.

Lemma upload_path_prefix (uid rest : string) :
  String.prefix ("documents/" +:+ uid +:+ "/") ("documents/" +:+ uid +:+ "/" +:+ rest)
  = true.
Proof. rewrite !prefix_app_same. simpl. destruct rest; reflexivity. Qed.

Lemma api_signed_returns (fname uid : string) :
  returns (fun info => String.prefix ("documents/" +:+ uid +:+ "/") (file_path info) = true)
    (Api.generate_signed_upload_url fname uid).
Proof.
  unfold Api.generate_signed_upload_url. returns_auto; try exact I.
  apply upload_path_prefix.
Qed.

Lemma api_update_keeps_places (job_id st : string) (p : option Z) (log : option dict)
    (url : option string) (time : option Q) :
  url = None \/ url = Some (Api.result_filename_of job_id) ->
  all_cmds (keeps api_row_places real_task)
    (Api.update_document_status job_id st p log url time).
Proof.
  intros Hurl.
  apply all_cmds_api_update_full; [exact I | intros; exact I |].
  intros u _ _ Hu _ d [Hloc Hres] Hid. unfold api_row_places.
  cbn [apply_update storage_location user_id id_ result_url].
  split; [exact Hloc|]. rewrite Hu. cbn [api_update_data u_result_url].
  destruct Hurl as [->| ->]; cbn [opt_str_truthy or_else]; [exact Hres|].
  rewrite Hid. right. reflexivity.
Qed.

Lemma create_record_keeps_places (uid fname path job_id style variant : string)
    (options : dict) (size : option Z) :
  String.prefix ("documents/" +:+ uid +:+ "/") path = true
  \/ path = legacy_path uid job_id ->
  all_cmds (keeps api_row_places real_task)
    (Api.create_document_record uid fname path job_id style variant options size).
Proof.
  intros Hp. unfold Api.create_document_record. all_cmds_auto; try exact I.
  cbn [keeps]. unfold api_row_places. cbn [storage_location user_id id_ result_url].
  split; [eexists; split; [reflexivity|exact Hp]|left; reflexivity].
Qed.

Lemma api_handlers_keep_places (r : ApiRequest) :
  match api_handler r with
  | Running p => all_cmds (keeps api_row_places real_task) p
  end.
Proof.
  destruct r; cbn [api_handler].
  - unfold Api.create_upload_url.
    apply all_cmds_try_except; [|intros; all_cmds_auto; exact I].
    apply all_cmds_bind; [apply all_cmds_call; exact I|intros job_id].
    eapply all_cmds_bind_returns;
      [apply signed_url_keeps_any | apply api_signed_returns | intros info Hq].
    all_cmds_auto. apply create_record_keeps_places. left. exact Hq.
  - unfold Api.upload_document.
    apply all_cmds_try_except; [|intros; all_cmds_auto; exact I].
    apply all_cmds_bind; [apply all_cmds_call; exact I|intros job_id].
    eapply all_cmds_bind_returns;
      [apply signed_url_keeps_any | apply api_signed_returns | intros info Hq].
    all_cmds_auto. apply create_record_keeps_places. left. exact Hq.
  - unfold Api.upload_complete_webhook. all_cmds_auto; try exact I;
      apply api_update_keeps_places; left; reflexivity.
  - unfold Api.process_document. all_cmds_auto; try exact I;
      apply create_record_keeps_places; right; reflexivity.
  - unfold Api.get_document_status. all_cmds_auto; exact I.
  - unfold Api.download_document. all_cmds_auto; exact I.
  - unfold Api.delete_job. all_cmds_auto; exact I.
Qed.

Lemma api_tasks_keep_places (t : Task) :
  real_task t -> all_cmds (keeps api_row_places real_task) (task_body t).
Proof.
  destruct t as [job_id file_path style ev options uid|job_id]; [intros _|intros []].
  cbn [task_body]. unfold Api.process_document_task, Api.pipeline_steps, Api.pipeline_failed.
  all_cmds_auto; try exact I; apply api_update_keeps_places;
    first [left; reflexivity | right; reflexivity].
Qed.

(** In every state the service of api.py can reach, the source object
    of every Job Record is under the upload folder of the record's owner
    ("documents/<owner>/...") or at the owner's legacy path
    ("legacy/<owner>/<job>.docx"), and its result location is either unset
    or "formatted/<job>.docx" for the record's own id. *)
Theorem api_rows_keep_their_places (w : World) (pool : list Thread) :
  api_reachable (w, pool) ->
  forall d, d ∈ documents w ->
    (exists path,
        storage_location d = Some path
        /\ (String.prefix ("documents/" +:+ user_id d +:+ "/") path = true
            \/ path = legacy_path (user_id d) (id_ d)))
    /\ (result_url d = None \/ result_url d = Some (Api.result_filename_of (id_ d))).
Proof.
  intros Hreach. apply api_reachable_loop in Hreach.
  pose proof (loop_invariant api_handler api_row_places real_task
                api_handlers_keep_places api_tasks_keep_places w pool Hreach) as G.
  rewrite Forall_forall in G. exact G.
Qed.

Lemma api_places_witness :
  exists d,
    documents finished_world = [d]
    /\ storage_location d = Some uploaded_path
    /\ result_url d = Some "formatted/uuid-0.docx"
    /\ (exists path,
           storage_location d = Some path
           /\ (String.prefix ("documents/" +:+ user_id d +:+ "/") path = true
               \/ path = legacy_path (user_id d) (id_ d)))
    /\ (result_url d = None \/ result_url d = Some (Api.result_filename_of (id_ d))).
Proof.
  destruct lifecycle_reachable as [[pool H] _].
  eexists. split; [vm_compute; reflexivity|].
  split; [reflexivity|]. split; [reflexivity|].
  apply (api_rows_keep_their_places finished_world pool H).
  vm_compute. apply list_elem_of_here.
Defined.

(** ** Serving a request to its end *)

Section Serving.

Context {R : Type}.
Variable handler : R -> Thread.

Lemma loop_run {A} (p : Prog A) (w : World) (before after : list Thread) :
  loop_reachable handler (w, (before ++ Running p :: after)%list) ->
  loop_reachable handler
    (snd (run p w),
     (before ++ Running (finished (fst (run p w))) :: after ++ spawned_by (calls p w))%list).
Proof.
  revert w after. induction p as [a|e|X c k IH]; intros w after H.
  - cbn [run calls spawned_by flat_map fst snd finished]. by rewrite app_nil_r.
  - cbn [run calls spawned_by flat_map fst snd finished]. by rewrite app_nil_r.
  - cbn [run calls spawned_by flat_map fst snd].
    rewrite app_assoc. apply IH.
    pose proof (loop_call handler c k w before after (oracle w)) as Hstep.
    cbv zeta in Hstep. rewrite set_oracle_same in Hstep.
    eapply loop_next; eassumption.
Qed.

Lemma loop_serve (r : R) {A} (p : Prog A) (w : World) (pool : list Thread) :
  handler r = Running p ->
  loop_reachable handler (w, pool) ->
  exists pool', loop_reachable handler (snd (run p w), pool').
Proof.
  intros Hr H.
  pose proof (loop_next handler _ _ H (loop_request handler r w pool)) as H1.
  rewrite Hr in H1. apply loop_run in H1. eexists. exact H1.
Qed.

End Serving.

(** ** The shape of the rows of main.py *)

Lemma main_update_keeps_shape (job_id st : string) (p : option Z) (log : option dict) :
  status_known st ->
  match p with
  | Some n =>
      n ∈ [0; 25; 75; 100]
      /\ (st = "formatted" -> n = 100)
      /\ or_empty log !! "error" = None
  | None => st <> "formatted"
  end ->
  all_cmds (keeps main_row_shape simulated_task)
    (Main.update_document_status job_id st p log).
Proof.
  intros Hk Hp.
  apply all_cmds_main_update; [exact I | intros; exact I |].
  intros u Hs Hl Hu d Hsh _. unfold main_row_shape in *.
  destruct Hsh as (_ & Hn & _ & Hres & Herr & Htype).
  unfold progress_shown, error_shown, log_or_empty in *.
  cbn [apply_update status processing_log result_url file_type filename].
  rewrite Hs, Hl, Hu. cbn [main_update_data u_processing_log or_else].
  destruct p as [n|].
  - destruct Hp as (Hin & H100 & He). cbn [or_else].
    rewrite (or_empty_default (Some _)). cbn [default id]. unfold dict_get.
    rewrite lookup_insert_eq, lookup_insert_ne, He by discriminate.
    split; [exact Hk|]. split; [eauto|]. split; [intros H; f_equal; auto|].
    split; [exact Hres|]. split; [reflexivity|exact Htype].
  - cbn [or_else]. split; [exact Hk|]. split; [exact Hn|].
    split; [intros H; contradiction|]. split; [exact Hres|]. split; [exact Herr|exact Htype].
Qed.

Ltac main_conditions :=
  first
    [ unfold status_known; repeat (first [left; reflexivity | right]); reflexivity
    | discriminate
    | split; [in_list|split; [intros H; first [discriminate H|reflexivity]
                             |rewrite or_empty_default; reflexivity]] ].

Lemma main_record_keeps_shape (uid fname path job_id style variant : string)
    (options : dict) (size : option Z) :
  all_cmds (keeps main_row_shape simulated_task)
    (Main.create_document_record uid fname path job_id style variant options size).
Proof.
  unfold Main.create_document_record. all_cmds_auto; try exact I;
    cbn [keeps]; unfold main_row_shape, progress_shown, error_shown, log_or_empty;
    cbn [status processing_log result_url file_type filename];
    (split; [left; reflexivity|]; split; [exists 0; split; [reflexivity|in_list]|];
     split; [intros H; discriminate H|]; repeat split; reflexivity).
Qed.

Lemma main_handlers_keep_shape (r : MainRequest) :
  match main_handler r with
  | Running p => all_cmds (keeps main_row_shape simulated_task) p
  end.
Proof.
  destruct r; cbn [main_handler];
    unfold Main.create_upload_url, Main.upload_document, Main.upload_complete_webhook,
      UploadComplete.upload_complete_webhook, Main.process_document,
      Main.get_document_status, Main.download_document, Main.delete_job,
      Main.check_file_size;
    all_cmds_auto; try exact I;
    first [ apply signed_url_keeps_any
          | apply main_record_keeps_shape
          | apply main_update_keeps_shape; main_conditions ].
Qed.

Lemma main_tasks_keep_shape (t : Task) :
  simulated_task t -> all_cmds (keeps main_row_shape simulated_task) (task_body t).
Proof.
  destruct t as [job_id file_path style ev options uid|job_id]; [intros []|intros _].
  cbn [task_body].
  unfold Main.simulate_processing, Main.simulate_steps, Main.simulate_failed,
    Main.track_usage, Main.track_document_usage, Main.track_storage_usage.
  all_cmds_auto; try exact I; apply main_update_keeps_shape; main_conditions.
Qed.

(** In every state the service of main.py can reach (its handlers, the
    webhook of upload-complete.py and the simulated tasks, interleaved at
    every call, with any faults), every Job Record has one of the four
    statuses and a progress of 0, 25, 75 or 100, which is 100 when the
    status is [formatted]; no record has a result location; no record has
    an error message, the failed ones included; and the file type is the
    extension of the file name. *)
Theorem main_rows_keep_their_shape (w : World) (pool : list Thread) :
  main_reachable (w, pool) ->
  forall d, d ∈ documents w ->
    status_known (status d)
    /\ (exists n, progress_shown d = VInt n /\ n ∈ [0; 25; 75; 100])
    /\ (status d = "formatted" -> progress_shown d = VInt 100)
    /\ result_url d = None
    /\ error_shown d = VNone
    /\ file_type d = Some (extension_of (filename d)).
Proof.
  intros Hreach.
  pose proof (loop_invariant main_handler main_row_shape simulated_task
                main_handlers_keep_shape main_tasks_keep_shape w pool Hreach) as G.
  rewrite Forall_forall in G. exact G.
Qed.

Lemma main_failed_reachable : exists pool, main_reachable (main_failed_world, pool).
Proof.
  assert (H0 : main_reachable (empty_world, [])) by (constructor; reflexivity).
  destruct (loop_serve main_handler
              (MainCreateUpload "thesis.docx" "apa" "us" true (Some 500000) alice) _ _ _
              eq_refl H0) as (pool1 & H1).
  fold main_created_world in H1.
  destruct (loop_serve main_handler (MainUploadComplete failed_upload_notice alice) _ _ _
              eq_refl H1) as (pool2 & H2).
  exists pool2. exact H2.
Qed.

Lemma main_shape_witness :
  exists d,
    documents main_failed_world = [d]
    /\ status d = "failed"
    /\ status_known (status d)
    /\ (exists n, progress_shown d = VInt n /\ n ∈ [0; 25; 75; 100])
    /\ (status d = "formatted" -> progress_shown d = VInt 100)
    /\ result_url d = None
    /\ error_shown d = VNone
    /\ file_type d = Some (extension_of (filename d)).
Proof.
  destruct main_failed_reachable as [pool H].
  eexists. split; [vm_compute; reflexivity|]. split; [reflexivity|].
  apply (main_rows_keep_their_shape main_failed_world pool H).
  vm_compute. apply list_elem_of_here.
Defined.

(** * The catalogues *)

Lemma choice_of_well_formed (row : dict) :
  well_formed row -> Catalogue.choice_of row = Ok (choice_from row).
Proof.
  intros ([c Hc] & [n Hn] & [d Hd]).
  unfold Catalogue.choice_of, Catalogue.item, choice_from. rewrite Hc, Hn, Hd. reflexivity.
Qed.

Lemma choice_of_malformed (row : dict) :
  ~ well_formed row -> exists e, Catalogue.choice_of row = Err e.
Proof.
  intros Hn. unfold Catalogue.choice_of, Catalogue.item.
  destruct (row !! "code") as [c|] eqn:Hc; [|eexists; reflexivity].
  destruct (row !! "name") as [n|] eqn:Hm; [|eexists; reflexivity].
  destruct (row !! "description") as [d|] eqn:Hd; [|eexists; reflexivity].
  exfalso. apply Hn. unfold well_formed. rewrite Hc, Hm, Hd. eauto.
Qed.

Lemma choices_of_well_formed (rows : list dict) :
  Forall well_formed rows -> Catalogue.choices_of rows = Ok (choice_from <$> rows).
Proof.
  induction 1 as [|row rows Hrow Hrows IH]; [reflexivity|].
  cbn [Catalogue.choices_of]. rewrite (choice_of_well_formed row Hrow), IH. reflexivity.
Qed.

Lemma choices_of_malformed (rows : list dict) :
  Exists (fun row => ~ well_formed row) rows -> exists e, Catalogue.choices_of rows = Err e.
Proof.
  induction 1 as [row rows Hrow|row rows Hrows IH]; cbn [Catalogue.choices_of].
  - destruct (choice_of_malformed row Hrow) as [e ->]. eexists. reflexivity.
  - destruct IH as [e ->]. destruct (Catalogue.choice_of row); eexists; reflexivity.
Qed.

(** [get_formatting_styles] and [get_english_variants] of main.py never
    answer an empty list.  When the table holds rows that all have a code,
    a name and a description, the answer is one choice per row, in the
    order of the rows, its id being the row's code.  When the table is
    empty, when the query raises, or when a single row lacks one of the
    three columns, the answer is the whole built-in list, the one api.py
    always answers, and in the last two cases one line is logged. *)
Theorem catalogues_fall_back_as_a_whole (answer : result (list dict)) :
  let styles := Catalogue.get_formatting_styles answer in
  let variants := Catalogue.get_english_variants answer in
  (fst styles <> [] /\ fst variants <> [])
  /\ (forall rows,
         answer = Ok rows -> rows <> [] -> Forall well_formed rows ->
         styles = (choice_from <$> rows, [])
         /\ variants = (choice_from <$> rows, []))
  /\ (forall rows,
         answer = Ok rows -> Exists (fun row => ~ well_formed row) rows ->
         fst styles = Catalogue.api_get_formatting_styles
         /\ fst variants = Catalogue.api_get_english_variants
         /\ length (snd styles) = 1%nat /\ length (snd variants) = 1%nat)
  /\ (answer = Ok [] ->
      styles = (Catalogue.api_get_formatting_styles, [])
      /\ variants = (Catalogue.api_get_english_variants, []))
  /\ (forall e,
         answer = Err e ->
         styles = (Catalogue.api_get_formatting_styles,
                   [(Error, "Error fetching formatting styles: " +:+ str_exn e)])
         /\ variants = (Catalogue.api_get_english_variants,
                        [(Error, "Error fetching English variants: " +:+ str_exn e)])).
Proof.
  cbv zeta. unfold Catalogue.get_formatting_styles, Catalogue.get_english_variants,
    Catalogue.catalogue.
  split; [|split; [|split; [|split]]].
  - destruct answer as [[|row rows]|e]; cbn [fst]; try (split; discriminate).
    cbn [Catalogue.choices_of].
    destruct (Catalogue.choice_of row) as [c|e]; [|split; discriminate].
    destruct (Catalogue.choices_of rows) as [l|e]; split; discriminate.
  - intros rows -> Hne Hwf. destruct rows as [|row rows]; [contradiction|].
    rewrite (choices_of_well_formed _ Hwf). split; reflexivity.
  - intros rows -> Hex. destruct rows as [|row rows]; [inversion Hex|].
    destruct (choices_of_malformed _ Hex) as [e ->]. repeat split; reflexivity.
  - intros ->. split; reflexivity.
  - intros e ->. split; reflexivity.
Qed.

Lemma catalogue_witness :
  Catalogue.get_formatting_styles
    (Ok [style_row "apa7" "APA 7" "APA, seventh edition";
         style_row "harvard" "Harvard" "Harvard referencing"])
  = ([Catalogue.choice "apa7" "APA 7" "APA, seventh edition";
      Catalogue.choice "harvard" "Harvard" "Harvard referencing"], [])
  /\ fst (Catalogue.get_formatting_styles
            (Ok [style_row "apa7" "APA 7" "APA, seventh edition";
                 {["code" := VStr "harvard"]}]))
     = Catalogue.FORMATTING_STYLES.
Proof.
  split.
  - pose proof (catalogues_fall_back_as_a_whole
                  (Ok [style_row "apa7" "APA 7" "APA, seventh edition";
                       style_row "harvard" "Harvard" "Harvard referencing"])) as H.
    cbv zeta in H. destruct H as (_ & H & _).
    destruct (H _ eq_refl) as [Hs _]; [discriminate| |exact Hs].
    repeat constructor; vm_compute; eauto.
  - pose proof (catalogues_fall_back_as_a_whole
                  (Ok [style_row "apa7" "APA 7" "APA, seventh edition";
                       {["code" := VStr "harvard"]}])) as H.
    cbv zeta in H. destruct H as (_ & _ & H & _).
    destruct (H _ eq_refl) as [Hs _]; [|exact Hs].
    apply Exists_cons_tl, Exists_cons_hd. intros (_ & [n Hn] & _).
    vm_compute in Hn. discriminate Hn.
Defined.

(** * Authentication *)

(** [verify_token] of api.py refuses with status code 401 only, and with
    two details only: "Authorization header required" when there are no
    credentials, "Token verification failed" for everything else, a
    token without subject included, whose own detail is caught by the
    [except Exception] of the function.  It accepts exactly the tokens
    that decode to claims with a non-empty subject, and then returns that
    subject and the e-mail claim. *)
Theorem api_verify_token_outcomes (decode : string -> token_exn + dict)
    (credentials : option string) :
  match fst (ApiAuth.verify_token decode credentials) with
  | Ok who =>
      exists token payload,
        credentials = Some token
        /\ decode token = inr payload
        /\ truthy (claim payload "sub") = true
        /\ who = {| i_user_id := claim payload "sub";
                    i_email := claim payload "email";
                    i_profile := None |}
  | Err e =>
      (credentials = None /\ e = HTTPException 401 "Authorization header required")
      \/ (credentials <> None /\ e = HTTPException 401 "Token verification failed")
  end
  /\ (forall token payload,
         credentials = Some token ->
         decode token = inr payload ->
         truthy (claim payload "sub") = true ->
         ApiAuth.verify_token decode credentials
         = (Ok {| i_user_id := claim payload "sub";
                  i_email := claim payload "email";
                  i_profile := None |}, [])).
Proof.
  unfold ApiAuth.verify_token, ApiAuth.verified. split.
  - destruct credentials as [token|]; cbn [fst]; [|left; split; reflexivity].
    destruct (decode token) as [e|payload] eqn:Hd; cbn [fst];
      [right; split; [discriminate|reflexivity]|].
    destruct (truthy (claim payload "sub")) eqn:Ht; cbn [negb fst].
    + exists token, payload. repeat split; assumption.
    + right. split; [discriminate|reflexivity].
  - intros token payload -> Hd Ht. rewrite Hd, Ht. reflexivity.
Qed.

Lemma api_verify_token_witness :
  ApiAuth.verify_token sample_decode (Some "alice")
  = (Ok {| i_user_id := VStr "alice"; i_email := VStr "a@example.org";
           i_profile := None |}, []).
Proof.
  destruct (api_verify_token_outcomes sample_decode (Some "alice")) as [_ H].
  etransitivity;
    [apply (H "alice" (<["sub" := VStr "alice"]> {["email" := VStr "a@example.org"]}));
     reflexivity|].
  vm_compute. reflexivity.
Defined.

(** [verify_token] of main.py refuses with status code 401 only.  An
    expired token and an invalid one get details of their own; a token
    without subject, a user without profile and a failing profile lookup
    all get "Token verification failed", the details the function
    raises for the first two being caught by its own [except Exception].
    It accepts exactly the tokens with a non-empty subject whose user has
    a profile, and returns the first profile found. *)
Theorem main_verify_token_outcomes (decode : string -> token_exn + dict)
    (profiles : value -> token_exn + list dict) (credentials : option string) :
  let outcome := fst (MainAuth.verify_token decode profiles credentials) in
  (forall e, outcome = Err e -> exists detail, e = HTTPException 401 detail)
  /\ (forall who,
         outcome = Ok who <->
         exists token payload profile rest,
           credentials = Some token
           /\ decode token = inr payload
           /\ truthy (claim payload "sub") = true
           /\ profiles (claim payload "sub") = inr (profile :: rest)
           /\ who = {| i_user_id := claim payload "sub";
                       i_email := claim payload "email";
                       i_profile := Some profile |})
  /\ (forall token payload,
         credentials = Some token ->
         decode token = inr payload ->
         truthy (claim payload "sub") = false
         \/ profiles (claim payload "sub") = inr []
         \/ (exists e, profiles (claim payload "sub") = inl (OtherError e)) ->
         outcome = Err (HTTPException 401 "Token verification failed"))
  /\ (forall token msg,
         credentials = Some token ->
         (decode token = inl (ExpiredSignatureError msg) ->
          outcome = Err (HTTPException 401 "Token has expired"))
         /\ (decode token = inl (InvalidTokenError msg) ->
             outcome = Err (HTTPException 401 ("Invalid token: " +:+ msg)))).
Proof.
  cbv zeta. unfold MainAuth.verify_token, MainAuth.verified.
  split; [|split; [|split]].
  - intros e. destruct credentials as [token|]; cbn [fst];
      [|intros [= <-]; eexists; reflexivity].
    destruct (decode token) as [[m|m|e0]|payload]; cbn [fst];
      try (intros [= <-]; eexists; reflexivity).
    destruct (truthy (claim payload "sub")); cbn [negb fst];
      [|intros [= <-]; eexists; reflexivity].
    destruct (profiles (claim payload "sub")) as [[m|m|e0]|[|profile rest]]; cbn [fst];
      try (intros [= <-]; eexists; reflexivity).
  - intros who. split.
    + destruct credentials as [token|]; cbn [fst]; [|discriminate].
      destruct (decode token) as [[m|m|e0]|payload] eqn:Hd; cbn [fst]; try discriminate.
      destruct (truthy (claim payload "sub")) eqn:Ht; cbn [negb fst]; [|discriminate].
      destruct (profiles (claim payload "sub")) as [[m|m|e0]|[|profile rest]] eqn:Hp;
        cbn [fst]; try discriminate.
      intros [= <-]. exists token, payload, profile, rest. repeat split; assumption.
    + intros (token & payload & profile & rest & -> & Hd & Ht & Hp & ->).
      rewrite Hd, Ht. cbn [negb]. rewrite Hp. reflexivity.
  - intros token payload -> Hd H. rewrite Hd.
    destruct H as [Ht|[Hp|[e Hp]]].
    + rewrite Ht. reflexivity.
    + destruct (truthy (claim payload "sub")); cbn [negb]; [|reflexivity].
      rewrite Hp. reflexivity.
    + destruct (truthy (claim payload "sub")); cbn [negb]; [|reflexivity].
      rewrite Hp. reflexivity.
  - intros token msg ->. split; intros ->; reflexivity.
Qed.

Lemma main_verify_token_witness :
  fst (MainAuth.verify_token sample_decode sample_profiles (Some "no-sub"))
  = Err (HTTPException 401 "Token verification failed")
  /\ fst (MainAuth.verify_token sample_decode sample_profiles (Some "bob"))
     = Err (HTTPException 401 "Token verification failed")
  /\ fst (MainAuth.verify_token sample_decode sample_profiles (Some "expired"))
     = Err (HTTPException 401 "Token has expired")
  /\ fst (MainAuth.verify_token sample_decode sample_profiles (Some "alice"))
     = Ok {| i_user_id := VStr "alice"; i_email := VStr "a@example.org";
             i_profile := Some {["id" := VStr "alice"]} |}.
Proof.
  pose proof (main_verify_token_outcomes sample_decode sample_profiles) as H.
  split; [|split; [|split]].
  - destruct (H (Some "no-sub")) as (_ & _ & H3 & _).
    apply (H3 "no-sub" {["email" := VStr "a@example.org"]} eq_refl eq_refl).
    left. reflexivity.
  - destruct (H (Some "bob")) as (_ & _ & H3 & _).
    apply (H3 "bob" (<["sub" := VStr "bob"]> {["email" := VStr "a@example.org"]})
             eq_refl eq_refl).
    right. left. reflexivity.
  - destruct (H (Some "expired")) as (_ & _ & _ & H4).
    apply (H4 "expired" "Signature has expired" eq_refl). reflexivity.
  - destruct (H (Some "alice")) as (_ & H2 & _). apply H2.
    exists "alice", (<["sub" := VStr "alice"]> {["email" := VStr "a@example.org"]}),
      {["id" := VStr "alice"]}, []. repeat split; reflexivity.
Defined.

(** * Usage tracking of main.py *)

Lemma exec_select_by_id (job_id : string) (w w1 : World) (rows : list Document) :
  exec (DbSelectById job_id) w = (Ok rows, w1) -> rows = rows_of job_id w.
Proof.
  unfold exec, rows_of. cbn [remote normal].
  destruct (oracle w) as [|[e|] rest]; intros [= <- _]; reflexivity.
Qed.

Lemma rpcs_cons (e : Event) (l : list Event) :
  rpcs (e :: l) = match rpc_of e with Some r => r :: rpcs l | None => rpcs l end.
Proof. reflexivity. Qed.

Lemma exec_select_by_id_calm (job_id : string) (w : World) :
  exec (DbSelectById job_id) (calm w) = (Ok (rows_of job_id w), calm w).
Proof. reflexivity. Qed.

Lemma exec_rpc_calm (name uid : string) (gb : option Q) (w : World) :
  exec (Rpc name uid gb) (calm w) = (Ok tt, calm w).
Proof. reflexivity. Qed.

(** A remote call meets the head of the oracle. *)
Lemma exec_remote_head {X} (c : Cmd X) (w : World) (o : option exn)
    (rest : list (option exn)) :
  remote c = true ->
  oracle w = o :: rest ->
  exec c w = match o with
             | None => normal c (set_oracle rest w)
             | Some e => (Err e, set_oracle rest w)
             end.
Proof. intros Hr Ho. unfold exec. rewrite Hr, Ho. destruct o; reflexivity. Qed.

(** The usage tracking at the end of a simulated run ([track_usage],
    with [track_document_usage] and [track_storage_usage]) never raises
    and writes neither table nor bucket.  It charges nobody but the owner
    of the first row found for the job, the document before the storage,
    and it does not try the storage once the document charge failed.
    When no call fails, a job that is found is charged both, and a job
    that is not found is charged nothing and logged as a warning. *)
Theorem usage_is_charged_to_the_owner_in_order (job_id : string) (log : dict) (w : World) :
  let p := Main.track_usage job_id log in
  let tried := rpcs (calls p w) in
  fst (run p w) = Ok tt
  /\ documents (snd (run p w)) = documents w
  /\ bucket (snd (run p w)) = bucket w
  /\ match rows_of job_id w with
     | [] => tried = []
     | doc :: _ =>
         tried = [] \/ tried = take 1 (charges (user_id doc) log)
         \/ tried = charges (user_id doc) log
     end
  /\ (quiet w ->
      match rows_of job_id w with
      | [] =>
          tried = []
          /\ logged (calls p w)
             = [(Warning, "Could not find document record for job_id: " +:+ job_id)]
      | doc :: _ => tried = charges (user_id doc) log /\ logged (calls p w) = []
      end)
  /\ (forall e rest doc others,
         oracle w = None :: Some e :: rest ->
         rows_of job_id w = doc :: others ->
         tried = take 1 (charges (user_id doc) log)
         /\ logged (calls p w)
            = [(Error, "Error tracking document usage: " +:+ str_exn e);
               (Error, "Error tracking usage for job " +:+ job_id +:+ ": " +:+ str_exn e)]).
Proof.
  cbv zeta. split; [apply track_usage_returns|].
  assert (Hro : all_cmds read_only (Main.track_usage job_id log)).
  { unfold Main.track_usage, Main.track_document_usage, Main.track_storage_usage.
    all_cmds_auto; exact I. }
  destruct (read_only_run _ w Hro) as (Hd & Hb & _).
  split; [exact Hd|]. split; [exact Hb|]. clear Hro Hd Hb.
  split; [|split].
  - unfold Main.track_usage, Main.track_document_usage, Main.track_storage_usage.
    rewrite calls_try_except, run_await, calls_await.
    destruct (exec (DbSelectById job_id) w) as [[rows|e0] w1] eqn:Hsel; cbn [fst snd].
    + apply exec_select_by_id in Hsel. rewrite <- Hsel.
      destruct rows as [|doc others]; [reflexivity|].
      walk; cbn [rpcs omap rpc_of charges take]; auto.
    + destruct (rows_of job_id w); cbn [run calls fst snd app rpcs omap rpc_of]; auto.
  - intros Hq. destruct (run_quiet (Main.track_usage job_id log) w Hq) as (_ & _ & ->).
    unfold Main.track_usage, Main.track_document_usage, Main.track_storage_usage.
    rewrite calls_try_except, run_await, calls_await, exec_select_by_id_calm.
    cbn [fst snd].
    destruct (rows_of job_id w) as [|doc others]; [split; reflexivity|].
    repeat (progress (rewrite ?run_try_except, ?calls_try_except, ?run_bind, ?calls_bind,
                        ?run_call, ?calls_call, ?exec_rpc_calm;
                      cbn [fst snd run calls app])).
    split; reflexivity.
  - intros e rest doc others Ho Hrows.
    unfold Main.track_usage, Main.track_document_usage, Main.track_storage_usage.
    rewrite calls_try_except, run_await, calls_await.
    rewrite (exec_remote_head (DbSelectById job_id) w _ _ eq_refl Ho).
    cbn [normal fst snd documents set_oracle]. fold (rows_of job_id w). rewrite Hrows.
    repeat (progress (rewrite ?run_try_except, ?calls_try_except, ?run_bind, ?calls_bind,
                        ?run_call, ?calls_call, ?exec_log,
                        ?(exec_remote_head
                            (Rpc "increment_document_usage" (user_id doc) None)
                            (set_oracle (Some e :: rest) w) (Some e) rest eq_refl eq_refl);
                      cbn [fst snd run calls app])).
    split; reflexivity.
Qed.

Lemma usage_witness :
  let p := Main.track_usage "job-1" Main.simulated_log in
  rpcs (calls p accepted_world) = charges "alice" Main.simulated_log
  /\ logged (calls p accepted_world) = []
  /\ rpcs (calls p unbilled_world) = [("increment_document_usage", "alice", None)]
  /\ logged (calls p unbilled_world)
     = [(Error, "Error tracking document usage: rpc unavailable");
        (Error, "Error tracking usage for job job-1: rpc unavailable")].
Proof.
  cbv zeta.
  pose proof (usage_is_charged_to_the_owner_in_order "job-1" Main.simulated_log) as H.
  cbv zeta in H.
  destruct (H accepted_world) as (_ & _ & _ & _ & Hq & _).
  destruct (H unbilled_world) as (_ & _ & _ & _ & _ & Hf).
  destruct (Hq (Forall_nil_2 _)) as [Hq1 Hq2].
  destruct (Hf (Exception "rpc unavailable") []
              (sample_row "formatted" (Some Main.simulated_log) None) []
              eq_refl eq_refl) as [Hf1 Hf2].
  split; [exact Hq1|]. split; [exact Hq2|]. split; [exact Hf1|exact Hf2].
Defined.

(** * The legacy upload endpoints *)

(** What the two helpers of main.py raise is an [HTTPException]. *)
Lemma main_signing_raises_http (filename uid : string) (w : World) (e : exn) :
  fst (run (Main.generate_signed_upload_url filename uid) w) = Err e -> is_http e = true.
Proof.
  unfold Main.generate_signed_upload_url. rewrite run_try_except.
  match goal with
  | |- context [fst (run ?p w)] => destruct (run p w) as [[a|e0] w1]
  end; cbn [fst snd]; [discriminate|].
  unwind. intros [= <-]. reflexivity.
Qed.

Lemma main_record_raises_http (uid filename path job_id style variant : string)
    (options : dict) (size : option Z) (w : World) (e : exn) :
  fst (run (Main.create_document_record uid filename path job_id style variant options size)
         w) = Err e ->
  is_http e = true.
Proof.
  unfold Main.create_document_record. rewrite run_try_except.
  match goal with
  | |- context [fst (run ?p w)] => destruct (run p w) as [[a|e0] w1]
  end; cbn [fst snd]; [discriminate|].
  unwind. intros [= <-]. reflexivity.
Qed.

Lemma inserted_but_log (l : list Event) (level : Level) (msg : string) :
  inserted (l ++ [Called (Log level msg)]) = inserted l.
Proof. unfold inserted. rewrite omap_app. apply app_nil_r. Qed.

Lemma signings_but_log (l : list Event) (level : Level) (msg : string) :
  signings (l ++ [Called (Log level msg)]) = signings l.
Proof. unfold signings. rewrite omap_app. apply app_nil_r. Qed.

(** [upload_document], the endpoint kept for compatibility, is
    [create_upload_url] under another message, in api.py and in main.py:
    from the same world and for the same request the two make the same
    calls on the storage and the table and leave the same world; when one
    answers so does the other, with the same job id, URL, token, path and
    headers; when one raises so does the other.  In api.py both raise
    status code 500, [upload_document] putting "Upload failed: " before
    the cause; in main.py both raise the same exception, the 400 of a
    refused size included. *)
Theorem legacy_upload_is_create_upload
    (filename style variant : string) (tracked : bool) (size : option Z) (user : User)
    (w : World) :
  let a := Api.create_upload_url filename style variant tracked size user in
  let b := Api.upload_document filename style variant tracked size user in
  let a' := Main.create_upload_url filename style variant tracked size user in
  let b' := Main.upload_document filename style variant tracked size user in
  (snd (run b w) = snd (run a w)
   /\ inserted (calls b w) = inserted (calls a w)
   /\ signings (calls b w) = signings (calls a w)
   /\ match fst (run a w), fst (run b w) with
      | Ok r, Ok r' =>
          cu_message r = "Upload URL created."
          /\ r' = with_message (queued_message style) r
      | Err e, Err e' =>
          exists cause,
            e = HTTPException 500 (str_exn cause)
            /\ e' = HTTPException 500 ("Upload failed: " +:+ str_exn cause)
      | _, _ => False
      end)
  /\ (snd (run b' w) = snd (run a' w)
      /\ inserted (calls b' w) = inserted (calls a' w)
      /\ signings (calls b' w) = signings (calls a' w)
      /\ match fst (run a' w), fst (run b' w) with
         | Ok r, Ok r' => r' = with_message (queued_message style) r
         | Err e, Err e' => e' = e /\ is_http e = true
         | _, _ => False
         end).
Proof.
  cbv zeta. split.
  - unfold Api.create_upload_url, Api.upload_document.
    rewrite !run_try_except, !calls_try_except, !run_bind, !calls_bind, !run_call,
      !calls_call, !exec_uuid4.
    cbn [fst snd].
    set (w1 := set_uuid_next (S (uuid_next w)) w).
    rewrite ?run_bind, ?calls_bind.
    destruct (run (Api.generate_signed_upload_url filename (u_user_id user)) w1)
      as [[info|e] w2]; cbn [fst snd].
    + rewrite ?run_bind, ?calls_bind.
      match goal with
      | |- context [run ?p w2] => destruct (run p w2) as [[j|e] w3]
      end; cbn [fst snd run calls].
      * rewrite !app_nil_r. repeat split; reflexivity.
      * unwind. rewrite ?app_comm_cons, !inserted_but_log, !signings_but_log.
        do 3 (split; [reflexivity|]). exists e. split; reflexivity.
    + unwind. rewrite ?app_comm_cons, !inserted_but_log, !signings_but_log.
      do 3 (split; [reflexivity|]). exists e. split; reflexivity.
  - unfold Main.create_upload_url, Main.upload_document.
    rewrite !run_try_except, !calls_try_except, !run_bind, !calls_bind, !run_call,
      !calls_call, !exec_uuid4.
    cbn [fst snd].
    set (w1 := set_uuid_next (S (uuid_next w)) w).
    rewrite ?run_bind, ?calls_bind.
    destruct (run (Main.check_file_size size) w1) as [[[]|e] w2] eqn:Hsize; cbn [fst snd].
    + rewrite ?run_bind, ?calls_bind.
      destruct (run (Main.generate_signed_upload_url filename (u_user_id user)) w2)
        as [[info|e] w3] eqn:Hsign; cbn [fst snd].
      * rewrite ?run_bind, ?calls_bind.
        match goal with
        | |- context [run ?p w3] => destruct (run p w3) as [[j|e] w4] eqn:Hrec
        end; cbn [fst snd run calls].
        -- rewrite !app_nil_r. repeat split; reflexivity.
        -- assert (He : is_http e = true)
             by (eapply main_record_raises_http; rewrite Hrec; reflexivity).
           destruct e; try discriminate He. cbn [run calls fst snd].
           repeat split; reflexivity.
      * assert (He : is_http e = true)
          by (eapply main_signing_raises_http; rewrite Hsign; reflexivity).
        destruct e; try discriminate He. cbn [run calls fst snd].
        repeat split; reflexivity.
    + assert (He : is_http e = true).
      { unfold Main.check_file_size in Hsize. destruct size as [n|]; [|discriminate Hsize].
        destruct (n <? 0); [injection Hsize as <- _; reflexivity|].
        destruct (Main.max_file_size <? n); [injection Hsize as <- _; reflexivity|].
        discriminate Hsize. }
      destruct e; try discriminate He. cbn [run calls fst snd].
      repeat split; reflexivity.
Qed.

(** * The legacy request of main.py *)

Lemma exec_insert (d : Document) (w : World) :
  match exec (DbInsert d) w with
  | (Ok rows, w') =>
      rows = [d] /\ documents w' = (documents w ++ [d])%list /\ bucket w' = bucket w
  | (Err _, w') => documents w' = documents w /\ bucket w' = bucket w
  end.
Proof.
  unfold exec. cbn [remote normal].
  destruct (oracle w) as [|[e|] rest]; repeat split; reflexivity.
Qed.

(** [process_document] of main.py never touches the bucket: the content
    of the request is kept in the options of the row it inserts, stored
    under "legacy/<job>", whose id is a fresh uuid.  When it answers, the
    answer says [draft], the row is the one draft added to the table, and
    one simulated run is scheduled for the job.  When it raises, the
    exception is the status code 500 of [create_document_record], the
    table is as it was and no run is scheduled. *)
Theorem main_legacy_process_outcomes
    (request : ProcessDocumentRequest) (user : User) (w : World) :
  let p := Main.process_document request user in
  let job := uuids (env w) (uuid_next w) in
  bucket (snd (run p w)) = bucket w
  /\ Forall
       (fun row =>
          columns_of row
          = draft_columns (u_user_id user) (pr_filename request) ("legacy/" +:+ job) job
              (pr_style request) (pr_englishVariant request) (legacy_options request) None)
       (inserted (calls p w))
  /\ match fst (run p w) with
     | Ok r =>
         r = {| pd_success := true;
                pd_job_id := job;
                pd_status := "draft";
                pd_message := "Document queued for " +:+ pr_style request +:+ " formatting" |}
         /\ (exists row,
                inserted (calls p w) = [row]
                /\ documents (snd (run p w)) = (documents w ++ [row])%list)
         /\ tasks_created (calls p w) = [SimulateProcessing job]
     | Err e =>
         (exists cause,
             e = HTTPException 500 ("Failed to create document record: " +:+ cause))
         /\ documents (snd (run p w)) = documents w
         /\ tasks_created (calls p w) = []
     end.
Proof.
  cbv zeta. unfold Main.process_document, Main.create_document_record, legacy_options.
  unwind.
  match goal with
  | |- context [exec (DbInsert ?d) ?v] =>
      pose proof (exec_insert d v) as Hins;
      destruct (exec (DbInsert d) v) as [[rows|e] w1]
  end; cbn [fst snd] in *.
  - destruct Hins as (-> & Hd & Hb). unwind.
    cbn [inserted tasks_created omap insert_of task_of].
    split; [exact Hb|]. split.
    + constructor; [reflexivity|constructor].
    + split; [reflexivity|]. split; [|reflexivity].
      eexists. split; [reflexivity|exact Hd].
  - destruct Hins as (Hd & Hb). unwind.
    cbn [inserted tasks_created omap insert_of task_of].
    split; [exact Hb|]. split.
    + constructor; [reflexivity|constructor].
    + split; [eexists; reflexivity|]. split; [exact Hd|reflexivity].
Qed.

(** * The file type of a record *)

Lemma prefix_dot (c : ascii) (rest : string) :
  String.prefix "." (String c rest) = is_dot c.
Proof.
  unfold is_dot. cbn [String.prefix]. destruct (ascii_dec "." c); [|reflexivity].
  destruct rest; reflexivity.
Qed.

Lemma contains_dot_cons (c : ascii) (rest : string) :
  Str.contains "." (String c rest) = is_dot c || Str.contains "." rest.
Proof. cbn [Str.contains]. rewrite prefix_dot. reflexivity. Qed.

Lemma contains_dot_nil : Str.contains "." EmptyString = false.
Proof. reflexivity. Qed.

Lemma contains_dot_rev_acc (s acc : string) :
  Str.contains "." (Str.rev_acc s acc) = Str.contains "." s || Str.contains "." acc.
Proof.
  revert acc. induction s as [|c s IH]; intros acc; [reflexivity|].
  cbn [Str.rev_acc]. rewrite IH, !contains_dot_cons.
  destruct (is_dot c), (Str.contains "." s), (Str.contains "." acc); reflexivity.
Qed.

Lemma rev_acc_rev_acc (s a b : string) :
  Str.rev_acc (Str.rev_acc s a) b = Str.rev_acc a (s +:+ b).
Proof.
  revert a b. induction s as [|c s IH]; intros a b; [reflexivity|].
  cbn [Str.rev_acc]. rewrite IH. reflexivity.
Qed.

Lemma append_nil_r (s : string) : s +:+ EmptyString = s.
Proof.
  induction s as [|c s IH]; [reflexivity|].
  change (String c s +:+ EmptyString) with (String c (s +:+ EmptyString)).
  rewrite IH. reflexivity.
Qed.

Lemma split_dot_cons (c : ascii) (rest cur : string) :
  Str.split_from "." 0 cur (String c rest)
  = if is_dot c
    then Str.rev cur :: Str.split_from "." 0 EmptyString rest
    else Str.split_from "." 0 (String c cur) rest.
Proof.
  change (Str.split_from "." 0 cur (String c rest))
    with (if String.prefix "." (String c rest)
          then Str.rev cur :: Str.split_from "." 0 EmptyString rest
          else Str.split_from "." 0 (String c cur) rest).
  rewrite prefix_dot. reflexivity.
Qed.

Lemma split_dot_not_nil (s cur : string) : Str.split_from "." 0 cur s <> [].
Proof.
  revert cur. induction s as [|c s IH]; intros cur; [discriminate|].
  rewrite split_dot_cons. destruct (is_dot c); [discriminate|apply IH].
Qed.

Lemma last_piece_cons (x : string) (l : list string) :
  l <> [] -> Str.last_piece (x :: l) = Str.last_piece l.
Proof. destruct l; [contradiction|reflexivity]. Qed.

(** The name has no full stop: one piece, the name itself. *)
Lemma split_dot_free (s cur : string) :
  Str.contains "." s = false ->
  Str.split_from "." 0 cur s = [Str.rev (Str.rev_acc s cur)].
Proof.
  revert cur. induction s as [|c s IH]; intros cur H; [reflexivity|].
  rewrite contains_dot_cons in H. apply orb_false_iff in H as [Hc Hs].
  rewrite split_dot_cons, Hc. apply IH, Hs.
Qed.

(** The last piece is what follows the last full stop. *)
Lemma last_piece_after_dot (base ext cur : string) :
  Str.contains "." ext = false ->
  Str.last_piece (Str.split_from "." 0 cur (base +:+ "." +:+ ext)) = ext.
Proof.
  intros Hext. revert cur. induction base as [|c base IH]; intros cur.
  - change (EmptyString +:+ "." +:+ ext) with (String "." ext).
    rewrite split_dot_cons. cbn [is_dot]. change (is_dot ".") with true. cbv iota.
    rewrite last_piece_cons by apply split_dot_not_nil.
    rewrite split_dot_free by exact Hext.
    cbn [Str.last_piece List.last]. unfold Str.rev.
    rewrite rev_acc_rev_acc. cbn [Str.rev_acc]. apply append_nil_r.
  - change (String c base +:+ "." +:+ ext) with (String c (base +:+ "." +:+ ext)).
    rewrite split_dot_cons. destruct (is_dot c); [|apply IH].
    rewrite last_piece_cons by apply split_dot_not_nil. apply IH.
Qed.

Lemma contains_dot_after (base ext : string) :
  Str.contains "." (base +:+ "." +:+ ext) = true.
Proof.
  induction base as [|c base IH].
  - change (EmptyString +:+ "." +:+ ext) with (String "." ext).
    rewrite contains_dot_cons. reflexivity.
  - change (String c base +:+ "." +:+ ext) with (String c (base +:+ "." +:+ ext)).
    rewrite contains_dot_cons, IH. apply orb_true_r.
Qed.

Lemma split_dot_pieces (s cur : string) :
  Str.contains "." cur = false ->
  Forall (fun piece => Str.contains "." piece = false) (Str.split_from "." 0 cur s).
Proof.
  revert cur. induction s as [|c s IH]; intros cur Hcur.
  - constructor; [|constructor]. unfold Str.rev. rewrite contains_dot_rev_acc, Hcur.
    reflexivity.
  - rewrite split_dot_cons. destruct (is_dot c) eqn:Hc.
    + constructor; [|apply IH; reflexivity].
      unfold Str.rev. rewrite contains_dot_rev_acc, Hcur. reflexivity.
    + apply IH. rewrite contains_dot_cons, Hc, Hcur. reflexivity.
Qed.

Lemma last_piece_Forall (P : string -> Prop) (l : list string) :
  P EmptyString -> Forall P l -> P (Str.last_piece l).
Proof.
  intros H0 H. unfold Str.last_piece. induction H as [|x l Hx Hl IH]; [exact H0|].
  destruct l; [exact Hx|exact IH].
Qed.

Lemma is_dot_lower (c : ascii) : is_dot (Str.lower_ascii c) = is_dot c.
Proof. destruct c as [[] [] [] [] [] [] [] []]; reflexivity. Qed.

Lemma contains_dot_lower (s : string) :
  Str.contains "." (Str.lower s) = Str.contains "." s.
Proof.
  induction s as [|c s IH]; [reflexivity|].
  cbn [Str.lower]. rewrite !contains_dot_cons, is_dot_lower, IH. reflexivity.
Qed.

Lemma lower_ascii_facts (c : ascii) :
  is_ascii c = true ->
  is_ascii (Str.lower_ascii c) = true /\ is_upper (Str.lower_ascii c) = false.
Proof. destruct c as [[] [] [] [] [] [] [] []]; intros H; try discriminate H; split; reflexivity. Qed.

Lemma lower_facts (s : string) :
  ascii_only s = true ->
  ascii_only (Str.lower s) = true /\ has_upper (Str.lower s) = false.
Proof.
  induction s as [|c s IH]; intros H; [split; reflexivity|].
  cbn [ascii_only] in H. apply andb_true_iff in H as [Hc Hs].
  destruct (lower_ascii_facts c Hc) as [H1 H2]. destruct (IH Hs) as [H3 H4].
  cbn [Str.lower ascii_only has_upper]. rewrite H1, H2, H3, H4. split; reflexivity.
Qed.

Lemma ascii_only_rev_acc (s acc : string) :
  ascii_only (Str.rev_acc s acc) = ascii_only s && ascii_only acc.
Proof.
  revert acc. induction s as [|c s IH]; intros acc; [reflexivity|].
  cbn [Str.rev_acc ascii_only]. rewrite IH. cbn [ascii_only].
  destruct (is_ascii c), (ascii_only s), (ascii_only acc); reflexivity.
Qed.

Lemma split_dot_ascii (s cur : string) :
  ascii_only s = true -> ascii_only cur = true ->
  Forall (fun piece => ascii_only piece = true) (Str.split_from "." 0 cur s).
Proof.
  revert cur. induction s as [|c s IH]; intros cur Hs Hcur.
  - constructor; [|constructor]. unfold Str.rev. rewrite ascii_only_rev_acc, Hcur.
    reflexivity.
  - cbn [ascii_only] in Hs. apply andb_true_iff in Hs as [Hc Hs].
    rewrite split_dot_cons. destruct (is_dot c).
    + constructor; [|apply IH; [exact Hs|reflexivity]].
      unfold Str.rev. rewrite ascii_only_rev_acc, Hcur. reflexivity.
    + apply IH; [exact Hs|]. cbn [ascii_only]. rewrite Hc, Hcur. reflexivity.
Qed.

(** The extension that [generate_signed_upload_url] gives the stored
    object, and that [create_document_record] of main.py stores as the
    file type of the row.  For a name without full stop it is "docx".
    For a name whose part after the last full stop is ASCII, it is that
    part with its letters in lower case; the part before may hold any
    character.  For an ASCII name it holds no full stop and no
    upper-case letter.  (A name that ends in a full stop gets the empty
    extension.) *)
Theorem file_type_is_the_last_extension :
  (forall base ext,
      ascii_only ext = true ->
      Str.contains "." ext = false ->
      extension_of (base +:+ "." +:+ ext) = Str.lower ext
      /\ has_upper (extension_of (base +:+ "." +:+ ext)) = false)
  /\ (forall name, Str.contains "." name = false -> extension_of name = "docx")
  /\ (forall name,
         ascii_only name = true ->
         Str.contains "." (extension_of name) = false
         /\ has_upper (extension_of name) = false
         /\ ascii_only (extension_of name) = true)
  /\ (forall uid name path job_id style variant options size w,
         ascii_only name = true ->
         Forall (fun row => file_type row = Some (extension_of name))
           (inserted (calls (Main.create_document_record uid name path job_id style
                               variant options size) w))).
Proof.
  split; [|split; [|split]].
  - intros base ext Ha Hext. unfold extension_of, Str.split.
    rewrite contains_dot_after, last_piece_after_dot by exact Hext.
    split; [reflexivity|]. apply lower_facts, Ha.
  - intros name H. unfold extension_of. rewrite H. reflexivity.
  - intros name Ha. unfold extension_of.
    destruct (Str.contains "." name); [|repeat split; reflexivity].
    assert (Hl : ascii_only (Str.last_piece (Str.split "." name)) = true).
    { apply (last_piece_Forall (fun piece => ascii_only piece = true));
        [reflexivity|]. apply split_dot_ascii; [exact Ha|reflexivity]. }
    destruct (lower_facts _ Hl) as [H1 H2].
    split; [|split; assumption].
    rewrite contains_dot_lower.
    apply (last_piece_Forall (fun piece => Str.contains "." piece = false));
      [reflexivity|]. apply split_dot_pieces. reflexivity.
  - intros uid name path job_id style variant options size w _.
    unfold Main.create_document_record. unwind.
    destruct size as [n|]; [destruct (n <? 0); [|destruct (Main.max_file_size <? n)]|];
      unwind; cbn [inserted omap insert_of]; try (constructor; fail);
      match goal with
      | |- context [exec (DbInsert ?d) ?v] =>
          destruct (exec (DbInsert d) v) as [[rows|e] w1]
      end; cbn [fst snd]; unwind; try destruct rows; unwind; cbn [inserted omap insert_of];
      (constructor; [reflexivity|constructor]).
Qed.

Lemma file_type_witness :
  extension_of "My.Thesis.DOCX" = "docx"
  /\ extension_of "notes." = EmptyString
  /\ extension_of "README" = "docx"
  /\ Str.contains "." (extension_of "a.tar.GZ") = false
  /\ Forall (fun row => file_type row = Some "docx")
       (inserted (calls (Main.create_document_record "alice" "My.Thesis.DOCX" sample_path
                           "job-2" "apa" "us" ∅ None) empty_world)).
Proof.
  destruct file_type_is_the_last_extension as (H1 & H2 & H3 & H4).
  split; [apply (H1 "My.Thesis" "DOCX"); reflexivity|].
  split; [apply (H1 "notes" EmptyString); reflexivity|].
  split; [apply H2; reflexivity|].
  split; [apply (H3 "a.tar.GZ"); reflexivity|].
  exact (H4 "alice" "My.Thesis.DOCX" sample_path "job-2" "apa" "us" ∅ None empty_world
           eq_refl).
Defined.
